(** * Codemni ToolCall agent: the agent loop, the parameter binder, the tool
    registry and the prompt cache, embedded from the Python sources.

    Two implementations live in the repository and both are embedded:
    - [Agent]: [agent/ToolCall_Agent/agent.py]
      ([parse_agent_response], [execute_tool], class [ToolCallAgent]);
    - [Core]: the [core] package ([tool_executor.py], [response_parser.py],
      [agent_config.py], [base_agent.py], [flexible_agent.py]).

    Python values are a closed inductive type, dicts are insertion-ordered
    association lists, exceptions are an explicit result type, and every
    observable effect (a model round-trip, a call of the binder, a call of a
    tool function) is recorded in an event trace.  Verbose printing and
    logging have no influence on any returned value and are left out. *)

From Stdlib Require Import ZArith List String Ascii Bool Lia PeanoNat.
From Stdlib Require Import PrimFloat DecimalString.
Import ListNotations.
Set Warnings "-register-all".
Local Open Scope string_scope.

(** ** Python values *)

(** The values that [json.loads] produces ([None], [bool], [int], [float],
    [str], [list], [dict] with string keys), plus [set], which
    [execute_tool] accepts from a direct caller.  A dict is the list of its
    items in insertion order; a set is the list of its elements in the order
    in which [list(s)] enumerates them. *)
Inductive pyval : Type :=
| PyNone
| PyBool (b : bool)
| PyInt (z : Z)
| PyFloat (x : float)
| PyStr (s : string)
| PyList (l : list pyval)
| PyDict (d : list (string * pyval))
| PySet (l : list pyval).

(** [bool(v)]: the truth value Python gives [v] in [if v] and [not v]. *)
Definition truthy (v : pyval) : bool :=
  match v with
  | PyNone => false
  | PyBool b => b
  | PyInt z => negb (Z.eqb z 0)
  | PyFloat x => negb (PrimFloat.eqb x PrimFloat.zero)
  | PyStr EmptyString => false
  | PyStr (String _ _) => true
  | PyList [] => false
  | PyList (_ :: _) => true
  | PyDict [] => false
  | PyDict (_ :: _) => true
  | PySet [] => false
  | PySet (_ :: _) => true
  end.

(** [v == s] for a string literal [s]. *)
Definition eq_str (v : pyval) (s : string) : bool :=
  match v with
  | PyStr t => String.eqb t s
  | _ => false
  end.

(** [v is None]. *)
Definition is_None (v : pyval) : bool :=
  match v with
  | PyNone => true
  | _ => false
  end.

(** A role is populated when its value is neither falsy (absent, [None],
    empty) nor the sentinel string ["None"]. *)
Definition populated (v : pyval) : bool :=
  truthy v && negb (eq_str v "None").

(** Lists, dicts and sets are unhashable: using one as a dict key, or in
    [v in d], raises [TypeError]. *)
Definition hashable (v : pyval) : bool :=
  match v with
  | PyList _ | PyDict _ | PySet _ => false
  | _ => true
  end.

(** ** Exceptions *)

(** An exception that [except Exception] catches (an instance of
    [Exception]): its class name and [str(e)]. *)
Record exn : Type := Exn { exn_class : string; exn_msg : string }.

Inductive result (A : Type) : Type :=
| Ok (a : A)
| Raise (e : exn).
Arguments Ok {A} a.
Arguments Raise {A} e.

(** ** Strings *)

Definition nl : string := String (ascii_of_nat 10) EmptyString.

(** [c.isalpha()] on code points below 256. *)
Definition isalpha (c : ascii) : bool :=
  let n := nat_of_ascii c in
  (((65 <=? n) && (n <=? 90)) || ((97 <=? n) && (n <=? 122))
   || (n =? 170) || (n =? 181) || (n =? 186)
   || ((192 <=? n) && (n <=? 214)) || ((216 <=? n) && (n <=? 246))
   || (248 <=? n))%nat.

(** [any(c.isalpha() for c in s)]. *)
Fixpoint any_isalpha (s : string) : bool :=
  match s with
  | EmptyString => false
  | String c s' => isalpha c || any_isalpha s'
  end.

(** [c.isspace()] on code points below 256. *)
Definition isspace (c : ascii) : bool :=
  let n := nat_of_ascii c in
  (((9 <=? n) && (n <=? 13)) || ((28 <=? n) && (n <=? 32))
   || (n =? 133) || (n =? 160))%nat.

Fixpoint lstrip (s : string) : string :=
  match s with
  | EmptyString => EmptyString
  | String c s' => if isspace c then lstrip s' else s
  end.

Fixpoint rstrip (s : string) : string :=
  match s with
  | EmptyString => EmptyString
  | String c s' =>
      match rstrip s' with
      | EmptyString => if isspace c then EmptyString else String c EmptyString
      | r => String c r
      end
  end.

(** [s.strip()]. *)
Definition strip (s : string) : string := rstrip (lstrip s).

(** [s.split(',')]: the segments between commas; never empty. *)
Fixpoint split_comma (s : string) : list string :=
  match s with
  | EmptyString => [EmptyString]
  | String c s' =>
      if Ascii.eqb c ","%char then EmptyString :: split_comma s'
      else match split_comma s' with
           | [] => [String c EmptyString]
           | seg :: segs => String c seg :: segs
           end
  end.

(** [[p.strip() for p in s.split(',')]]. *)
Definition split_params (s : string) : list string :=
  map strip (split_comma s).

(** [s.replace(old, new)] for a non-empty [old]: every non-overlapping
    occurrence, leftmost first.  [skip] counts the characters of an
    occurrence that was just replaced and still has to be dropped. *)
Fixpoint replace_from (old new : string) (skip : nat) (s : string) : string :=
  match s with
  | EmptyString => EmptyString
  | String c s' =>
      match skip with
      | S k => replace_from old new k s'
      | O =>
          if String.prefix old s
          then new ++ replace_from old new (String.length old - 1) s'
          else String c (replace_from old new 0 s')
      end
  end.

Definition str_replace (old new s : string) : string :=
  replace_from old new 0 s.

(** [sep.join(l)]. *)
Definition join (sep : string) (l : list string) : string :=
  String.concat sep l.

(** [s[:n]]. *)
Definition take (n : nat) (s : string) : string := String.substring 0 n s.

(** [str(z)] for an [int]. *)
Definition str_of_int (z : Z) : string :=
  NilZero.string_of_int (Z.to_int z).

(** ** Dicts: insertion-ordered association lists with string keys *)

Section Dict.
Context {V : Type}.

Definition dict : Type := list (string * V).

(** [d.get(k)] / [d[k]]. *)
Fixpoint dict_get (d : dict) (k : string) : option V :=
  match d with
  | [] => None
  | (k', v) :: d' => if String.eqb k' k then Some v else dict_get d' k
  end.

(** [k in d]. *)
Definition dict_mem (d : dict) (k : string) : bool :=
  match dict_get d k with
  | Some _ => true
  | None => false
  end.

(** [d[k] = v]: an existing key keeps its position and takes the new
    value, a new key goes to the end. *)
Fixpoint dict_set (d : dict) (k : string) (v : V) : dict :=
  match d with
  | [] => [(k, v)]
  | (k', v') :: d' =>
      if String.eqb k' k then (k', v) :: d' else (k', v') :: dict_set d' k v
  end.

(** [del d[k]] (for a key that is present). *)
Fixpoint dict_del (d : dict) (k : string) : dict :=
  match d with
  | [] => []
  | (k', v') :: d' =>
      if String.eqb k' k then d' else (k', v') :: dict_del d' k
  end.

(** [list(d.keys())]. *)
Definition dict_keys (d : dict) : list string := map fst d.
End Dict.
Arguments dict V : clear implicits.

(** [d.get(k, default)]. *)
Definition dict_get_default {V : Type} (d : dict V) (k : string) (default : V) : V :=
  match dict_get d k with
  | Some v => v
  | None => default
  end.

(** ** The Python runtime and standard library *)

(** The two fences [parse_agent_response] and [parse_json_response] search
    for: [```json ... ```] and ['''json ... ''']. *)
Inductive fence : Type := Backticks | Quotes.

(** What [json.loads(text)] does: it returns a value, raises
    [JSONDecodeError] with a message, or raises something else (a
    [RecursionError] on deeply nested text, a [ValueError] on an integer
    literal with more digits than the interpreter converts). *)
Inductive decoding : Type :=
| Decoded (v : pyval)
| JSONDecodeError (msg : string)
| OtherError (e : exn).

(** Library code the sources call and that is taken as given:
    - [py_repr v]: [str(v)] for a float or a container;
    - [re_search_json f text]: group 1 of
      [re.search(r"<f>json\s*(\{.*?\})\s*<f>", text, re.DOTALL)], if it matches;
    - [json_loads text]: [json.loads(text)];
    - [str_format template query]: [template.format(user_input=query)]. *)
Record PyRuntime : Type := {
  py_repr : pyval -> string;
  re_search_json : fence -> string -> option string;
  json_loads : string -> decoding;
  str_format : string -> string -> result string
}.

(** [str(v)], also what an f-string puts for [{v}]. *)
Definition py_str (rt : PyRuntime) (v : pyval) : string :=
  match v with
  | PyNone => "None"
  | PyBool true => "True"
  | PyBool false => "False"
  | PyInt z => str_of_int z
  | PyStr s => s
  | _ => py_repr rt v
  end.

(** [f"Error: Tool '{tool_name}' not found"]. *)
Definition not_found_error (rt : PyRuntime) (tool_name : pyval) : string :=
  "Error: Tool '" ++ py_str rt tool_name ++ "' not found".

(** [f"Error executing tool '{tool_name}': {str(e)}"]. *)
Definition tool_error (rt : PyRuntime) (tool_name : pyval) (e : exn) : string :=
  "Error executing tool '" ++ py_str rt tool_name ++ "': " ++ exn_msg e.

(** [sub in s]. *)
Fixpoint contains (sub s : string) : bool :=
  String.prefix sub s ||
  match s with
  | EmptyString => false
  | String _ s' => contains sub s'
  end.

(** ** Tool functions, the model collaborator and the event trace *)

(** The shape of one call of a tool function: its positional arguments in
    order and its keyword arguments. *)
Record pycall : Type := Call { args : list pyval; kwargs : dict pyval }.

(** [f()]. *)
Definition no_args : pycall := Call [] [].

(** A tool function is any Python callable: given the arguments of a call it
    returns a value or raises (a call it cannot bind raises [TypeError]). *)
Definition tool_function : Type := pycall -> result pyval.

(** The model collaborator: an object with a [generate_response(prompt)]
    method and whatever state it keeps between calls. *)
Record LLM (St : Type) : Type := {
  llm_state : St;
  generate_response : St -> string -> result string * St
}.
Arguments llm_state {St} _.
Arguments generate_response {St} _ _ _.

(** [llm.generate_response(prompt)]: the reply and the collaborator after
    the call. *)
Definition ask {St : Type} (llm : LLM St) (prompt : string) : result string * LLM St :=
  let (r, s') := generate_response llm (llm_state llm) prompt in
  (r, {| llm_state := s'; generate_response := generate_response llm |}).

(** What one [invoke] does to the outside, in order:
    - [EvGenerate p]: a round-trip to the model with prompt [p];
    - [EvExecute tool params]: a call of the binder ([execute_tool] or
      [ToolExecutor.execute]);
    - [EvCall name c]: a call [c] of the function registered as [name]. *)
Inductive event : Type :=
| EvGenerate (prompt : string)
| EvExecute (tool_name tool_parameters : pyval)
| EvCall (name : string) (c : pycall).

Definition is_generate (e : event) : bool :=
  match e with EvGenerate _ => true | _ => false end.

Definition is_execute (e : event) : bool :=
  match e with EvExecute _ _ => true | _ => false end.

Definition is_call (e : event) : bool :=
  match e with EvCall _ _ => true | _ => false end.

(** A computation that records events and returns or raises. *)
Definition M (A : Type) : Type := (list event * result A)%type.

Definition ret {A : Type} (a : A) : M A := ([], Ok a).

Definition raise {A : Type} (e : exn) : M A := ([], Raise e).

Definition bind {A B : Type} (m : M A) (k : A -> M B) : M B :=
  match m with
  | (t, Ok a) => let (t', r) := k a in ((t ++ t')%list, r)
  | (t, Raise e) => (t, Raise e)
  end.

(** [try: m  except Exception as e: h e]. *)
Definition try_except {A : Type} (m : M A) (h : exn -> M A) : M A :=
  match m with
  | (t, Raise e) => let (t', r) := h e in ((t ++ t')%list, r)
  | (t, Ok a) => (t, Ok a)
  end.

Definition log (e : event) : M unit := ([e], Ok tt).

(** Calling the function registered as [name]. *)
Definition call (name : string) (f : tool_function) (c : pycall) : M pyval :=
  ([EvCall name c], f c).

Notation "x <- m ;; k" := (bind m (fun x => k))
  (at level 61, m at next level, right associativity).
Notation "m ;;; k" := (bind m (fun _ => k))
  (at level 61, right associativity).

Definition trace_of {A : Type} (m : M A) : list event := fst m.

Definition result_of {A : Type} (m : M A) : result A := snd m.

(** [str(v).split(',')], each segment stripped, as positional arguments. *)
Definition comma_args (rt : PyRuntime) (param_string : pyval) : pycall :=
  Call (map PyStr (split_params (py_str rt param_string))) [].

(** [tool_parameters = json.loads(tool_parameters)] when it is a string,
    inside [try: ... except json.JSONDecodeError:].  [Ok None] stands for the
    [except] branch; any other exception of [json.loads] is not caught. *)
Definition decode_if_str (rt : PyRuntime) (tool_parameters : pyval)
  : result (option pyval) :=
  match tool_parameters with
  | PyStr s =>
      match json_loads rt s with
      | Decoded v => Ok (Some v)
      | JSONDecodeError _ => Ok None
      | OtherError e => Raise e
      end
  | v => Ok (Some v)
  end.

(** [d.get(k)]: [None] for a missing key. *)
Definition py_get (d : dict pyval) (k : string) : pyval :=
  dict_get_default d k PyNone.

(** The first of the two fences that matches. *)
Definition find_json_block (rt : PyRuntime) (response : string) : option string :=
  match re_search_json rt Backticks response with
  | Some g => Some g
  | None => re_search_json rt Quotes response
  end.

(** [f"{prompt}\n{scratchpad}" if scratchpad else prompt]. *)
Definition full_prompt_of (prompt scratchpad : string) : string :=
  if truthy (PyStr scratchpad) then prompt ++ nl ++ scratchpad else prompt.

(** How one pass through the body of the [while] loop ends: with a
    [return], or with a new scratchpad for the next pass. *)
Inductive turn : Type :=
| Return (v : pyval)
| Continue (scratchpad : string).

(** * agent/ToolCall_Agent/agent.py *)
Module Agent.

(** An entry of [self.tools]. *)
Record tool_info : Type := {
  description : string;
  function : tool_function
}.

(** [parse_agent_response(response)]: three one-key dicts.  The captured
    group is brace-delimited, so a successful decode is a dict; the last
    branch stands for the [AttributeError] of [.get] on anything else. *)
Definition parse_agent_response (rt : PyRuntime) (response : string)
  : result (dict pyval * dict pyval * dict pyval) :=
  match find_json_block rt response with
  | None =>
      Raise (Exn "ValueError"
               ("Invalid response format: No JSON block found in response: "
                  ++ take 200 response))
  | Some group1 =>
      match json_loads rt group1 with
      | JSONDecodeError msg => Raise (Exn "JSONDecodeError" msg)
      | OtherError e => Raise e
      | Decoded (PyDict parsed_json) =>
          let tool_call :=
            [("Tool call", dict_get_default parsed_json "Tool call" (PyStr "None"))] in
          let tool_parameters :=
            [("Tool Parameters",
              dict_get_default parsed_json "Tool Parameters" (PyStr "None"))] in
          let final_response :=
            [("Final Response",
              dict_get_default parsed_json "Final Response" (PyStr "None"))] in
          Ok (tool_call, tool_parameters, final_response)
      | Decoded _ => Raise (Exn "AttributeError" "object has no attribute 'get'")
      end
  end.

(** [tool_name not in available_tools] followed by
    [available_tools[tool_name]]: an unhashable name raises, a name that is
    no key gives [None]. *)
Definition find_tool (available_tools : dict tool_info) (tool_name : pyval)
  : M (option (string * tool_info)) :=
  if hashable tool_name then
    match tool_name with
    | PyStr name =>
        match dict_get available_tools name with
        | Some info => ret (Some (name, info))
        | None => ret None
        end
    | _ => ret None
    end
  else raise (Exn "TypeError" "unhashable type").

(** [execute_tool(tool_name, tool_parameters, available_tools)]. *)
Definition execute_tool (rt : PyRuntime) (tool_name tool_parameters : pyval)
    (available_tools : dict tool_info) : M pyval :=
  found <- find_tool available_tools tool_name ;;
  match found with
  | None => ret (PyStr (not_found_error rt tool_name))
  | Some (name, info) =>
      let tool_function := call name (function info) in
      if negb (truthy tool_parameters) || eq_str tool_parameters "None"
      then tool_function no_args
      else
        match decode_if_str rt tool_parameters with
        | Raise e => raise e
        | Ok None => ret (PyStr "Error: Invalid parameter format")
        | Ok (Some tool_parameters) =>
            try_except
              (match tool_parameters with
               | PyDict [] => tool_function no_args
               | PyDict (((first_key, first_value) :: _) as items) =>
                   if truthy (PyStr first_key) && any_isalpha first_key
                   then tool_function (Call [] items)
                   else
                     let param_string :=
                       if truthy first_value then first_value else PyStr first_key in
                     tool_function (comma_args rt param_string)
               | PySet [] => raise (Exn "IndexError" "list index out of range")
               | PySet (param_string :: _) =>
                   tool_function (comma_args rt param_string)
               | _ => ret (PyStr "Error: Unexpected parameter type")
               end)
              (fun e => ret (PyStr (tool_error rt tool_name e)))
        end
  end.

(** The attributes of a [ToolCallAgent] that [invoke] reads or writes.  The
    template is the constant [prompt] of [prompt.py], fixed at construction. *)
Record ToolCallAgent (St : Type) : Type := {
  prompt_template : string;
  tools : dict tool_info;
  llm : option (LLM St);
  _compiled_prompt : option string
}.
Arguments prompt_template {St} _.
Arguments tools {St} _.
Arguments llm {St} _.
Arguments _compiled_prompt {St} _.

(** [ToolCallAgent()] with no provider given. *)
Definition init {St : Type} (prompt : string) : ToolCallAgent St :=
  {| prompt_template := prompt; tools := []; llm := None; _compiled_prompt := None |}.

(** [self.add_llm(llm)]. *)
Definition add_llm {St : Type} (self : ToolCallAgent St) (l : LLM St) : ToolCallAgent St :=
  {| prompt_template := prompt_template self; tools := tools self;
     llm := Some l; _compiled_prompt := _compiled_prompt self |}.

(** [self.add_tool(name, description, function)]. *)
Definition add_tool {St : Type} (self : ToolCallAgent St)
    (name description : string) (f : tool_function) : ToolCallAgent St :=
  {| prompt_template := prompt_template self;
     tools := dict_set (tools self) name {| description := description; function := f |};
     llm := llm self;
     _compiled_prompt := _compiled_prompt self |}.

(** The text [_compile_prompt] builds from a template and a tool dict. *)
Definition compile (template : string) (ts : dict tool_info) : string :=
  let tool_list :=
    join nl (map (fun item => "        - " ++ fst item ++ ": " ++ description (snd item)) ts) in
  str_replace "{tool_list}" tool_list template.

(** [self._compile_prompt()]. *)
Definition _compile_prompt {St : Type} (self : ToolCallAgent St) : ToolCallAgent St :=
  {| prompt_template := prompt_template self; tools := tools self; llm := llm self;
     _compiled_prompt := Some (compile (prompt_template self) (tools self)) |}.

(** The scratchpad entry appended after a tool call. *)
Definition scratch_entry (rt : PyRuntime) (tool_name tool_result : pyval) : string :=
  nl ++ nl ++ "--- Previous Tool Call ---" ++ nl
     ++ "Tool Used: " ++ py_str rt tool_name ++ nl
     ++ "Result: " ++ py_str rt tool_result ++ nl ++ nl
     ++ "Now provide the final response to the user based on this result.".

(** The body of the loop from the reply of the model on (lines 282-314). *)
Definition iteration (rt : PyRuntime) (ts : dict tool_info)
    (scratchpad response : string) : M turn :=
  match parse_agent_response rt response with
  | Raise e => ret (Return (PyStr ("Error parsing response: " ++ exn_msg e)))
  | Ok (tool_call, tool_params, final_response) =>
      let tool_name := py_get tool_call "Tool call" in
      if eq_str tool_name "None" || negb (truthy tool_name)
      then
        let final_answer :=
          dict_get_default final_response "Final Response"
            (PyStr "No response provided") in
        ret (Return final_answer)
      else
        let params := py_get tool_params "Tool Parameters" in
        log (EvExecute tool_name params) ;;;
        tool_result <- execute_tool rt tool_name params ts ;;
        ret (Continue (scratchpad ++ scratch_entry rt tool_name tool_result))
  end.

(** [while iteration < max_iterations], with [remaining] the number of
    passes still allowed. *)
Fixpoint loop {St : Type} (rt : PyRuntime) (ts : dict tool_info) (prompt : string)
    (remaining : nat) (scratchpad : string) (l : LLM St) : LLM St * M pyval :=
  match remaining with
  | O => (l, ret (PyStr "Error: Maximum iterations reached"))
  | S remaining' =>
      let full_prompt := full_prompt_of prompt scratchpad in
      let (reply, l') := ask l full_prompt in
      match reply with
      | Raise e => (l', ([EvGenerate full_prompt], Raise e))
      | Ok response =>
          match iteration rt ts scratchpad response with
          | (t, Ok (Return v)) => (l', (EvGenerate full_prompt :: t, Ok v))
          | (t, Ok (Continue scratchpad')) =>
              let (l'', m) := loop rt ts prompt remaining' scratchpad' l' in
              (l'', ((EvGenerate full_prompt :: t ++ fst m)%list, snd m))
          | (t, Raise e) => (l', (EvGenerate full_prompt :: t, Raise e))
          end
      end
  end.

(** [max_iterations = 10  # Prevent infinite loops]. *)
Definition max_iterations : nat := 10.

(** [self.invoke(query)]: the agent after the call (its cache and its
    collaborator may have changed), the events, and the value returned or
    the exception raised. *)
Definition invoke {St : Type} (rt : PyRuntime) (self : ToolCallAgent St) (query : string)
  : ToolCallAgent St * M pyval :=
  match llm self with
  | None => (self, raise (Exn "ValueError" "LLM not set. Call add_llm() first"))
  | Some l =>
      match tools self with
      | [] => (self, raise (Exn "ValueError" "No tools added. Call add_tool() at least once"))
      | _ :: _ =>
          let self :=
            match _compiled_prompt self with
            | None => _compile_prompt self
            | Some _ => self
            end in
          match _compiled_prompt self with
          | None => (self, raise (Exn "AssertionError" EmptyString))
          | Some compiled =>
              match str_format rt compiled query with
              | Raise e => (self, raise e)
              | Ok prompt =>
                  let (l', m) := loop rt (tools self) prompt max_iterations EmptyString l in
                  ({| prompt_template := prompt_template self; tools := tools self;
                      llm := Some l'; _compiled_prompt := _compiled_prompt self |}, m)
              end
          end
      end
  end.

End Agent.

(** * The core package: tool_executor.py, response_parser.py,
    agent_config.py, base_agent.py, flexible_agent.py *)
Module Core.

(** An entry of [ToolExecutor.tools]. *)
Record tool_info : Type := {
  description : string;
  function : tool_function;
  parameter_schema : option pyval
}.

(** ** class ToolExecutor *)

(** [self.register_tool(name, description, function, parameter_schema)]. *)
Definition register_tool (ts : dict tool_info) (name description : string)
    (f : tool_function) (schema : option pyval) : dict tool_info :=
  dict_set ts name
    {| description := description; function := f; parameter_schema := schema |}.

(** [self.unregister_tool(name)]: the registry afterwards and the flag
    returned. *)
Definition unregister_tool (ts : dict tool_info) (name : string)
  : dict tool_info * bool :=
  if dict_mem ts name then (dict_del ts name, true) else (ts, false).

(** [self.get_tool(name)]. *)
Definition get_tool (ts : dict tool_info) (name : string) : option tool_info :=
  dict_get ts name.

(** [self.list_tools()]. *)
Definition list_tools (ts : dict tool_info) : list string := dict_keys ts.

(** [self.get_tools_description()]. *)
Definition get_tools_description (ts : dict tool_info) : string :=
  join nl (map (fun item => "- " ++ fst item ++ ": " ++ description (snd item)) ts).

(** [tool_name not in self.tools] and [self.tools[tool_name]]. *)
Definition find_tool (ts : dict tool_info) (tool_name : pyval)
  : M (option (string * tool_info)) :=
  if hashable tool_name then
    match tool_name with
    | PyStr name =>
        match dict_get ts name with
        | Some info => ret (Some (name, info))
        | None => ret None
        end
    | _ => ret None
    end
  else raise (Exn "TypeError" "unhashable type").

(** [str(m)] for the value a call returns. *)
Definition stringified (rt : PyRuntime) (m : M pyval) : M string :=
  v <- m ;; ret (py_str rt v).

(** [self._execute_with_params(tool_function, tool_parameters, tool_name)],
    with [tool_function] the call of the function registered as [name]. *)
Definition _execute_with_params (rt : PyRuntime) (tool_function : pycall -> M pyval)
    (tool_parameters : pyval) : M string :=
  match tool_parameters with
  | PyDict [] => stringified rt (tool_function no_args)
  | PyDict (((first_key, first_value) :: _) as items) =>
      if truthy (PyStr first_key) && any_isalpha first_key
      then stringified rt (tool_function (Call [] items))
      else
        let param_string :=
          if truthy first_value then first_value else PyStr first_key in
        stringified rt (tool_function (comma_args rt param_string))
  | PySet [] => raise (Exn "IndexError" "list index out of range")
  | PySet (param_string :: _) =>
      stringified rt (tool_function (comma_args rt param_string))
  | PyList elements => stringified rt (tool_function (Call elements []))
  | scalar => stringified rt (tool_function (Call [scalar] []))
  end.

(** [self.execute(tool_name, tool_parameters)]. *)
Definition execute (rt : PyRuntime) (ts : dict tool_info)
    (tool_name tool_parameters : pyval) : M string :=
  found <- find_tool ts tool_name ;;
  match found with
  | None => ret (not_found_error rt tool_name)
  | Some (name, info) =>
      let tool_function := call name (function info) in
      let on_error := fun e : exn => ret (tool_error rt tool_name e) in
      if negb (truthy tool_parameters) || eq_str tool_parameters "None"
      then try_except (stringified rt (tool_function no_args)) on_error
      else
        match decode_if_str rt tool_parameters with
        | Raise e => raise e
        | Ok None => ret "Error: Invalid parameter format"
        | Ok (Some tool_parameters) =>
            try_except (_execute_with_params rt tool_function tool_parameters) on_error
        end
  end.

(** ** class ResponseParser *)

(** [[key for key in required_keys if key not in parsed_json]]. *)
Definition missing_keys (required_keys : list string) (parsed_json : dict pyval)
  : list string :=
  filter (fun key => negb (dict_mem parsed_json key)) required_keys.

(** [ResponseParser.parse_json_response(response, required_keys)].  The
    captured group is brace-delimited, so a successful decode is a dict; the
    last branch stands for what any other value would do. *)
Definition parse_json_response (rt : PyRuntime) (response : string)
    (required_keys : list string) : result (dict pyval) :=
  match find_json_block rt response with
  | None =>
      Raise (Exn "ValueError" ("No JSON block found in response: " ++ take 200 response))
  | Some group1 =>
      match json_loads rt group1 with
      | JSONDecodeError msg => Raise (Exn "ValueError" ("Invalid JSON format: " ++ msg))
      | OtherError e => Raise e
      | Decoded (PyDict parsed_json) =>
          match required_keys with
          | [] => Ok parsed_json
          | _ :: _ =>
              match missing_keys required_keys parsed_json with
              | [] => Ok parsed_json
              | (_ :: _) as missing =>
                  Raise (Exn "ValueError"
                           ("Missing required keys: "
                              ++ py_str rt (PyList (map PyStr missing))))
              end
          end
      | Decoded _ => Raise (Exn "TypeError" "decoded value is not a dict")
      end
  end.

(** ** agent_config.py *)

Record ResponseFormat : Type := {
  required_keys : list string;
  key_mapping : dict string;
  defaults : dict pyval
}.

(** [self.get_json_key(internal_name)]. *)
Definition get_json_key (fmt : ResponseFormat) (internal_name : string) : string :=
  dict_get_default (key_mapping fmt) internal_name internal_name.

Record AgentConfig : Type := {
  name : string;
  config_description : string;
  config_prompt_template : string;
  response_format : ResponseFormat;
  config_max_iterations : Z;
  special_instructions : string;
  examples : list string
}.

(** The response format of [TOOLCALL_AGENT_CONFIG]. *)
Definition TOOLCALL_RESPONSE_FORMAT : ResponseFormat :=
  {| required_keys := ["Tool call"; "Tool Parameters"; "Final Response"];
     key_mapping := [("tool", "Tool call"); ("params", "Tool Parameters");
                     ("response", "Final Response")];
     defaults := [("Tool call", PyStr "None"); ("Tool Parameters", PyStr "None");
                  ("Final Response", PyStr "None")] |}.

(** ** class BaseAgent and class FlexibleAgent *)

(** The attributes of a [FlexibleAgent] (those of [BaseAgent] and its own)
    that the methods below read or write. *)
Record FlexibleAgent (St : Type) : Type := {
  llm : option (LLM St);
  tool_executor : dict tool_info;
  prompt_template : option string;
  _compiled_prompt : option string;
  max_iterations : Z;
  config : AgentConfig
}.
Arguments llm {St} _.
Arguments tool_executor {St} _.
Arguments prompt_template {St} _.
Arguments _compiled_prompt {St} _.
Arguments max_iterations {St} _.
Arguments config {St} _.

(** [FlexibleAgent(config)]. *)
Definition init {St : Type} (cfg : AgentConfig) : FlexibleAgent St :=
  {| llm := None; tool_executor := [];
     prompt_template := Some (config_prompt_template cfg);
     _compiled_prompt := None;
     max_iterations := config_max_iterations cfg;
     config := cfg |}.

(** [self.set_llm(llm)]. *)
Definition set_llm {St : Type} (self : FlexibleAgent St) (l : LLM St) : FlexibleAgent St :=
  {| llm := Some l; tool_executor := tool_executor self;
     prompt_template := prompt_template self;
     _compiled_prompt := _compiled_prompt self;
     max_iterations := max_iterations self; config := config self |}.

(** Assigning [self.tool_executor.tools] and [self._compiled_prompt]. *)
Definition with_tools_and_cache {St : Type} (self : FlexibleAgent St)
    (ts : dict tool_info) (cache : option string) : FlexibleAgent St :=
  {| llm := llm self; tool_executor := ts;
     prompt_template := prompt_template self;
     _compiled_prompt := cache;
     max_iterations := max_iterations self; config := config self |}.

(** [BaseAgent.add_tool]: register, then reset the compiled prompt. *)
Definition add_tool {St : Type} (self : FlexibleAgent St) (name description : string)
    (f : tool_function) (schema : option pyval) : FlexibleAgent St :=
  with_tools_and_cache self
    (register_tool (tool_executor self) name description f schema) None.

(** [BaseAgent.remove_tool]: the compiled prompt is reset when a tool was
    removed. *)
Definition remove_tool {St : Type} (self : FlexibleAgent St) (name : string)
  : FlexibleAgent St * bool :=
  let (ts, removed) := unregister_tool (tool_executor self) name in
  if removed then (with_tools_and_cache self ts None, true)
  else (with_tools_and_cache self ts (_compiled_prompt self), false).

(** [BaseAgent.validate_setup]: [None] when valid, else the message. *)
Definition validate_setup {St : Type} (self : FlexibleAgent St) : option string :=
  match llm self with
  | None => Some "LLM not set. Call set_llm() first"
  | Some _ =>
      if Nat.eqb (List.length (list_tools (tool_executor self))) 0
      then Some "No tools added. Call add_tool() at least once"
      else match prompt_template self with
           | None => Some "Prompt template not set"
           | Some _ => None
           end
  end.

(** The text [FlexibleAgent._compile_prompt] builds. *)
Definition compile (template : string) (cfg : AgentConfig) (ts : dict tool_info) : string :=
  let tool_list := get_tools_description ts in
  let compiled := str_replace "{tool_list}" tool_list template in
  let compiled :=
    if truthy (PyStr (special_instructions cfg))
    then compiled ++ nl ++ nl ++ special_instructions cfg
    else compiled in
  match examples cfg with
  | [] => compiled
  | _ :: _ =>
      let examples_text := nl ++ nl ++ "Examples:" ++ nl ++ join nl (examples cfg) in
      compiled ++ examples_text
  end.

(** [self._compile_prompt()]. *)
Definition _compile_prompt {St : Type} (self : FlexibleAgent St) : result string :=
  match prompt_template self with
  | None => Raise (Exn "AttributeError" "'NoneType' object has no attribute 'replace'")
  | Some template => Ok (compile template (config self) (tool_executor self))
  end.

(** The loop over the four internal keys in [_parse_response]. *)
Fixpoint standardize (fmt : ResponseFormat) (parsed : dict pyval)
    (internal_keys : list string) (standardized : dict pyval) : dict pyval :=
  match internal_keys with
  | [] => standardized
  | internal_key :: rest =>
      let json_key := get_json_key fmt internal_key in
      match dict_get parsed json_key with
      | Some v => standardize fmt parsed rest (dict_set standardized internal_key v)
      | None => standardize fmt parsed rest standardized
      end
  end.

(** [self._parse_response(response)]. *)
Definition _parse_response (rt : PyRuntime) (fmt : ResponseFormat) (response : string)
  : result (dict pyval) :=
  match parse_json_response rt response (required_keys fmt) with
  | Raise e => Raise e
  | Ok parsed => Ok (standardize fmt parsed ["tool"; "params"; "response"; "reasoning"] [])
  end.

(** The scratchpad entry appended after a tool call. *)
Definition scratch_entry (rt : PyRuntime) (tool_name : pyval) (tool_result : string) : string :=
  nl ++ nl ++ "--- Tool Execution ---" ++ nl
     ++ "Tool: " ++ py_str rt tool_name ++ nl
     ++ "Result: " ++ tool_result ++ nl ++ nl
     ++ "Provide the final response based on this result.".

(** The body of the loop from the reply of the model on (lines 126-163). *)
Definition iteration (rt : PyRuntime) (fmt : ResponseFormat) (ts : dict tool_info)
    (scratchpad response : string) : M turn :=
  match _parse_response rt fmt response with
  | Raise e => ret (Return (PyStr ("Error parsing response: " ++ exn_msg e)))
  | Ok parsed =>
      let tool_name := dict_get_default parsed "tool" (PyStr "None") in
      let params := dict_get_default parsed "params" (PyStr "None") in
      let final_answer := dict_get_default parsed "response" (PyStr "None") in
      if eq_str tool_name "None" || is_None tool_name || negb (truthy tool_name)
      then
        ret (Return (if truthy final_answer && negb (eq_str final_answer "None")
                     then final_answer
                     else PyStr "No response provided"))
      else
        log (EvExecute tool_name params) ;;;
        tool_result <- execute rt ts tool_name params ;;
        ret (Continue (scratchpad ++ scratch_entry rt tool_name tool_result))
  end.

(** The text returned when the budget is used up. *)
Definition budget_message (max_iterations : Z) : string :=
  "Error: Maximum iterations (" ++ str_of_int max_iterations ++ ") reached".

(** [while iteration < max_iterations], with [remaining] the number of
    passes still allowed. *)
Fixpoint loop {St : Type} (rt : PyRuntime) (fmt : ResponseFormat) (ts : dict tool_info)
    (prompt_text : string) (max_iterations : Z) (remaining : nat)
    (scratchpad : string) (l : LLM St) : LLM St * M pyval :=
  match remaining with
  | O => (l, ret (PyStr (budget_message max_iterations)))
  | S remaining' =>
      let full_prompt := full_prompt_of prompt_text scratchpad in
      let (reply, l') := ask l full_prompt in
      match reply with
      | Raise e => (l', ([EvGenerate full_prompt], Raise e))
      | Ok response =>
          match iteration rt fmt ts scratchpad response with
          | (t, Ok (Return v)) => (l', (EvGenerate full_prompt :: t, Ok v))
          | (t, Ok (Continue scratchpad')) =>
              let (l'', m) :=
                loop rt fmt ts prompt_text max_iterations remaining' scratchpad' l' in
              (l'', ((EvGenerate full_prompt :: t ++ fst m)%list, snd m))
          | (t, Raise e) => (l', (EvGenerate full_prompt :: t, Raise e))
          end
      end
  end.

(** Assigning [self.llm]. *)
Definition with_llm {St : Type} (self : FlexibleAgent St) (l : LLM St) : FlexibleAgent St :=
  {| llm := Some l; tool_executor := tool_executor self;
     prompt_template := prompt_template self;
     _compiled_prompt := _compiled_prompt self;
     max_iterations := max_iterations self; config := config self |}.

(** [self.invoke(query, **kwargs)], with [kw_max_iterations] the keyword
    argument [max_iterations] when the caller passes one. *)
Definition invoke {St : Type} (rt : PyRuntime) (self : FlexibleAgent St) (query : string)
    (kw_max_iterations : option Z) : FlexibleAgent St * M pyval :=
  match validate_setup self with
  | Some error_msg => (self, raise (Exn "ValueError" error_msg))
  | None =>
      let compiled :=
        match _compiled_prompt self with
        | None => _compile_prompt self
        | Some cached => Ok cached
        end in
      match compiled, llm self with
      | Raise e, _ => (self, raise e)
      | Ok _, None => (self, raise (Exn "AttributeError" "llm"))
      | Ok compiled, Some l =>
          let self := with_tools_and_cache self (tool_executor self) (Some compiled) in
          let max_iterations :=
            match kw_max_iterations with
            | Some n => n
            | None => max_iterations self
            end in
          match str_format rt compiled query with
          | Raise e => (self, raise e)
          | Ok prompt_text =>
              let (l', m) :=
                loop rt (response_format (config self)) (tool_executor self) prompt_text
                  max_iterations (Z.to_nat max_iterations) EmptyString l in
              (with_llm self l', m)
          end
      end
  end.

(** ** Further methods of the core package *)

(** The elements a [for] loop takes from a value: the items of a list or a
    set, the keys of a dict, the characters of a string; anything else is
    not iterable. *)
Definition py_iter (v : pyval) : result (list pyval) :=
  match v with
  | PyList l => Ok l
  | PySet l => Ok l
  | PyDict d => Ok (map (fun kv => PyStr (fst kv)) d)
  | PyStr s => Ok (map (fun c => PyStr (String c EmptyString)) (list_ascii_of_string s))
  | _ => Raise (Exn "TypeError" "object is not iterable")
  end.

(** The loop [for req in required: if req not in parameters: return ...] of
    [validate_parameters]. *)
Fixpoint check_required (rt : PyRuntime) (parameters : dict pyval)
    (required : list pyval) : result (bool * option string) :=
  match required with
  | [] => Ok (true, None)
  | req :: rest =>
      if hashable req then
        let present :=
          match req with
          | PyStr key => dict_mem parameters key
          | _ => false
          end in
        if present then check_required rt parameters rest
        else Ok (false, Some ("Missing required parameter: " ++ py_str rt req))
      else Raise (Exn "TypeError" "unhashable type")
  end.

(** [self.validate_parameters(tool_name, parameters)]. *)
Definition validate_parameters (rt : PyRuntime) (ts : dict tool_info)
    (tool_name : string) (parameters : dict pyval) : result (bool * option string) :=
  match dict_get ts tool_name with
  | None => Ok (false, Some ("Tool '" ++ tool_name ++ "' not found"))
  | Some info =>
      match parameter_schema info with
      | None => Ok (true, None)
      | Some schema =>
          if negb (truthy schema) then Ok (true, None)
          else
            match schema with
            | PyDict d =>
                match py_iter (dict_get_default d "required" (PyList [])) with
                | Raise e => Raise e
                | Ok required => check_required rt parameters required
                end
            | _ => Raise (Exn "AttributeError" "object has no attribute 'get'")
            end
      end
  end.

(** [ResponseParser.parse_tool_call_response(response)]. *)
Definition parse_tool_call_response (rt : PyRuntime) (response : string)
  : result (dict pyval * dict pyval * dict pyval) :=
  let required_keys := ["Tool call"; "Tool Parameters"; "Final Response"] in
  match parse_json_response rt response required_keys with
  | Raise e => Raise e
  | Ok parsed_json =>
      let tool_call :=
        [("Tool call", dict_get_default parsed_json "Tool call" (PyStr "None"))] in
      let tool_parameters :=
        [("Tool Parameters",
          dict_get_default parsed_json "Tool Parameters" (PyStr "None"))] in
      let final_response :=
        [("Final Response",
          dict_get_default parsed_json "Final Response" (PyStr "None"))] in
      Ok (tool_call, tool_parameters, final_response)
  end.

(** [{v: k for k, v in self.key_mapping.items()}]. *)
Definition reverse_map (mapping : dict string) : dict string :=
  fold_left (fun acc kv => dict_set acc (snd kv) (fst kv)) mapping [].

(** [self.get_internal_name(json_key)]. *)
Definition get_internal_name (fmt : ResponseFormat) (json_key : string) : string :=
  dict_get_default (reverse_map (key_mapping fmt)) json_key json_key.

(** The response formats of [ACTION_AGENT_CONFIG], [REACT_AGENT_CONFIG],
    [FUNCTION_AGENT_CONFIG] and [COT_AGENT_CONFIG]. *)
Definition ACTION_RESPONSE_FORMAT : ResponseFormat :=
  {| required_keys := ["action"; "input"; "output"];
     key_mapping := [("tool", "action"); ("params", "input"); ("response", "output")];
     defaults := [("action", PyStr "respond"); ("input", PyStr "None");
                  ("output", PyStr EmptyString)] |}.

Definition REACT_RESPONSE_FORMAT : ResponseFormat :=
  {| required_keys := ["thought"; "action"; "action_input"; "answer"];
     key_mapping := [("tool", "action"); ("params", "action_input");
                     ("response", "answer"); ("reasoning", "thought")];
     defaults := [("thought", PyStr EmptyString); ("action", PyStr "None");
                  ("action_input", PyStr "None"); ("answer", PyStr "None")] |}.

Definition FUNCTION_RESPONSE_FORMAT : ResponseFormat :=
  {| required_keys := ["function"; "args"; "result"];
     key_mapping := [("tool", "function"); ("params", "args"); ("response", "result")];
     defaults := [("function", PyNone); ("args", PyNone); ("result", PyNone)] |}.

Definition COT_RESPONSE_FORMAT : ResponseFormat :=
  {| required_keys := ["reasoning_steps"; "tool_needed"; "tool_args"; "final_answer"];
     key_mapping := [("tool", "tool_needed"); ("params", "tool_args");
                     ("response", "final_answer"); ("reasoning", "reasoning_steps")];
     defaults := [("reasoning_steps", PyList []); ("tool_needed", PyStr "None");
                  ("tool_args", PyStr "None"); ("final_answer", PyStr "None")] |}.

(** The formats of [AGENT_CONFIGS], in the order of the registry. *)
Definition PREDEFINED_FORMATS : list ResponseFormat :=
  [TOOLCALL_RESPONSE_FORMAT; ACTION_RESPONSE_FORMAT; REACT_RESPONSE_FORMAT;
   FUNCTION_RESPONSE_FORMAT; COT_RESPONSE_FORMAT].

(** [create_custom_config(name, prompt_template, required_keys, key_mapping,
    **kwargs)].  Of the keyword arguments the function reads [description]
    and [max_iterations] (and [verbose], which only affects printing); they
    are given here at the types [AgentConfig] declares, and [other] holds
    every further keyword argument of the call. *)
Definition create_custom_config (name prompt_template : string)
    (required_keys : list string) (key_mapping : option (dict string))
    (description : option string) (max_iterations : option Z) (other : dict pyval)
  : AgentConfig :=
  let response_format :=
    {| required_keys := required_keys;
       key_mapping := match key_mapping with
                      | Some ((_ :: _) as mapping) => mapping
                      | _ => []
                      end;
       defaults := [] |} in
  {| name := name;
     config_description := match description with
                           | Some text => text
                           | None => "Custom " ++ name
                           end;
     config_prompt_template := prompt_template;
     response_format := response_format;
     config_max_iterations := match max_iterations with
                              | Some n => n
                              | None => 10%Z
                              end;
     special_instructions := EmptyString;
     examples := [] |}.

End Core.

(** * agent/ToolCall_Agent/llm_providers.py *)
Module Providers.

(** The five wrapper classes. *)
Inductive kind : Type := OpenAI | Anthropic | Groq | Google | Ollama.

(** What the process gives the module: [os.environ], and for each wrapper
    whether the import of its SDK succeeds. *)
Record environment : Type := {
  environ : dict string;
  installed : kind -> bool
}.

(** A wrapper object: its class, [self.model], the argument its client was
    built with (the API key, or the base URL for Ollama) and [self.kwargs]. *)
Record wrapper : Type := {
  wrapper_kind : kind;
  wrapper_model : string;
  client_argument : pyval;
  wrapper_kwargs : dict pyval
}.

(** [c.lower()] on code points below 256. *)
Definition lower_char (c : ascii) : ascii :=
  let n := nat_of_ascii c in
  if (((65 <=? n) && (n <=? 90)) || ((192 <=? n) && (n <=? 214))
      || ((216 <=? n) && (n <=? 222)))%nat
  then ascii_of_nat (n + 32)
  else c.

(** [s.lower()]. *)
Fixpoint py_lower (s : string) : string :=
  match s with
  | EmptyString => EmptyString
  | String c s' => String (lower_char c) (py_lower s')
  end.

(** The name of the package each wrapper imports. *)
Definition package (k : kind) : string :=
  match k with
  | OpenAI => "openai"
  | Anthropic => "anthropic"
  | Groq => "groq"
  | Google => "google-generativeai"
  | Ollama => "ollama"
  end.

(** The constructor of a wrapper class: the import, then the attributes. *)
Definition construct (env : environment) (k : kind) (model : string)
    (argument : pyval) (kwargs : dict pyval) : result wrapper :=
  if installed env k
  then Ok {| wrapper_kind := k; wrapper_model := model;
             client_argument := argument; wrapper_kwargs := kwargs |}
  else Raise (Exn "ImportError"
                ("Please install " ++ package k ++ ": pip install " ++ package k)).

(** [env_key_map.get(provider)]. *)
Definition env_key_map : dict string :=
  [("openai", "OPENAI_API_KEY"); ("anthropic", "ANTHROPIC_API_KEY");
   ("groq", "GROQ_API_KEY"); ("google", "GOOGLE_API_KEY")].

(** [None] of an optional string as a Python value. *)
Definition py_optional (o : option string) : pyval :=
  match o with
  | Some s => PyStr s
  | None => PyNone
  end.

(** The first part of [initialize_llm]: the API key after the look-up in
    the environment. *)
Definition resolve_api_key (env : environment) (provider : string)
    (api_key : option string) : result (option string) :=
  match api_key with
  | Some key => Ok (Some key)
  | None =>
      if String.eqb provider "ollama" then Ok None
      else
        match dict_get env_key_map provider with
        | None => Ok None
        | Some env_var =>
            match dict_get (environ env) env_var with
            | Some (String c key) => Ok (Some (String c key))
            | _ =>
                Raise (Exn "ValueError"
                         ("API key not provided and " ++ env_var
                            ++ " environment variable not set. "
                            ++ "Please provide api_key or set " ++ env_var ++ "."))
            end
        end
  end.

(** [initialize_llm(provider, model, api_key, **kwargs)]. *)
Definition initialize_llm (env : environment) (provider model : string)
    (api_key : option string) (kwargs : dict pyval) : result wrapper :=
  let provider := py_lower provider in
  match resolve_api_key env provider api_key with
  | Raise e => Raise e
  | Ok api_key =>
      if String.eqb provider "openai"
      then construct env OpenAI model (py_optional api_key) kwargs
      else if String.eqb provider "anthropic"
      then construct env Anthropic model (py_optional api_key) kwargs
      else if String.eqb provider "groq"
      then construct env Groq model (py_optional api_key) kwargs
      else if String.eqb provider "google"
      then construct env Google model (py_optional api_key) kwargs
      else if String.eqb provider "ollama"
      then
        let fallback :=
          PyStr (dict_get_default (environ env) "OLLAMA_BASE_URL"
                   "http://localhost:11434") in
        let base_url := dict_get_default kwargs "base_url" fallback in
        construct env Ollama model base_url (dict_del kwargs "base_url")
      else
        Raise (Exn "ValueError"
                 ("Unsupported provider: " ++ provider
                    ++ ". Supported providers: 'openai', 'anthropic', 'groq', "
                    ++ "'google', 'ollama'"))
  end.

(** [f(name1=v1, ..., **kwargs)]: a keyword given twice is a [TypeError]. *)
Fixpoint keyword_call (explicit kwargs : dict pyval) : result (dict pyval) :=
  match explicit with
  | [] => Ok kwargs
  | (key, v) :: rest =>
      if dict_mem kwargs key
      then Raise (Exn "TypeError"
                    ("got multiple values for keyword argument '" ++ key ++ "'"))
      else match keyword_call rest kwargs with
           | Ok all => Ok ((key, v) :: all)
           | Raise e => Raise e
           end
  end.

(** [[{"role": "user", "content": prompt}]]. *)
Definition user_message (prompt : string) : pyval :=
  PyList [PyDict [("role", PyStr "user"); ("content", PyStr prompt)]].

(** The call a wrapper makes on its client in [generate_response], or the
    exception raised while the call is put together, and the wrapper
    afterwards. *)
Definition request (w : wrapper) (prompt : string) : result pycall * wrapper :=
  let model := PyStr (wrapper_model w) in
  match wrapper_kind w with
  | OpenAI | Groq | Ollama =>
      (match keyword_call [("model", model); ("messages", user_message prompt)]
               (wrapper_kwargs w) with
       | Ok keywords => Ok (Call [] keywords)
       | Raise e => Raise e
       end, w)
  | Anthropic =>
      let max_tokens := dict_get_default (wrapper_kwargs w) "max_tokens" (PyInt 4096) in
      let remaining := dict_del (wrapper_kwargs w) "max_tokens" in
      (match keyword_call [("model", model); ("max_tokens", max_tokens);
                           ("messages", user_message prompt)] remaining with
       | Ok keywords => Ok (Call [] keywords)
       | Raise e => Raise e
       end,
       {| wrapper_kind := wrapper_kind w; wrapper_model := wrapper_model w;
          client_argument := client_argument w; wrapper_kwargs := remaining |})
  | Google => (Ok (Call [PyStr prompt] (wrapper_kwargs w)), w)
  end.

(** A wrapper as a model collaborator, given what the client of the SDK
    answers to a call: the text of the reply, or an exception. *)
Definition as_llm (client : kind -> pycall -> result string) (w : wrapper) : LLM wrapper :=
  {| llm_state := w;
     generate_response := fun w prompt =>
       match request w prompt with
       | (Ok c, w') => (client (wrapper_kind w) c, w')
       | (Raise e, w') => (Raise e, w')
       end |}.

End Providers.

(** * A runtime, collaborators and tools for the examples *)
Module Demo.

Definition dq : string := String (ascii_of_nat 34) EmptyString.

Definition quoted (s : string) : string := dq ++ s ++ dq.

(** [json.dumps(v)] for values built from [None], booleans, ints, lists,
    dicts and strings that need no escaping. *)
Fixpoint json_text (v : pyval) : string :=
  match v with
  | PyNone => "null"
  | PyBool true => "true"
  | PyBool false => "false"
  | PyInt z => str_of_int z
  | PyStr s => quoted s
  | PyList l => "[" ++ join ", " (map json_text l) ++ "]"
  | PyDict d =>
      "{" ++ join ", "
               (map (fun kv => match kv with
                               | (k, x) => quoted k ++ ": " ++ json_text x
                               end) d) ++ "}"
  | PyFloat _ | PySet _ => "null"
  end.

(** [repr(v)] for the same values, strings in single quotes. *)
Fixpoint repr_text (v : pyval) : string :=
  match v with
  | PyNone => "None"
  | PyBool true => "True"
  | PyBool false => "False"
  | PyInt z => str_of_int z
  | PyStr s => "'" ++ s ++ "'"
  | PyList l => "[" ++ join ", " (map repr_text l) ++ "]"
  | PyDict d =>
      "{" ++ join ", "
               (map (fun kv => match kv with
                               | (k, x) => "'" ++ k ++ "': " ++ repr_text x
                               end) d) ++ "}"
  | PyFloat _ => "nan"
  | PySet l => "{" ++ join ", " (map repr_text l) ++ "}"
  end.

(** A reply of the model: the JSON text of [v] inside a backtick fence. *)
Definition fenced (v : pyval) : string :=
  "```json" ++ nl ++ json_text v ++ nl ++ "```".

Fixpoint find_sample (same : pyval -> bool) (samples : list pyval) : option pyval :=
  match samples with
  | [] => None
  | v :: rest => if same v then Some v else find_sample same rest
  end.

Definition is_digit (c : ascii) : bool :=
  let n := nat_of_ascii c in ((48 <=? n) && (n <=? 57))%nat.

Fixpoint all_digits (s : string) : bool :=
  match s with
  | EmptyString => true
  | String c s' => is_digit c && all_digits s'
  end.

(** The most digits [int] converts from a text ([sys.int_info]). *)
Definition int_max_str_digits : nat := 4300.

(** A positive integer literal with more digits than [int] converts. *)
Definition oversized_integer (text : string) : bool :=
  match text with
  | EmptyString => false
  | String c _ =>
      negb (Ascii.eqb c "0") && all_digits text
      && (int_max_str_digits <? String.length text)%nat
  end.

(** The text of [count] digits [1]. *)
Fixpoint ones (count : nat) : string :=
  match count with
  | O => EmptyString
  | S count' => String "1" (ones count')
  end.

(** The runtime on a given list of sample values: the regular expression
    finds the object inside a fenced sample, [json.loads] inverts
    [json.dumps] on the samples, raises [ValueError] on an integer literal of
    more than 4300 digits and rejects every other text, [format] fills the
    one placeholder of a template without other braces. *)
Definition runtime (samples : list pyval) : PyRuntime :=
  {| py_repr := repr_text;
     re_search_json := fun f response =>
       match f with
       | Backticks =>
           option_map json_text
             (find_sample (fun v => String.eqb (fenced v) response) samples)
       | Quotes => None
       end;
     json_loads := fun text =>
       match find_sample (fun v => String.eqb (json_text v) text) samples with
       | Some v => Decoded v
       | None =>
           if oversized_integer text
           then OtherError
                  (Exn "ValueError"
                     ("Exceeds the limit (4300 digits) for integer string conversion: "
                        ++ "value has " ++ str_of_int (Z.of_nat (String.length text))
                        ++ " digits; use sys.set_int_max_str_digits() "
                        ++ "to increase the limit"))
           else JSONDecodeError "Expecting value: line 1 column 1 (char 0)"
       end;
     str_format := fun template query =>
       Ok (str_replace "{user_input}" query template) |}.

(** A collaborator that plays back a fixed list of replies, one per call,
    and raises once the list is used up. *)
Definition scripted (replies : list string) : LLM (list string) :=
  {| llm_state := replies;
     generate_response := fun remaining _ =>
       match remaining with
       | [] => (Raise (Exn "StopIteration" EmptyString), [])
       | r :: rest => (Ok r, rest)
       end |}.

(** A collaborator that gives the same reply to every prompt. *)
Definition constant (reply : string) : LLM unit :=
  {| llm_state := tt; generate_response := fun _ _ => (Ok reply, tt) |}.

(** Binding the arguments of a call to the parameter names of a [def]
    without defaults. *)
Fixpoint bind_args (params : list string) (a : list pyval) (kw : dict pyval)
  : option (list pyval) :=
  match params, a with
  | [], [] => Some []
  | [], _ :: _ => None
  | p :: ps, x :: xs =>
      if dict_mem kw p then None else option_map (cons x) (bind_args ps xs kw)
  | p :: ps, [] =>
      match dict_get kw p with
      | Some x => option_map (cons x) (bind_args ps [] kw)
      | None => None
      end
  end.

(** [def f(p1, ..., pn): body]. *)
Definition py_def (params : list string) (body : list pyval -> result pyval)
  : tool_function :=
  fun c =>
    if forallb (fun k => existsb (String.eqb k) params) (dict_keys (kwargs c))
    then match bind_args params (args c) (kwargs c) with
         | Some xs => body xs
         | None => Raise (Exn "TypeError" "missing or duplicate argument")
         end
    else Raise (Exn "TypeError" "got an unexpected keyword argument").

(** [def calculator(expression)], returning a fixed text. *)
Definition calculator : tool_function :=
  py_def ["expression"] (fun _ => Ok (PyStr "42")).

(** [def add(a, b)], returning its two arguments joined by a plus sign. *)
Definition add : tool_function :=
  py_def ["a"; "b"]
    (fun xs =>
       match xs with
       | [PyStr a; PyStr b] => Ok (PyStr (a ++ "+" ++ b))
       | _ => Raise (Exn "TypeError" "can only concatenate str")
       end).

(** [def noop(): pass], which returns [None]. *)
Definition noop : tool_function := py_def [] (fun _ => Ok PyNone).

(** [def blank(): return ''], which returns the empty string. *)
Definition blank : tool_function := py_def [] (fun _ => Ok (PyStr EmptyString)).

(** [def boom(): raise RuntimeError('kaboom')]. *)
Definition boom : tool_function :=
  py_def [] (fun _ => Raise (Exn "RuntimeError" "kaboom")).

(** A reply in the three-key format of the ToolCall prompt. *)
Definition reply3 (tool params answer : pyval) : pyval :=
  PyDict [("Tool call", tool); ("Tool Parameters", params); ("Final Response", answer)].

Definition template : string := "Tools:" ++ nl ++ "{tool_list}" ++ nl ++ "query: {user_input}".

(** A configuration with the ToolCall response format and a short template. *)
Definition toolcall_config (budget : Z) : Core.AgentConfig :=
  {| Core.name := "ToolCallAgent";
     Core.config_description := "Agent that calls tools based on JSON responses";
     Core.config_prompt_template := template;
     Core.response_format := Core.TOOLCALL_RESPONSE_FORMAT;
     Core.config_max_iterations := budget;
     Core.special_instructions := EmptyString;
     Core.examples := [] |}.

(** Replies of the model: a tool call together with an answer, a call of a
    tool that is not registered, a final answer, a tool call alone, a reply
    with a single field, and a reply with every role at the sentinel. *)
Definition both : pyval :=
  reply3 (PyStr "calculator") (PyDict [("expression", PyStr "6*7")]) (PyStr "42").

Definition ghost : pyval := reply3 (PyStr "ghost") (PyStr "None") (PyStr "None").

Definition final : pyval := reply3 (PyStr "None") (PyStr "None") (PyStr "done").

Definition request : pyval :=
  reply3 (PyStr "calculator") (PyDict [("expression", PyStr "6*7")]) (PyStr "None").


Definition silent : pyval := reply3 (PyStr "None") (PyStr "None") (PyStr "None").

(** The items of a sample reply. *)
Definition items (v : pyval) : dict pyval :=
  match v with
  | PyDict d => d
  | _ => []
  end.

(** The functions above with their descriptions, in registration order. *)
Definition described : list (string * (string * tool_function)) :=
  [("calculator", ("Evaluate an expression", calculator));
   ("add", ("Join two texts", add));
   ("noop", ("Do nothing", noop));
   ("blank", ("Return an empty text", blank));
   ("boom", ("Always fail", boom))].

(** The registry of a [ToolCallAgent] after adding them. *)
Definition agent_tools : dict Agent.tool_info :=
  map (fun t => (fst t, {| Agent.description := fst (snd t);
                           Agent.function := snd (snd t) |})) described.

(** The registry of a [ToolExecutor] after registering them. *)
Definition core_tools : dict Core.tool_info :=
  map (fun t => (fst t, {| Core.description := fst (snd t);
                           Core.function := snd (snd t);
                           Core.parameter_schema := None |})) described.

End Demo.


(** * Vocabulary of the statements *)

(** What the binder of [agent.py] hands back for a call it protects: the
    value the function returned, or the error text for what it raised. *)
Definition absorbed (rt : PyRuntime) (tool_name : pyval) (r : result pyval)
  : result pyval :=
  match r with
  | Ok v => Ok v
  | Raise e => Ok (PyStr (tool_error rt tool_name e))
  end.

(** The same for [ToolExecutor.execute], which stringifies the value. *)
Definition absorbed_str (rt : PyRuntime) (tool_name : pyval) (r : result pyval)
  : result string :=
  match r with
  | Ok v => Ok (py_str rt v)
  | Raise e => Ok (tool_error rt tool_name e)
  end.

(** The one entry the binder reads from a dict whose first item is
    [(k, v)]: the value, or the key when the value is falsy. *)
Definition chosen_entry (k : string) (v : pyval) : pyval :=
  if truthy v then v else PyStr k.

(** The outcome of [execute_tool] of [agent.py] on the function [info],
    registered as [name], once the parameters are populated and, if they
    were a string, decoded to [q]. *)
Definition agent_dispatch (rt : PyRuntime) (name : string) (info : Agent.tool_info)
    (q : pyval) : M pyval :=
  let f := Agent.function info in
  match q with
  | PyDict [] => ([EvCall name no_args], absorbed rt (PyStr name) (f no_args))
  | PyDict (((k, v) :: _) as items) =>
      if any_isalpha k
      then ([EvCall name (Call [] items)],
            absorbed rt (PyStr name) (f (Call [] items)))
      else ([EvCall name (comma_args rt (chosen_entry k v))],
            absorbed rt (PyStr name) (f (comma_args rt (chosen_entry k v))))
  | PySet [] => ([], Ok (PyStr (tool_error rt (PyStr name)
                                  (Exn "IndexError" "list index out of range"))))
  | PySet (x :: _) =>
      ([EvCall name (comma_args rt x)],
       absorbed rt (PyStr name) (f (comma_args rt x)))
  | _ => ([], Ok (PyStr "Error: Unexpected parameter type"))
  end.

(** The call [ToolExecutor.execute] makes for populated parameters decoded
    to [q]; none for an empty set. *)
Definition core_call (rt : PyRuntime) (q : pyval) : option pycall :=
  match q with
  | PyDict [] => Some no_args
  | PyDict (((k, v) :: _) as items) =>
      if any_isalpha k then Some (Call [] items)
      else Some (comma_args rt (chosen_entry k v))
  | PySet [] => None
  | PySet (x :: _) => Some (comma_args rt x)
  | PyList elements => Some (Call elements [])
  | scalar => Some (Call [scalar] [])
  end.

(** The outcome of [ToolExecutor.execute] on the function [info],
    registered as [name], for populated parameters decoded to [q]. *)
Definition core_dispatch (rt : PyRuntime) (name : string) (info : Core.tool_info)
    (q : pyval) : M string :=
  match core_call rt q with
  | Some c => ([EvCall name c], absorbed_str rt (PyStr name) (Core.function info c))
  | None => ([], Ok (tool_error rt (PyStr name)
                       (Exn "IndexError" "list index out of range")))
  end.

(** The reply [response] carries a fenced block that decodes to the dict
    [d]: the parsed turn. *)
Definition decodes_to (rt : PyRuntime) (response : string) (d : dict pyval) : Prop :=
  exists group1 : string,
    find_json_block rt response = Some group1
    /\ json_loads rt group1 = Decoded (PyDict d).

(** The value [agent.py] takes for a field: the sentinel when it is absent. *)
Definition field (d : dict pyval) (key : string) : pyval :=
  dict_get_default d key (PyStr "None").

(** The value [FlexibleAgent] takes for a role under the format [fmt]. *)
Definition role (fmt : Core.ResponseFormat) (d : dict pyval) (internal : string) : pyval :=
  field d (Core.get_json_key fmt internal).

(** The outcome of a pass that calls the binder: the events of the binder
    after the record of the call, and the next scratchpad unless the binder
    raised. *)
Definition tool_pass {R : Type} (tool_name params : pyval) (binder : M R)
    (next : R -> string) : M turn :=
  (EvExecute tool_name params :: trace_of binder,
   match result_of binder with
   | Ok tool_result => Ok (Continue (next tool_result))
   | Raise e => Raise e
   end).

(** The cache of a [FlexibleAgent] is consistent when it is empty or holds
    what [_compile_prompt] would build now. *)
Definition cache_consistent {St : Type} (self : Core.FlexibleAgent St) : Prop :=
  match Core._compiled_prompt self with
  | None => True
  | Some cached => Core._compile_prompt self = Ok cached
  end.

(** The operations a caller interleaves on a [FlexibleAgent]. *)
Inductive operation : Type :=
| OpAdd (name description : string) (f : tool_function) (schema : option pyval)
| OpRemove (name : string)
| OpInvoke (query : string) (kw_max_iterations : option Z).

Definition apply_operation {St : Type} (rt : PyRuntime) (self : Core.FlexibleAgent St)
    (o : operation) : Core.FlexibleAgent St :=
  match o with
  | OpAdd name description f schema => Core.add_tool self name description f schema
  | OpRemove name => fst (Core.remove_tool self name)
  | OpInvoke query kw => fst (Core.invoke rt self query kw)
  end.

(** The number of events of a kind in a trace. *)
Definition count (kind : event -> bool) (t : list event) : nat :=
  List.length (filter kind t).






(** The compiled prompt an [invoke] of a [FlexibleAgent] works with: the
    cached one, or a fresh compilation. *)
Definition core_compiled {St : Type} (self : Core.FlexibleAgent St) : result string :=
  match Core._compiled_prompt self with
  | None => Core._compile_prompt self
  | Some cached => Ok cached
  end.

(** The budget of an [invoke] of a [FlexibleAgent]. *)
Definition core_budget {St : Type} (self : Core.FlexibleAgent St) (kw : option Z) : Z :=
  match kw with
  | Some n => n
  | None => Core.max_iterations self
  end.

(** The compiled prompt an [invoke] of a [ToolCallAgent] works with. *)
Definition agent_compiled {St : Type} (self : Agent.ToolCallAgent St) : string :=
  match Agent._compiled_prompt self with
  | Some cached => cached
  | None => Agent.compile (Agent.prompt_template self) (Agent.tools self)
  end.


(** * Properties *)

(** ** Values and dicts *)

Lemma unpopulated_test (v : pyval) :
  negb (truthy v) || eq_str v "None" = negb (populated v).
Proof.
  unfold populated. destruct (truthy v), (eq_str v "None"); reflexivity.
Qed.

Lemma unpopulated_test_flipped (v : pyval) :
  eq_str v "None" || negb (truthy v) = negb (populated v).
Proof.
  unfold populated. destruct (truthy v), (eq_str v "None"); reflexivity.
Qed.

Lemma unpopulated_test_core (v : pyval) :
  eq_str v "None" || is_None v || negb (truthy v) = negb (populated v).
Proof.
  unfold populated. destruct v; simpl; try reflexivity;
    try (destruct (String.eqb s "None"); destruct s; reflexivity).
  all: rewrite ?orb_false_r, ?andb_true_r; reflexivity.
Qed.

Lemma populated_truthy (v : pyval) : populated v = true -> truthy v = true.
Proof. unfold populated. destruct (truthy v); simpl; congruence. Qed.

Lemma name_test (k : string) :
  truthy (PyStr k) && any_isalpha k = any_isalpha k.
Proof. destruct k; reflexivity. Qed.

Lemma dict_get_set_same {V : Type} (d : dict V) (k : string) (v : V) :
  dict_get (dict_set d k v) k = Some v.
Proof.
  induction d as [|[k' v'] d IH]; simpl.
  - now rewrite String.eqb_refl.
  - destruct (String.eqb k' k) eqn:E; simpl; rewrite E; auto.
Qed.

Lemma dict_get_set_other {V : Type} (d : dict V) (k k' : string) (v : V) :
  k' <> k -> dict_get (dict_set d k v) k' = dict_get d k'.
Proof.
  intros Hne. induction d as [|[k0 v0] d IH]; simpl.
  - destruct (String.eqb_spec k k'); congruence.
  - destruct (String.eqb_spec k0 k) as [->|Hk]; simpl.
    + destruct (String.eqb_spec k k'); congruence.
    + destruct (String.eqb_spec k0 k'); auto.
Qed.

Lemma dict_keys_set_present {V : Type} (d : dict V) (k : string) (v : V) :
  dict_mem d k = true -> dict_keys (dict_set d k v) = dict_keys d.
Proof.
  unfold dict_mem, dict_keys. induction d as [|[k0 v0] d IH]; simpl.
  - discriminate.
  - destruct (String.eqb k0 k) eqn:E; simpl; intros H.
    + reflexivity.
    + now rewrite IH.
Qed.

Lemma dict_keys_set_absent {V : Type} (d : dict V) (k : string) (v : V) :
  dict_mem d k = false -> dict_keys (dict_set d k v) = (dict_keys d ++ [k])%list.
Proof.
  unfold dict_mem, dict_keys. induction d as [|[k0 v0] d IH]; simpl.
  - reflexivity.
  - destruct (String.eqb k0 k) eqn:E; simpl; intros H.
    + discriminate.
    + now rewrite IH.
Qed.

(** ** The parameter binder *)

Ltac run_binder :=
  unfold Agent.execute_tool, Core.execute, Core._execute_with_params,
    Agent.find_tool, Core.find_tool, Core.stringified, absorbed, absorbed_str,
    chosen_entry, call, try_except, bind, ret, raise, log; simpl.

Section Binder.
Variable rt : PyRuntime.
Variable name : string.

Section AgentBinder.
Variable ts : dict Agent.tool_info.
Variable info : Agent.tool_info.
Hypothesis registered : dict_get ts name = Some info.

Local Abbreviation f := (Agent.function info).
Local Abbreviation run p := (Agent.execute_tool rt (PyStr name) p ts).

Lemma agent_zero_args (p : pyval) :
  populated p = false -> run p = ([EvCall name no_args], f no_args).
Proof.
  intros Hp. run_binder. rewrite registered. simpl.
  rewrite unpopulated_test, Hp. simpl. now destruct (Agent.function info no_args).
Qed.

Lemma agent_bad_text (s : string) (msg : string) :
  populated (PyStr s) = true -> json_loads rt s = JSONDecodeError msg ->
  run (PyStr s) = ([], Ok (PyStr "Error: Invalid parameter format")).
Proof.
  intros Hp Hj. run_binder. rewrite registered. simpl.
  change (match s with EmptyString => false | String _ _ => true end)
    with (truthy (PyStr s)).
  change (String.eqb s "None") with (eq_str (PyStr s) "None").
  rewrite unpopulated_test, Hp. simpl. now rewrite Hj.
Qed.

Lemma agent_decoded (p q : pyval) :
  populated p = true -> decode_if_str rt p = Ok (Some q) ->
  run p = agent_dispatch rt name info q.
Proof.
  intros Hp Hq. unfold agent_dispatch.
  unfold Agent.execute_tool, Agent.find_tool. simpl.
  unfold bind at 1. unfold ret at 1. rewrite registered. simpl.
  rewrite unpopulated_test, Hp, Hq. cbn [negb].
  destruct q as [| | | | |l|[|[k v] d]|[|x l]]; try reflexivity.
  - unfold call, try_except. simpl. now destruct (Agent.function info no_args).
  - change (match k with EmptyString => false | String _ _ => true end)
      with (truthy (PyStr k)).
    rewrite name_test. destruct (any_isalpha k).
    + unfold call, try_except. simpl. now destruct (Agent.function info _).
    + unfold call, try_except, chosen_entry. simpl.
      now destruct (Agent.function info _).
  - unfold call, try_except. simpl. now destruct (Agent.function info _).
Qed.

Lemma agent_decode_raises (p : pyval) (e : exn) :
  populated p = true -> decode_if_str rt p = Raise e ->
  run p = ([], Raise e).
Proof.
  intros Hp Hq.
  unfold Agent.execute_tool, Agent.find_tool. simpl.
  unfold bind at 1. unfold ret at 1. rewrite registered. simpl.
  rewrite unpopulated_test, Hp, Hq. reflexivity.
Qed.

End AgentBinder.

Section CoreBinder.
Variable ts : dict Core.tool_info.
Variable info : Core.tool_info.
Hypothesis registered : dict_get ts name = Some info.

Local Abbreviation f := (Core.function info).
Local Abbreviation run p := (Core.execute rt ts (PyStr name) p).

Lemma core_zero_args (p : pyval) :
  populated p = false ->
  run p = ([EvCall name no_args], absorbed_str rt (PyStr name) (f no_args)).
Proof.
  intros Hp. unfold Core.execute, Core.find_tool. simpl.
  unfold bind at 1. unfold ret at 1. rewrite registered. simpl.
  rewrite unpopulated_test, Hp. cbn [negb].
  unfold Core.stringified, call, try_except, bind, ret. simpl.
  now destruct (Core.function info no_args).
Qed.

Lemma core_bad_text (s : string) (msg : string) :
  populated (PyStr s) = true -> json_loads rt s = JSONDecodeError msg ->
  run (PyStr s) = ([], Ok "Error: Invalid parameter format").
Proof.
  intros Hp Hj. unfold Core.execute, Core.find_tool. simpl hashable.
  unfold bind at 1. unfold ret at 1. rewrite registered. simpl.
  change (match s with EmptyString => false | String _ _ => true end)
    with (truthy (PyStr s)).
  change (String.eqb s "None") with (eq_str (PyStr s) "None").
  rewrite unpopulated_test, Hp. simpl. now rewrite Hj.
Qed.

Lemma core_decoded (p q : pyval) :
  populated p = true -> decode_if_str rt p = Ok (Some q) ->
  run p = core_dispatch rt name info q.
Proof.
  intros Hp Hq. unfold core_dispatch, core_call.
  unfold Core.execute, Core.find_tool. simpl hashable.
  unfold bind at 1. unfold ret at 1. rewrite registered. simpl.
  rewrite unpopulated_test, Hp, Hq. cbn [negb].
  unfold Core._execute_with_params.
  destruct q as [| |z|x|s|l|[|[k v] d]|[|x l]];
    try (unfold Core.stringified, call, try_except, bind, ret; simpl;
         now destruct (Core.function info _)).
  - change (match k with EmptyString => false | String _ _ => true end)
      with (truthy (PyStr k)).
    rewrite name_test. unfold chosen_entry.
    destruct (any_isalpha k);
      unfold Core.stringified, call, try_except, bind, ret; simpl;
      now destruct (Core.function info _).
  - reflexivity.
Qed.

Lemma core_decode_raises (p : pyval) (e : exn) :
  populated p = true -> decode_if_str rt p = Raise e ->
  run p = ([], Raise e).
Proof.
  intros Hp Hq.
  unfold Core.execute, Core.find_tool. simpl hashable.
  unfold bind at 1. unfold ret at 1. rewrite registered. simpl.
  rewrite unpopulated_test, Hp, Hq. reflexivity.
Qed.

End CoreBinder.
End Binder.

(** ** Claims about the binder *)



Lemma decode_none_inv (rt : PyRuntime) (p : pyval) :
  decode_if_str rt p = Ok None ->
  exists s msg, p = PyStr s /\ json_loads rt s = JSONDecodeError msg.
Proof.
  destruct p; simpl; try discriminate.
  destruct (json_loads rt s) as [v|msg|e] eqn:E; try discriminate.
  intros _. now exists s, msg.
Qed.





Lemma core_registered_shape (rt : PyRuntime) (name : string)
    (ts : dict Core.tool_info) (info : Core.tool_info) (p : pyval) :
  dict_get ts name = Some info ->
  (exists s : string, Core.execute rt ts (PyStr name) p = ([], Ok s))
  \/ (exists c : pycall,
        Core.execute rt ts (PyStr name) p
        = ([EvCall name c], absorbed_str rt (PyStr name) (Core.function info c)))
  \/ (exists e : exn,
        populated p = true /\ decode_if_str rt p = Raise e
        /\ Core.execute rt ts (PyStr name) p = ([], Raise e)).
Proof.
  intros Hc. destruct (populated p) eqn:Hp.
  - destruct (decode_if_str rt p) as [[q|]|e] eqn:Hq.
    + rewrite (core_decoded rt name ts info Hc p q Hp Hq).
      unfold core_dispatch. destruct (core_call rt q) as [c|].
      * right. left. now exists c.
      * left. eexists. reflexivity.
    + destruct (decode_none_inv rt p Hq) as (s & msg & -> & Hj).
      left. eexists. now apply (core_bad_text rt name ts info Hc s msg).
    + right. right. exists e. split; [reflexivity|]. split; [reflexivity|].
      now apply (core_decode_raises rt name ts info Hc).
  - right. left. exists no_args. now apply core_zero_args.
Qed.

Lemma agent_registered_shape (rt : PyRuntime) (name : string)
    (ts : dict Agent.tool_info) (info : Agent.tool_info) (p : pyval) :
  dict_get ts name = Some info ->
  populated p = true ->
  (exists v : pyval, Agent.execute_tool rt (PyStr name) p ts = ([], Ok v))
  \/ (exists c : pycall,
        Agent.execute_tool rt (PyStr name) p ts
        = ([EvCall name c], absorbed rt (PyStr name) (Agent.function info c)))
  \/ (exists e : exn,
        decode_if_str rt p = Raise e
        /\ Agent.execute_tool rt (PyStr name) p ts = ([], Raise e)).
Proof.
  intros Ha Hp. destruct (decode_if_str rt p) as [[q|]|e] eqn:Hq.
  - rewrite (agent_decoded rt name ts info Ha p q Hp Hq).
    destruct q as [| | | | |l|[|[k v] d]|[|x l]]; simpl;
      try (left; eexists; reflexivity).
    + right. left. now exists no_args.
    + destruct (any_isalpha k); right; left; eexists; reflexivity.
    + right. left. eexists. reflexivity.
  - destruct (decode_none_inv rt p Hq) as (s & msg & -> & Hj).
    left. eexists. now apply (agent_bad_text rt name ts info Ha s msg).
  - right. right. exists e. split; [reflexivity|].
    now apply (agent_decode_raises rt name ts info Ha).
Qed.



(** Beside C5: an integer literal of 4301 digits as parameters.  What
    [json.loads] raises on it is no [JSONDecodeError], so it leaves both
    binders, before any call of the tool. *)
Lemma decoder_exception_leaves_both_binders :
  let oversized := PyStr (Demo.ones 4301) in
  let e :=
    Exn "ValueError"
      ("Exceeds the limit (4300 digits) for integer string conversion: "
         ++ "value has 4301 digits; use sys.set_int_max_str_digits() "
         ++ "to increase the limit") in
  Core.execute (Demo.runtime []) Demo.core_tools (PyStr "calculator") oversized
    = ([], Raise e)
  /\ Agent.execute_tool (Demo.runtime []) (PyStr "calculator") oversized
       Demo.agent_tools
    = ([], Raise e).
Proof. split; vm_compute; reflexivity. Qed.


(** Beside C5: on the zero-argument path of [agent.py] the call is outside
    the [try], so what the function raises leaves [execute_tool] (and
    [invoke]) as an exception, where [ToolExecutor.execute] returns text. *)
Lemma agent_zero_argument_call_unprotected :
  Agent.execute_tool (Demo.runtime []) (PyStr "boom") (PyStr "None") Demo.agent_tools
    = ([EvCall "boom" no_args], Raise (Exn "RuntimeError" "kaboom"))
  /\ Core.execute (Demo.runtime []) Demo.core_tools (PyStr "boom") (PyStr "None")
    = ([EvCall "boom" no_args], Ok "Error executing tool 'boom': kaboom").
Proof. split; reflexivity. Qed.

(** ** The tool registry *)

(** Against C6 as stated: registering [calculator] a second time raises
    nothing and replaces both the description and the function. *)
Lemma C6_counterexample :
  let first := Agent.add_tool (Agent.init (St := unit) Demo.template)
                 "calculator" "old" Demo.calculator in
  let second := Agent.add_tool first "calculator" "new" Demo.add in
  let registry := Core.register_tool [] "calculator" "old" Demo.calculator None in
  dict_get (Agent.tools first) "calculator"
    = Some {| Agent.description := "old"; Agent.function := Demo.calculator |}
  /\ dict_get (Agent.tools second) "calculator"
    = Some {| Agent.description := "new"; Agent.function := Demo.add |}
  /\ Core.get_tool (Core.register_tool registry "calculator" "new" Demo.add None)
       "calculator"
    = Some {| Core.description := "new"; Core.function := Demo.add;
              Core.parameter_schema := None |}.
Proof. repeat split. Qed.

(** C6, as the code has it.  [add_tool] and [register_tool] never reject a
    name: afterwards the name resolves to the descriptor just given, also
    when it was registered before (the last write wins); a name that was
    present keeps its place in the listing, a new one goes to the end; every
    other name resolves as before. *)
Theorem C6_registration_overwrites
    (St : Type) (self : Agent.ToolCallAgent St) (ts : dict Core.tool_info)
    (name description : string) (f : tool_function) (schema : option pyval) :
  let self' := Agent.add_tool self name description f in
  let ts' := Core.register_tool ts name description f schema in
  dict_get (Agent.tools self') name
    = Some {| Agent.description := description; Agent.function := f |}
  /\ Core.get_tool ts' name
    = Some {| Core.description := description; Core.function := f;
              Core.parameter_schema := schema |}
  /\ (dict_mem (Agent.tools self) name = true ->
      dict_keys (Agent.tools self') = dict_keys (Agent.tools self))
  /\ (dict_mem ts name = true -> Core.list_tools ts' = Core.list_tools ts)
  /\ (dict_mem (Agent.tools self) name = false ->
      dict_keys (Agent.tools self') = (dict_keys (Agent.tools self) ++ [name])%list)
  /\ (dict_mem ts name = false ->
      Core.list_tools ts' = (Core.list_tools ts ++ [name])%list)
  /\ (forall other : string, other <> name ->
      dict_get (Agent.tools self') other = dict_get (Agent.tools self) other
      /\ Core.get_tool ts' other = Core.get_tool ts other).
Proof.
  intros self' ts'. subst self' ts'.
  unfold Agent.add_tool, Core.register_tool, Core.get_tool, Core.list_tools.
  simpl. repeat split.
  - apply dict_get_set_same.
  - apply dict_get_set_same.
  - apply dict_keys_set_present.
  - apply dict_keys_set_present.
  - apply dict_keys_set_absent.
  - apply dict_keys_set_absent.
  - now apply dict_get_set_other.
  - now apply dict_get_set_other.
Qed.

(** ** The compiled prompt and its cache *)

Lemma core_add_tool_consistent {St : Type} (self : Core.FlexibleAgent St)
    (name description : string) (f : tool_function) (schema : option pyval) :
  cache_consistent (Core.add_tool self name description f schema).
Proof. exact I. Qed.

Lemma core_remove_tool_consistent {St : Type} (self : Core.FlexibleAgent St)
    (name : string) :
  cache_consistent self -> cache_consistent (fst (Core.remove_tool self name)).
Proof.
  unfold Core.remove_tool, Core.unregister_tool, cache_consistent.
  destruct (dict_mem (Core.tool_executor self) name); simpl; auto.
Qed.

Lemma core_invoke_consistent {St : Type} (rt : PyRuntime)
    (self : Core.FlexibleAgent St) (query : string) (kw : option Z) :
  cache_consistent self -> cache_consistent (fst (Core.invoke rt self query kw)).
Proof.
  intros Hc. unfold Core.invoke.
  destruct (Core.validate_setup self); [exact Hc|].
  destruct (Core._compiled_prompt self) as [cached|] eqn:Hcache.
  - destruct (Core.llm self) as [l|]; [|exact Hc].
    assert (Hk : cache_consistent
                   (Core.with_tools_and_cache self (Core.tool_executor self)
                      (Some cached))).
    { unfold cache_consistent in *. rewrite Hcache in Hc. exact Hc. }
    destruct (str_format rt cached query); [|exact Hk].
    destruct (Core.loop _ _ _ _ _ _ _ _) as [l' m]. exact Hk.
  - destruct (Core._compile_prompt self) as [compiled|e] eqn:Hcomp; [|exact Hc].
    destruct (Core.llm self) as [l|]; [|exact Hc].
    assert (Hk : cache_consistent
                   (Core.with_tools_and_cache self (Core.tool_executor self)
                      (Some compiled))).
    { unfold cache_consistent. exact Hcomp. }
    destruct (str_format rt compiled query); [|exact Hk].
    destruct (Core.loop _ _ _ _ _ _ _ _) as [l' m]. exact Hk.
Qed.

(** In the [core] package every interleaving of registering, unregistering
    and invoking keeps the cache consistent. *)
Lemma core_cache_always_consistent {St : Type} (rt : PyRuntime)
    (ops : list operation) (self : Core.FlexibleAgent St) :
  cache_consistent self ->
  cache_consistent (fold_left (apply_operation rt) ops self).
Proof.
  revert self. induction ops as [|o ops IH]; intros self Hc; simpl.
  - exact Hc.
  - apply IH. destruct o; simpl.
    + apply core_add_tool_consistent.
    + now apply core_remove_tool_consistent.
    + now apply core_invoke_consistent.
Qed.

(** ** One pass of the loop *)

Lemma single_item_get {V : Type} (k : string) (v default : V) :
  dict_get_default [(k, v)] k default = v.
Proof. unfold dict_get_default. simpl. now rewrite String.eqb_refl. Qed.

Lemma agent_parse (rt : PyRuntime) (response : string) (d : dict pyval) :
  decodes_to rt response d ->
  Agent.parse_agent_response rt response
  = Ok ([("Tool call", field d "Tool call")],
        [("Tool Parameters", field d "Tool Parameters")],
        [("Final Response", field d "Final Response")]).
Proof.
  intros (g & Hg & Hj). unfold Agent.parse_agent_response.
  now rewrite Hg, Hj.
Qed.

Lemma agent_iteration (rt : PyRuntime) (ts : dict Agent.tool_info)
    (scratchpad response : string) (d : dict pyval) :
  decodes_to rt response d ->
  Agent.iteration rt ts scratchpad response
  = if populated (field d "Tool call")
    then tool_pass (field d "Tool call") (field d "Tool Parameters")
           (Agent.execute_tool rt (field d "Tool call") (field d "Tool Parameters") ts)
           (fun tool_result =>
              scratchpad ++ Agent.scratch_entry rt (field d "Tool call") tool_result)
    else ([], Ok (Return (field d "Final Response"))).
Proof.
  intros Hd. unfold Agent.iteration. rewrite (agent_parse rt response d Hd).
  unfold py_get. rewrite !single_item_get.
  rewrite unpopulated_test_flipped.
  destruct (populated (field d "Tool call")); cbn [negb].
  - unfold tool_pass, log, bind, ret, trace_of, result_of. simpl.
    destruct (Agent.execute_tool _ _ _ _) as [t [v|e]]; simpl.
    + now rewrite app_nil_r.
    + reflexivity.
  - reflexivity.
Qed.

Lemma standardize_roles (fmt : Core.ResponseFormat) (d : dict pyval) (internal : string) :
  In internal ["tool"; "params"; "response"] ->
  dict_get_default
    (Core.standardize fmt d ["tool"; "params"; "response"; "reasoning"] [])
    internal (PyStr "None")
  = role fmt d internal.
Proof.
  intros Hin. unfold role, field, dict_get_default.
  simpl in Hin. destruct Hin as [<-|[<-|[<-|[]]]]; simpl;
    destruct (dict_get d (Core.get_json_key fmt "tool")),
      (dict_get d (Core.get_json_key fmt "params")),
      (dict_get d (Core.get_json_key fmt "response")),
      (dict_get d (Core.get_json_key fmt "reasoning")); reflexivity.
Qed.

Lemma core_parse (rt : PyRuntime) (fmt : Core.ResponseFormat)
    (response : string) (d : dict pyval) :
  decodes_to rt response d ->
  Core.missing_keys (Core.required_keys fmt) d = [] ->
  Core._parse_response rt fmt response
  = Ok (Core.standardize fmt d ["tool"; "params"; "response"; "reasoning"] []).
Proof.
  intros (g & Hg & Hj) Hm. unfold Core._parse_response, Core.parse_json_response.
  rewrite Hg, Hj, Hm. now destruct (Core.required_keys fmt).
Qed.

Lemma core_iteration (rt : PyRuntime) (fmt : Core.ResponseFormat)
    (ts : dict Core.tool_info) (scratchpad response : string) (d : dict pyval) :
  decodes_to rt response d ->
  Core.missing_keys (Core.required_keys fmt) d = [] ->
  Core.iteration rt fmt ts scratchpad response
  = if populated (role fmt d "tool")
    then tool_pass (role fmt d "tool") (role fmt d "params")
           (Core.execute rt ts (role fmt d "tool") (role fmt d "params"))
           (fun tool_result =>
              scratchpad ++ Core.scratch_entry rt (role fmt d "tool") tool_result)
    else ([], Ok (Return (if populated (role fmt d "response")
                          then role fmt d "response"
                          else PyStr "No response provided"))).
Proof.
  intros Hd Hm. unfold Core.iteration. rewrite (core_parse rt fmt response d Hd Hm).
  rewrite !standardize_roles by (simpl; auto).
  rewrite unpopulated_test_core.
  destruct (populated (role fmt d "tool")); cbn [negb].
  - unfold tool_pass, log, bind, ret, trace_of, result_of. simpl.
    destruct (Core.execute _ _ _ _) as [t [v|e]]; simpl.
    + now rewrite app_nil_r.
    + reflexivity.
  - reflexivity.
Qed.

Lemma tool_pass_never_returns {R : Type} (tool_name params : pyval) (binder : M R)
    (next : R -> string) (v : pyval) :
  result_of (tool_pass tool_name params binder next) <> Ok (Return v).
Proof.
  unfold tool_pass, result_of. simpl. destruct (snd binder); discriminate.
Qed.

Lemma demo_decodes (samples : list pyval) (d : dict pyval) :
  Demo.find_sample (fun v => String.eqb (Demo.fenced v) (Demo.fenced (PyDict d))) samples
    = Some (PyDict d) ->
  Demo.find_sample (fun v => String.eqb (Demo.json_text v) (Demo.json_text (PyDict d))) samples
    = Some (PyDict d) ->
  decodes_to (Demo.runtime samples) (Demo.fenced (PyDict d)) d.
Proof.
  intros Hf Hj. exists (Demo.json_text (PyDict d)). split.
  - unfold find_json_block. cbn [re_search_json Demo.runtime]. now rewrite Hf.
  - cbn [json_loads Demo.runtime]. now rewrite Hj.
Defined.

(** ** Claims about the decision of a pass *)




(** A pass that ends in [Continue] is followed by the next pass, on the
    collaborator as the round-trip left it. *)
Lemma agent_loop_continues {St : Type} (rt : PyRuntime) (ts : dict Agent.tool_info)
    (prompt : string) (n : nat) (scratchpad scratchpad' response : string)
    (l l' : LLM St) (t : list event) :
  ask l (full_prompt_of prompt scratchpad) = (Ok response, l') ->
  Agent.iteration rt ts scratchpad response = (t, Ok (Continue scratchpad')) ->
  Agent.loop rt ts prompt (S n) scratchpad l
  = (fst (Agent.loop rt ts prompt n scratchpad' l'),
     ((EvGenerate (full_prompt_of prompt scratchpad) :: t
         ++ trace_of (snd (Agent.loop rt ts prompt n scratchpad' l')))%list,
      result_of (snd (Agent.loop rt ts prompt n scratchpad' l')))).
Proof.
  intros Hask Hit. cbn [Agent.loop]. rewrite Hask, Hit.
  now destruct (Agent.loop rt ts prompt n scratchpad' l') as [l'' m].
Qed.

Lemma core_loop_continues {St : Type} (rt : PyRuntime) (fmt : Core.ResponseFormat)
    (ts : dict Core.tool_info) (prompt : string) (budget : Z) (n : nat)
    (scratchpad scratchpad' response : string) (l l' : LLM St) (t : list event) :
  ask l (full_prompt_of prompt scratchpad) = (Ok response, l') ->
  Core.iteration rt fmt ts scratchpad response = (t, Ok (Continue scratchpad')) ->
  Core.loop rt fmt ts prompt budget (S n) scratchpad l
  = (fst (Core.loop rt fmt ts prompt budget n scratchpad' l'),
     ((EvGenerate (full_prompt_of prompt scratchpad) :: t
         ++ trace_of (snd (Core.loop rt fmt ts prompt budget n scratchpad' l')))%list,
      result_of (snd (Core.loop rt fmt ts prompt budget n scratchpad' l')))).
Proof.
  intros Hask Hit. cbn [Core.loop]. rewrite Hask, Hit.
  now destruct (Core.loop rt fmt ts prompt budget n scratchpad' l') as [l'' m].
Qed.

Lemma agent_unknown_tool (rt : PyRuntime) (ts : dict Agent.tool_info)
    (name : string) (params : pyval) :
  dict_get ts name = None ->
  Agent.execute_tool rt (PyStr name) params ts
  = ([], Ok (PyStr ("Error: Tool '" ++ name ++ "' not found"))).
Proof.
  intros Hn. unfold Agent.execute_tool, Agent.find_tool. simpl.
  now rewrite Hn.
Qed.

Lemma core_unknown_tool (rt : PyRuntime) (ts : dict Core.tool_info)
    (name : string) (params : pyval) :
  dict_get ts name = None ->
  Core.execute rt ts (PyStr name) params
  = ([], Ok ("Error: Tool '" ++ name ++ "' not found")).
Proof.
  intros Hn. unfold Core.execute, Core.find_tool. simpl.
  now rewrite Hn.
Qed.

(** C2, as the code has it.  When the parsed turn names a tool that is not
    in the registry, the binder calls no function and returns the text
    "Error: Tool '<name>' not found"; the pass records that text in the
    scratchpad as the result of the tool and does not return, and the loop
    goes on with the next round-trip while passes remain. *)
Theorem C2_unknown_tool_is_reported_to_the_model
    (St : Type) (rt : PyRuntime) (ats : dict Agent.tool_info)
    (fmt : Core.ResponseFormat) (cts : dict Core.tool_info)
    (prompt scratchpad response : string) (d : dict pyval) (name : string)
    (budget : Z) (n : nat) (l l' : LLM St) :
  decodes_to rt response d ->
  populated (PyStr name) = true ->
  ask l (full_prompt_of prompt scratchpad) = (Ok response, l') ->
  let report := "Error: Tool '" ++ name ++ "' not found" in
  (field d "Tool call" = PyStr name -> dict_get ats name = None ->
     let scratchpad' :=
       scratchpad ++ Agent.scratch_entry rt (PyStr name) (PyStr report) in
     let rest := Agent.loop rt ats prompt n scratchpad' l' in
     Agent.iteration rt ats scratchpad response
     = ([EvExecute (PyStr name) (field d "Tool Parameters")],
        Ok (Continue scratchpad'))
     /\ Agent.loop rt ats prompt (S n) scratchpad l
        = (fst rest,
           (EvGenerate (full_prompt_of prompt scratchpad)
              :: EvExecute (PyStr name) (field d "Tool Parameters")
              :: trace_of (snd rest),
            result_of (snd rest))))
  /\ (Core.missing_keys (Core.required_keys fmt) d = [] ->
      role fmt d "tool" = PyStr name -> dict_get cts name = None ->
      let scratchpad' := scratchpad ++ Core.scratch_entry rt (PyStr name) report in
      let rest := Core.loop rt fmt cts prompt budget n scratchpad' l' in
      Core.iteration rt fmt cts scratchpad response
      = ([EvExecute (PyStr name) (role fmt d "params")], Ok (Continue scratchpad'))
      /\ Core.loop rt fmt cts prompt budget (S n) scratchpad l
         = (fst rest,
            (EvGenerate (full_prompt_of prompt scratchpad)
               :: EvExecute (PyStr name) (role fmt d "params")
               :: trace_of (snd rest),
             result_of (snd rest)))).
Proof.
  intros Hd Hp Hask report. split.
  - intros Htool Hn scratchpad' rest.
    assert (Hit : Agent.iteration rt ats scratchpad response
                  = ([EvExecute (PyStr name) (field d "Tool Parameters")],
                     Ok (Continue scratchpad'))).
    { rewrite (agent_iteration rt ats scratchpad response d Hd), Htool, Hp.
      unfold tool_pass. now rewrite (agent_unknown_tool rt ats name _ Hn). }
    split; [exact Hit|].
    now rewrite (agent_loop_continues rt ats prompt n _ _ _ _ _ _ Hask Hit).
  - intros Hm Htool Hn scratchpad' rest.
    assert (Hit : Core.iteration rt fmt cts scratchpad response
                  = ([EvExecute (PyStr name) (role fmt d "params")],
                     Ok (Continue scratchpad'))).
    { rewrite (core_iteration rt fmt cts scratchpad response d Hd Hm), Htool, Hp.
      unfold tool_pass. now rewrite (core_unknown_tool rt cts name _ Hn). }
    split; [exact Hit|].
    now rewrite (core_loop_continues rt fmt cts prompt budget n _ _ _ _ _ _ Hask Hit).
Qed.

(** The reply that names [ghost], a tool nobody registered. *)
Lemma C2_witness :
  let rt := Demo.runtime [Demo.ghost; Demo.final] in
  Agent.iteration rt Demo.agent_tools EmptyString (Demo.fenced Demo.ghost)
  = ([EvExecute (PyStr "ghost") (PyStr "None")],
     Ok (Continue (Agent.scratch_entry rt (PyStr "ghost")
                     (PyStr "Error: Tool 'ghost' not found")))).
Proof.
  exact (proj1 (proj1 (C2_unknown_tool_is_reported_to_the_model (list string)
           (Demo.runtime [Demo.ghost; Demo.final])
           Demo.agent_tools Core.TOOLCALL_RESPONSE_FORMAT Demo.core_tools
           "prompt" EmptyString (Demo.fenced Demo.ghost) (Demo.items Demo.ghost)
           "ghost" 10 9
           (Demo.scripted [Demo.fenced Demo.ghost; Demo.fenced Demo.final])
           (Demo.scripted [Demo.fenced Demo.final])
           (demo_decodes [Demo.ghost; Demo.final] (Demo.items Demo.ghost)
              eq_refl eq_refl)
           eq_refl eq_refl) eq_refl eq_refl)).
Defined.

(** Against C2 as stated: the first reply names [ghost].  [invoke] does not
    stop there: it makes a second round-trip, whose prompt carries the
    not-found text, and returns what the second reply answers. *)
Lemma C2_counterexample :
  let rt := Demo.runtime [Demo.ghost; Demo.final] in
  let agent :=
    Agent.add_llm
      (Agent.add_tool (Agent.init Demo.template) "calculator"
         "Evaluate an expression" Demo.calculator)
      (Demo.scripted [Demo.fenced Demo.ghost; Demo.fenced Demo.final]) in
  let outcome := snd (Agent.invoke rt agent "q") in
  let prompt := "Tools:" ++ nl ++ "        - calculator: Evaluate an expression"
                  ++ nl ++ "query: q" in
  trace_of outcome
  = [EvGenerate prompt;
     EvExecute (PyStr "ghost") (PyStr "None");
     EvGenerate (prompt ++ nl
                   ++ Agent.scratch_entry rt (PyStr "ghost")
                        (PyStr "Error: Tool 'ghost' not found"))]
  /\ result_of outcome = Ok (PyStr "done").
Proof. repeat split. Qed.

(** ** Claims about required fields and the final answer *)

Lemma missing_keys_spec (required : list string) (d : dict pyval) (key : string) :
  In key (Core.missing_keys required d) <-> In key required /\ dict_get d key = None.
Proof.
  unfold Core.missing_keys. rewrite filter_In. unfold dict_mem.
  destruct (dict_get d key); simpl; intuition congruence.
Qed.

Lemma core_parse_missing (rt : PyRuntime) (required : list string)
    (response : string) (d : dict pyval) :
  decodes_to rt response d ->
  Core.missing_keys required d <> [] ->
  Core.parse_json_response rt response required
  = Raise (Exn "ValueError"
             ("Missing required keys: "
                ++ py_str rt (PyList (map PyStr (Core.missing_keys required d))))).
Proof.
  intros (g & Hg & Hj) Hm. unfold Core.parse_json_response. rewrite Hg, Hj.
  destruct required as [|key required]; [now elim Hm|].
  destruct (Core.missing_keys (key :: required) d); [now elim Hm|reflexivity].
Qed.




(** C9, as the code has it.  A pass ends the loop exactly when the tool role
    of the parsed turn is unpopulated; whether the answer role is populated
    plays no part in that.  On such a pass a populated answer is what is
    returned.  In [FlexibleAgent] an unpopulated answer is replaced by the
    text "No response provided", so the sentinel is never the result. *)
Theorem C9_loop_ends_when_tool_role_unpopulated
    (rt : PyRuntime) (ats : dict Agent.tool_info)
    (fmt : Core.ResponseFormat) (cts : dict Core.tool_info)
    (scratchpad response : string) (d : dict pyval) :
  decodes_to rt response d ->
  ((exists answer : pyval,
      result_of (Agent.iteration rt ats scratchpad response) = Ok (Return answer))
   <-> populated (field d "Tool call") = false)
  /\ (populated (field d "Tool call") = false ->
      populated (field d "Final Response") = true ->
      Agent.iteration rt ats scratchpad response
      = ([], Ok (Return (field d "Final Response"))))
  /\ (Core.missing_keys (Core.required_keys fmt) d = [] ->
      ((exists answer : pyval,
          result_of (Core.iteration rt fmt cts scratchpad response) = Ok (Return answer))
       <-> populated (role fmt d "tool") = false)
      /\ (populated (role fmt d "tool") = false ->
          populated (role fmt d "response") = true ->
          Core.iteration rt fmt cts scratchpad response
          = ([], Ok (Return (role fmt d "response"))))
      /\ (populated (role fmt d "tool") = false ->
          populated (role fmt d "response") = false ->
          Core.iteration rt fmt cts scratchpad response
          = ([], Ok (Return (PyStr "No response provided"))))
      /\ result_of (Core.iteration rt fmt cts scratchpad response)
         <> Ok (Return (PyStr "None"))).
Proof.
  intros Hd. split; [|split].
  - rewrite (agent_iteration rt ats scratchpad response d Hd).
    destruct (populated (field d "Tool call")); split.
    + intros [answer H]. now apply tool_pass_never_returns in H.
    + discriminate.
    + reflexivity.
    + intros _. eexists. reflexivity.
  - intros Ht Ha. now rewrite (agent_iteration rt ats scratchpad response d Hd), Ht.
  - intros Hm. rewrite (core_iteration rt fmt cts scratchpad response d Hd Hm).
    destruct (populated (role fmt d "tool")) eqn:Ht; repeat split;
      try discriminate; try reflexivity.
    + intros [answer H]. now apply tool_pass_never_returns in H.
    + apply tool_pass_never_returns.
    + intros _. eexists. reflexivity.
    + intros _ ->. reflexivity.
    + intros _ ->. reflexivity.
    + unfold result_of. simpl.
      destruct (populated (role fmt d "response")) eqn:Ha; [|discriminate].
      intros H. injection H as H. rewrite H in Ha. discriminate.
Qed.

(** The reply whose three fields are all the sentinel, given to
    [FlexibleAgent]. *)
Lemma C9_witness :
  Core.iteration (Demo.runtime [Demo.silent]) Core.TOOLCALL_RESPONSE_FORMAT
    Demo.core_tools EmptyString (Demo.fenced Demo.silent)
  = ([], Ok (Return (PyStr "No response provided"))).
Proof.
  exact (proj1 (proj2 (proj2 (proj2 (proj2
           (C9_loop_ends_when_tool_role_unpopulated
              (Demo.runtime [Demo.silent]) Demo.agent_tools
              Core.TOOLCALL_RESPONSE_FORMAT Demo.core_tools EmptyString
              (Demo.fenced Demo.silent) (Demo.items Demo.silent)
              (demo_decodes [Demo.silent] (Demo.items Demo.silent) eq_refl eq_refl)))
           eq_refl))) eq_refl eq_refl).
Defined.

(** Against C9 as stated: a reply with the answer "42" present and not the
    sentinel, next to a tool call.  The pass of [FlexibleAgent] does not end
    the loop with that answer; it calls the tool and continues.  And a reply
    whose answer is the sentinel ends the loop all the same. *)
Lemma C9_counterexample :
  let rt := Demo.runtime [Demo.both; Demo.silent] in
  let fmt := Core.TOOLCALL_RESPONSE_FORMAT in
  populated (role fmt (Demo.items Demo.both) "response") = true
  /\ Core.iteration rt fmt Demo.core_tools EmptyString (Demo.fenced Demo.both)
     = ([EvExecute (PyStr "calculator") (PyDict [("expression", PyStr "6*7")]);
         EvCall "calculator" (Call [] [("expression", PyStr "6*7")])],
        Ok (Continue (Core.scratch_entry rt (PyStr "calculator") "42")))
  /\ populated (role fmt (Demo.items Demo.silent) "response") = false
  /\ Core.iteration rt fmt Demo.core_tools EmptyString (Demo.fenced Demo.silent)
     = ([], Ok (Return (PyStr "No response provided"))).
Proof. repeat split. Qed.

(** Beside C9: in [agent.py] the one-key dict [final_response] always holds
    the key, so the default "No response provided" of its [get] is never
    used, and a turn with every role at the sentinel returns the sentinel. *)
Lemma agent_returns_the_sentinel :
  Agent.iteration (Demo.runtime [Demo.silent]) Demo.agent_tools EmptyString
    (Demo.fenced Demo.silent)
  = ([], Ok (Return (PyStr "None"))).
Proof. reflexivity. Qed.

(** ** The cache of agent.py *)

(** C8 at its failing input in [agent.py]: a [ToolCallAgent] with the tool
    [calculator] is invoked once, which fills the cache; then [add] is
    added.  [add_tool] leaves the cache as it is, so it no longer equals the
    compilation of the registry, and the prompt of the next [invoke] lists
    [calculator] only. *)
Theorem C8_agent_cache_survives_add_tool :
  let rt := Demo.runtime [Demo.final] in
  let fresh :=
    Agent.add_llm
      (Agent.add_tool (Agent.init Demo.template) "calculator"
         "Evaluate an expression" Demo.calculator)
      (Demo.constant (Demo.fenced Demo.final)) in
  let invoked := fst (Agent.invoke rt fresh "q") in
  let extended := Agent.add_tool invoked "add" "Join two texts" Demo.add in
  let stale := "Tools:" ++ nl ++ "        - calculator: Evaluate an expression"
                 ++ nl ++ "query: " in
  dict_keys (Agent.tools extended) = ["calculator"; "add"]
  /\ Agent._compiled_prompt invoked
     = Some (Agent.compile Demo.template (Agent.tools invoked))
  /\ Agent._compiled_prompt extended = Some (stale ++ "{user_input}")
  /\ Agent.compile Demo.template (Agent.tools extended)
     = "Tools:" ++ nl ++ "        - calculator: Evaluate an expression"
         ++ nl ++ "        - add: Join two texts" ++ nl ++ "query: {user_input}"
  /\ trace_of (snd (Agent.invoke rt extended "again")) = [EvGenerate (stale ++ "again")].
Proof. repeat split. Qed.

(** In general: [add_tool] of [agent.py] never touches the cache. *)
Lemma agent_add_tool_keeps_cache {St : Type} (self : Agent.ToolCallAgent St)
    (name description : string) (f : tool_function) :
  Agent._compiled_prompt (Agent.add_tool self name description f)
  = Agent._compiled_prompt self.
Proof. reflexivity. Qed.

(** The same steps on a [FlexibleAgent]: [BaseAgent.add_tool] empties the
    cache and the next [invoke] compiles the two tools. *)
Lemma core_cache_reset_by_add_tool :
  let rt := Demo.runtime [Demo.final] in
  let fresh :=
    Core.set_llm
      (Core.add_tool (Core.init (Demo.toolcall_config 10)) "calculator"
         "Evaluate an expression" Demo.calculator None)
      (Demo.constant (Demo.fenced Demo.final)) in
  let invoked := fst (Core.invoke rt fresh "q" None) in
  let extended := Core.add_tool invoked "add" "Join two texts" Demo.add None in
  Core._compiled_prompt invoked
    = Some ("Tools:" ++ nl ++ "- calculator: Evaluate an expression"
              ++ nl ++ "query: {user_input}")
  /\ Core._compiled_prompt extended = None
  /\ trace_of (snd (Core.invoke rt extended "again" None))
     = [EvGenerate ("Tools:" ++ nl ++ "- calculator: Evaluate an expression"
                      ++ nl ++ "- add: Join two texts" ++ nl ++ "query: again")].
Proof. repeat split. Qed.

(** ** The iteration budget *)

Lemma count_app (kind : event -> bool) (t u : list event) :
  count kind (t ++ u) = count kind t + count kind u.
Proof. unfold count. now rewrite filter_app, length_app. Qed.





Lemma count_cons (kind : event -> bool) (e : event) (t : list event) :
  count kind (e :: t) = (if kind e then 1 else 0) + count kind t.
Proof. unfold count. simpl. now destruct (kind e). Qed.




Lemma core_invoke_runs_loop {St : Type} (rt : PyRuntime) (self : Core.FlexibleAgent St)
    (l : LLM St) (query : string) (kw : option Z) (compiled prompt : string) :
  Core.validate_setup self = None ->
  Core.llm self = Some l ->
  core_compiled self = Ok compiled ->
  str_format rt compiled query = Ok prompt ->
  let run := Core.loop rt (Core.response_format (Core.config self))
               (Core.tool_executor self) prompt (core_budget self kw)
               (Z.to_nat (core_budget self kw)) EmptyString l in
  Core.invoke rt self query kw
  = (Core.with_llm
       (Core.with_tools_and_cache self (Core.tool_executor self) (Some compiled))
       (fst run),
     snd run).
Proof.
  intros Hvalid Hllm Hcompiled Hformat run. subst run.
  unfold Core.invoke, core_compiled, core_budget in *.
  rewrite Hvalid, Hcompiled, Hllm, Hformat.
  cbn [Core.max_iterations Core.with_tools_and_cache Core.config Core.tool_executor].
  now destruct (Core.loop _ _ _ _ _ _ _ _).
Qed.






(** * Further properties of the embedded code *)

(** ** Vocabulary *)

(** What a caller does to a [ToolExecutor]. *)
Inductive registry_operation : Type :=
| Register (name description : string) (f : tool_function) (schema : option pyval)
| Unregister (name : string).

Definition apply_registry_operation (ts : dict Core.tool_info)
    (o : registry_operation) : dict Core.tool_info :=
  match o with
  | Register name description f schema =>
      Core.register_tool ts name description f schema
  | Unregister name => fst (Core.unregister_tool ts name)
  end.

(** The registry of a [ToolExecutor] after the operations [ops], from the
    empty registry of [__init__]. *)
Definition registry_after (ops : list registry_operation) : dict Core.tool_info :=
  fold_left apply_registry_operation ops [].

(** The line of a tool in [get_tools_description]. *)
Definition description_line (name description : string) : string :=
  "- " ++ name ++ ": " ++ description.

(** Two registries hold the same functions under the same names, in the
    same order. *)
Definition same_functions (ts ts' : dict Core.tool_info) : Prop :=
  map (fun item => (fst item, Core.function (snd item))) ts
  = map (fun item => (fst item, Core.function (snd item))) ts'.

(** ** Strings and dicts *)

Lemma string_app_assoc (a b c : string) : (a ++ b) ++ c = a ++ (b ++ c).
Proof. induction a as [|x a IH]; simpl; [reflexivity|now rewrite IH]. Qed.

Lemma string_app_nil_r (a : string) : a ++ EmptyString = a.
Proof. induction a as [|x a IH]; simpl; [reflexivity|now rewrite IH]. Qed.

Lemma prefix_app (a b : string) : String.prefix a (a ++ b) = true.
Proof.
  induction a as [|x a IH]; simpl.
  - now destruct b.
  - destruct (ascii_dec x x) as [_|Hne]; [exact IH|now elim Hne].
Qed.

Lemma prefix_refl (a : string) : String.prefix a a = true.
Proof. rewrite <- (string_app_nil_r a) at 2. apply prefix_app. Qed.

Lemma dict_mem_In {V : Type} (d : dict V) (k : string) :
  dict_mem d k = true <-> In k (dict_keys d).
Proof.
  unfold dict_mem, dict_keys. induction d as [|[k0 v0] d IH]; simpl.
  - split; [discriminate|tauto].
  - destruct (String.eqb_spec k0 k) as [->|Hne].
    + split; auto.
    + rewrite IH. split; [auto|]. intros [H|H]; [congruence|exact H].
Qed.

Lemma dict_get_not_In {V : Type} (d : dict V) (k : string) :
  ~ In k (dict_keys d) -> dict_get d k = None.
Proof.
  intros Hn. pose proof (dict_mem_In d k) as H. unfold dict_mem in H.
  destruct (dict_get d k); [|reflexivity]. elim Hn. now apply H.
Qed.

Lemma dict_keys_set_subset {V : Type} (d : dict V) (k k' : string) (v : V) :
  In k' (dict_keys (dict_set d k v)) -> k' = k \/ In k' (dict_keys d).
Proof.
  unfold dict_keys. induction d as [|[k0 v0] d IH]; simpl.
  - intros [H|[]]. now left.
  - destruct (String.eqb_spec k0 k) as [->|Hne]; simpl.
    + intros [H|H]; auto.
    + intros [H|H]; auto. destruct (IH H); auto.
Qed.

Lemma dict_set_NoDup {V : Type} (d : dict V) (k : string) (v : V) :
  NoDup (dict_keys d) -> NoDup (dict_keys (dict_set d k v)).
Proof.
  intros Hd. destruct (dict_mem d k) eqn:Hm.
  - now rewrite dict_keys_set_present.
  - rewrite dict_keys_set_absent by exact Hm.
    apply NoDup_app; [exact Hd|repeat constructor; auto|].
    intros x Hx [<-|[]]. apply dict_mem_In in Hx. congruence.
Qed.

Lemma dict_keys_del {V : Type} (d : dict V) (k : string) :
  NoDup (dict_keys d) ->
  dict_keys (dict_del d k) = filter (fun k' => negb (String.eqb k' k)) (dict_keys d).
Proof.
  unfold dict_keys. induction d as [|[k0 v0] d IH]; simpl; intros Hd.
  - reflexivity.
  - inversion Hd as [|? ? Hnot Hrest]; subst.
    destruct (String.eqb_spec k0 k) as [->|Hne]; simpl.
    + symmetry. apply forallb_filter_id. apply forallb_forall.
      intros x Hx. destruct (String.eqb_spec x k) as [->|]; [now elim Hnot|reflexivity].
    + now rewrite IH.
Qed.

Lemma dict_get_del_same {V : Type} (d : dict V) (k : string) :
  NoDup (dict_keys d) -> dict_get (dict_del d k) k = None.
Proof.
  intros Hd. apply dict_get_not_In. rewrite dict_keys_del by exact Hd.
  rewrite filter_In. intros [_ H]. now rewrite String.eqb_refl in H.
Qed.

Lemma dict_get_del_other {V : Type} (d : dict V) (k k' : string) :
  k' <> k -> dict_get (dict_del d k) k' = dict_get d k'.
Proof.
  intros Hne. induction d as [|[k0 v0] d IH]; simpl.
  - reflexivity.
  - destruct (String.eqb_spec k0 k) as [->|Hk]; simpl.
    + destruct (String.eqb_spec k k'); congruence.
    + destruct (String.eqb_spec k0 k'); auto.
Qed.

Lemma dict_del_NoDup {V : Type} (d : dict V) (k : string) :
  NoDup (dict_keys d) -> NoDup (dict_keys (dict_del d k)).
Proof.
  intros Hd. rewrite dict_keys_del by exact Hd. now apply NoDup_filter.
Qed.

(** ** The tool registry: invariants and round trips *)

(** X1.  Whatever sequence of registrations and removals a [ToolExecutor]
    has gone through, [list_tools] names no tool twice. *)
Theorem registry_names_stay_unique (ops : list registry_operation) :
  NoDup (Core.list_tools (registry_after ops)).
Proof.
  unfold registry_after.
  assert (H : forall ts, NoDup (Core.list_tools ts) ->
            NoDup (Core.list_tools (fold_left apply_registry_operation ops ts))).
  { induction ops as [|o ops IH]; intros ts Hts; simpl; [exact Hts|].
    apply IH. destruct o as [name description f schema|name]; simpl.
    - now apply dict_set_NoDup.
    - unfold Core.unregister_tool.
      destruct (dict_mem ts name); simpl; [now apply dict_del_NoDup|exact Hts]. }
  apply H. constructor.
Qed.

(** X2.  [unregister_tool] on a registry without repeated names: the flag
    tells whether the name was registered; afterwards the name resolves to
    nothing, every other name resolves as before, and the listing is the old
    one without that name, the others in their old order. *)
Theorem unregister_removes_exactly_one_tool
    (ts : dict Core.tool_info) (name : string) :
  NoDup (Core.list_tools ts) ->
  let after := fst (Core.unregister_tool ts name) in
  snd (Core.unregister_tool ts name) = dict_mem ts name
  /\ Core.get_tool after name = None
  /\ (forall other : string, other <> name ->
        Core.get_tool after other = Core.get_tool ts other)
  /\ Core.list_tools after
     = filter (fun k => negb (String.eqb k name)) (Core.list_tools ts).
Proof.
  intros Hd after. subst after.
  unfold Core.unregister_tool, Core.get_tool, Core.list_tools in *.
  destruct (dict_mem ts name) eqn:Hm; simpl.
  - repeat split.
    + now apply dict_get_del_same.
    + intros other Hne. now apply dict_get_del_other.
    + now apply dict_keys_del.
  - assert (Hnot : ~ In name (dict_keys ts)).
    { intros Hin. apply dict_mem_In in Hin. congruence. }
    repeat split.
    + now apply dict_get_not_In.
    + symmetry. apply forallb_filter_id. apply forallb_forall.
      intros x Hx. destruct (String.eqb_spec x name) as [->|]; [now elim Hnot|reflexivity].
Qed.

(** The demo registry without [add]. *)
Lemma unregister_removes_exactly_one_tool_witness :
  Core.get_tool (fst (Core.unregister_tool Demo.core_tools "add")) "add" = None
  /\ Core.list_tools (fst (Core.unregister_tool Demo.core_tools "add"))
     = ["calculator"; "noop"; "blank"; "boom"].
Proof.
  assert (Hd : NoDup (Core.list_tools Demo.core_tools)).
  { repeat constructor; simpl; intuition discriminate. }
  pose proof (unregister_removes_exactly_one_tool Demo.core_tools "add" Hd)
    as (_ & Hget & _ & Hlist).
  split; [exact Hget|exact Hlist].
Defined.

Lemma join_snoc (sep : string) (l : list string) (x : string) :
  join sep (l ++ [x])
  = match l with
    | [] => x
    | _ :: _ => join sep l ++ sep ++ x
    end.
Proof.
  unfold join. induction l as [|a l IH]; simpl.
  - reflexivity.
  - destruct l as [|b l]; simpl in *.
    + reflexivity.
    + rewrite IH. now rewrite !string_app_assoc.
Qed.

Lemma register_fresh_appends (ts : dict Core.tool_info) (name description : string)
    (f : tool_function) (schema : option pyval) :
  dict_mem ts name = false ->
  Core.register_tool ts name description f schema
  = (ts ++ [(name, {| Core.description := description; Core.function := f;
                      Core.parameter_schema := schema |})])%list.
Proof.
  unfold Core.register_tool, dict_mem. induction ts as [|[k0 v0] ts IH]; simpl.
  - reflexivity.
  - destruct (String.eqb k0 name); [discriminate|].
    intros H. now rewrite IH.
Qed.

(** X3.  Registering a tool under a name that is not yet registered adds one
    line, "- <name>: <description>", at the end of the tool list that goes
    into the prompt, and leaves the lines before it as they were. *)
Theorem registering_a_new_tool_appends_its_line
    (ts : dict Core.tool_info) (name description : string)
    (f : tool_function) (schema : option pyval) :
  dict_mem ts name = false ->
  Core.get_tools_description (Core.register_tool ts name description f schema)
  = match ts with
    | [] => description_line name description
    | _ :: _ =>
        Core.get_tools_description ts ++ nl ++ description_line name description
    end.
Proof.
  intros Hm. rewrite (register_fresh_appends ts name description f schema Hm).
  unfold Core.get_tools_description. rewrite map_app. simpl map at 2.
  rewrite join_snoc. unfold description_line. simpl.
  now destruct ts.
Qed.

(** [search] added to the demo registry. *)
Lemma registering_a_new_tool_appends_its_line_witness :
  Core.get_tools_description
    (Core.register_tool Demo.core_tools "search" "Search the web" Demo.noop None)
  = Core.get_tools_description Demo.core_tools ++ nl ++ "- search: Search the web".
Proof.
  exact (registering_a_new_tool_appends_its_line Demo.core_tools "search"
           "Search the web" Demo.noop None eq_refl).
Defined.

Lemma same_functions_get (ts ts' : dict Core.tool_info) (name : string) :
  same_functions ts ts' ->
  option_map Core.function (dict_get ts name)
  = option_map Core.function (dict_get ts' name).
Proof.
  unfold same_functions. revert ts'.
  induction ts as [|[k v] ts IH]; intros [|[k' v'] ts'] H; simpl in *;
    try discriminate; [reflexivity|].
  injection H as Hk Hf Hrest. subst k'.
  destruct (String.eqb k name); simpl; [now rewrite Hf|now apply IH].
Qed.

(** X4.  [ToolExecutor.execute] looks at the registry only for the function
    behind a name: two registries with the same functions under the same
    names give the same events and the same result, whatever descriptions
    and parameter schemas they hold.  In particular a registered parameter
    schema is never checked when a tool is executed. *)
Theorem execute_ignores_descriptions_and_schemas
    (rt : PyRuntime) (ts ts' : dict Core.tool_info) (tool_name params : pyval) :
  same_functions ts ts' ->
  Core.execute rt ts tool_name params = Core.execute rt ts' tool_name params.
Proof.
  intros Hsame. unfold Core.execute, Core.find_tool.
  destruct (hashable tool_name); [|reflexivity].
  destruct tool_name; try reflexivity.
  pose proof (same_functions_get ts ts' s Hsame) as Hget.
  destruct (dict_get ts s) as [info|], (dict_get ts' s) as [info'|];
    simpl in Hget; try discriminate; [|reflexivity].
  injection Hget as Hf. unfold bind, ret. simpl. now rewrite Hf.
Qed.

(** The demo registry, and the same tools with a schema that requires a
    parameter the call does not give. *)
Lemma execute_ignores_descriptions_and_schemas_witness :
  let strict :=
    map (fun item =>
           (fst item,
            {| Core.description := "changed";
               Core.function := Core.function (snd item);
               Core.parameter_schema :=
                 Some (PyDict [("required", PyList [PyStr "expression"])]) |}))
      Demo.core_tools in
  Core.execute (Demo.runtime []) Demo.core_tools (PyStr "noop") (PyStr "None")
  = Core.execute (Demo.runtime []) strict (PyStr "noop") (PyStr "None").
Proof.
  exact (execute_ignores_descriptions_and_schemas (Demo.runtime []) Demo.core_tools
           _ (PyStr "noop") (PyStr "None") eq_refl).
Defined.

Lemma core_execute_unhashable (rt : PyRuntime) (ts : dict Core.tool_info)
    (tool_name params : pyval) :
  hashable tool_name = false ->
  Core.execute rt ts tool_name params = ([], Raise (Exn "TypeError" "unhashable type")).
Proof.
  intros Hh. unfold Core.execute, Core.find_tool. now rewrite Hh.
Qed.

Lemma agent_execute_unhashable (rt : PyRuntime) (ts : dict Agent.tool_info)
    (tool_name params : pyval) :
  hashable tool_name = false ->
  Agent.execute_tool rt tool_name params ts
  = ([], Raise (Exn "TypeError" "unhashable type")).
Proof.
  intros Hh. unfold Agent.execute_tool, Agent.find_tool. now rewrite Hh.
Qed.

(** The events of one call of a binder: none, or the call of the function
    registered under the requested name. *)
Definition calls_only (tool_name : pyval) (registered : string -> bool)
    (t : list event) : Prop :=
  t = []
  \/ exists (name : string) (c : pycall),
       t = [EvCall name c] /\ tool_name = PyStr name /\ registered name = true.

Lemma core_execute_calls (rt : PyRuntime) (cts : dict Core.tool_info)
    (tool_name params : pyval) :
  calls_only tool_name (dict_mem cts) (trace_of (Core.execute rt cts tool_name params)).
Proof.
  unfold calls_only.
  destruct (hashable tool_name) eqn:Hh;
    [|rewrite core_execute_unhashable by exact Hh; now left].
  destruct tool_name as [| | | |name| | |]; try discriminate Hh;
    try (left; reflexivity).
  destruct (dict_get cts name) as [info|] eqn:Hreg.
  - destruct (core_registered_shape rt name cts info params Hreg)
      as [[s H]|[[c H]|(e & _ & _ & H)]]; rewrite H; [now left| |now left].
    right. exists name, c. unfold dict_mem. now rewrite Hreg.
  - rewrite (core_unknown_tool rt cts name params Hreg). now left.
Qed.

Lemma agent_execute_calls (rt : PyRuntime) (ats : dict Agent.tool_info)
    (tool_name params : pyval) :
  calls_only tool_name (dict_mem ats)
    (trace_of (Agent.execute_tool rt tool_name params ats)).
Proof.
  unfold calls_only.
  destruct (hashable tool_name) eqn:Hh;
    [|rewrite agent_execute_unhashable by exact Hh; now left].
  destruct tool_name as [| | | |name| | |]; try discriminate Hh;
    try (left; reflexivity).
  destruct (dict_get ats name) as [info|] eqn:Hreg.
  - destruct (populated params) eqn:Hp.
    + destruct (agent_registered_shape rt name ats info params Hreg Hp)
        as [[v H]|[[c H]|(e & _ & H)]]; rewrite H; [now left| |now left].
      right. exists name, c. unfold dict_mem. now rewrite Hreg.
    + rewrite (agent_zero_args rt name ats info Hreg params Hp).
      right. exists name, no_args. unfold dict_mem. now rewrite Hreg.
  - rewrite (agent_unknown_tool rt ats name params Hreg). now left.
Qed.

(** X5.  Whatever the tool name and the parameters, a call of either binder
    runs at most one tool function, and only the one registered under the
    name it was asked for: a name that is not a registered string never
    leads to a call. *)
Theorem binder_calls_only_the_requested_tool
    (rt : PyRuntime) (ats : dict Agent.tool_info) (cts : dict Core.tool_info)
    (tool_name params : pyval) :
  calls_only tool_name (dict_mem cts)
    (trace_of (Core.execute rt cts tool_name params))
  /\ calls_only tool_name (dict_mem ats)
       (trace_of (Agent.execute_tool rt tool_name params ats)).
Proof.
  split; [apply core_execute_calls|apply agent_execute_calls].
Qed.

(** ** validate_parameters *)

Lemma check_required_names (rt : PyRuntime) (parameters : dict pyval)
    (names : list string) :
  Core.check_required rt parameters (map PyStr names)
  = match find (fun key => negb (dict_mem parameters key)) names with
    | None => Ok (true, None)
    | Some key => Ok (false, Some ("Missing required parameter: " ++ key))
    end.
Proof.
  induction names as [|key names IH]; simpl; [reflexivity|].
  destruct (dict_mem parameters key); simpl; [exact IH|reflexivity].
Qed.

(** X6.  [validate_parameters] on a registered tool whose schema lists its
    required parameters by name: the answer is [(True, None)] exactly when
    every listed name is a key of the parameters; otherwise it is [False]
    with the message "Missing required parameter: <name>" for the first
    listed name that is absent.  A tool without schema, or with an empty
    one, accepts any parameters, and an unregistered name is reported as
    "Tool '<name>' not found". *)
Theorem validate_parameters_reports_first_missing_name
    (rt : PyRuntime) (ts : dict Core.tool_info) (tool_name : string)
    (info : Core.tool_info) (schema : dict pyval) (names : list string)
    (parameters : dict pyval) :
  dict_get ts tool_name = Some info ->
  (Core.parameter_schema info = Some (PyDict schema) ->
   schema <> [] ->
   dict_get schema "required" = Some (PyList (map PyStr names)) ->
   Core.validate_parameters rt ts tool_name parameters
   = match find (fun key => negb (dict_mem parameters key)) names with
     | None => Ok (true, None)
     | Some key => Ok (false, Some ("Missing required parameter: " ++ key))
     end)
  /\ (Core.parameter_schema info = None \/ Core.parameter_schema info = Some (PyDict []) ->
      Core.validate_parameters rt ts tool_name parameters = Ok (true, None))
  /\ (forall other : string, dict_get ts other = None ->
      Core.validate_parameters rt ts other parameters
      = Ok (false, Some ("Tool '" ++ other ++ "' not found"))).
Proof.
  intros Hreg. split; [|split].
  - intros Hs Hne Hr. unfold Core.validate_parameters. rewrite Hreg, Hs.
    destruct schema as [|item schema]; [now elim Hne|]. cbn [truthy negb].
    unfold dict_get_default. rewrite Hr. cbn [Core.py_iter].
    apply check_required_names.
  - intros [Hs|Hs]; unfold Core.validate_parameters; now rewrite Hreg, Hs.
  - intros other Hn. unfold Core.validate_parameters. now rewrite Hn.
Qed.

(** A calculator that requires [expression] and [precision], called with
    [expression] only. *)
Lemma validate_parameters_reports_first_missing_name_witness :
  let schema := [("required", PyList [PyStr "expression"; PyStr "precision"])] in
  let ts := Core.register_tool [] "calculator" "Evaluate an expression"
              Demo.calculator (Some (PyDict schema)) in
  Core.validate_parameters (Demo.runtime []) ts "calculator"
    [("expression", PyStr "6*7")]
  = Ok (false, Some "Missing required parameter: precision").
Proof.
  refine (proj1 (validate_parameters_reports_first_missing_name (Demo.runtime [])
           (Core.register_tool [] "calculator" "Evaluate an expression"
              Demo.calculator
              (Some (PyDict [("required",
                              PyList [PyStr "expression"; PyStr "precision"])])))
           "calculator" _
           [("required", PyList [PyStr "expression"; PyStr "precision"])]
           ["expression"; "precision"] [("expression", PyStr "6*7")] eq_refl)
           eq_refl _ eq_refl).
  discriminate.
Defined.

(** ** The comma-separated arguments *)

(** The number of commas in a text. *)
Fixpoint commas (s : string) : nat :=
  match s with
  | EmptyString => 0
  | String c s' => (if Ascii.eqb c ","%char then 1 else 0) + commas s'
  end.

(** The characters of [s] are all different from the comma. *)
Fixpoint comma_free (s : string) : bool :=
  match s with
  | EmptyString => true
  | String c s' => negb (Ascii.eqb c ","%char) && comma_free s'
  end.

Lemma split_comma_length (s : string) :
  List.length (split_comma s) = S (commas s).
Proof.
  induction s as [|c s IH]; simpl; [reflexivity|].
  destruct (Ascii.eqb c ","%char); simpl.
  - now rewrite IH.
  - destruct (split_comma s) as [|seg segs]; simpl in *; [discriminate|exact IH].
Qed.

Lemma split_comma_free (s : string) :
  forallb comma_free (split_comma s) = true.
Proof.
  induction s as [|c s IH]; simpl; [reflexivity|].
  destruct (Ascii.eqb c ","%char) eqn:E; simpl.
  - exact IH.
  - destruct (split_comma s) as [|seg segs]; simpl in *.
    + now rewrite E.
    + rewrite E. exact IH.
Qed.

Lemma lstrip_comma_free (s : string) : comma_free s = true -> comma_free (lstrip s) = true.
Proof.
  induction s as [|c s IH]; simpl; [reflexivity|].
  intros H. apply andb_prop in H as [Hc Hs].
  destruct (isspace c); [now apply IH|]. simpl. now rewrite Hc, Hs.
Qed.

Lemma rstrip_comma_free (s : string) : comma_free s = true -> comma_free (rstrip s) = true.
Proof.
  induction s as [|c s IH]; simpl; [reflexivity|].
  intros H. apply andb_prop in H as [Hc Hs]. specialize (IH Hs).
  destruct (rstrip s) as [|c' r].
  - destruct (isspace c); simpl; [reflexivity|now rewrite Hc].
  - simpl in *. now rewrite Hc, IH.
Qed.

Lemma rstrip_cons (c : ascii) (s : string) :
  rstrip (String c s)
  = match rstrip s with
    | EmptyString => if isspace c then EmptyString else String c EmptyString
    | r => String c r
    end.
Proof. reflexivity. Qed.

Lemma rstrip_idempotent (s : string) : rstrip (rstrip s) = rstrip s.
Proof.
  induction s as [|c s IH]; [reflexivity|].
  rewrite rstrip_cons. destruct (rstrip s) as [|c' r] eqn:E.
  - destruct (isspace c) eqn:Hc; [reflexivity|].
    rewrite rstrip_cons. simpl. now rewrite Hc.
  - rewrite rstrip_cons, IH. reflexivity.
Qed.

Lemma lstrip_head (s : string) :
  match lstrip s with
  | EmptyString => True
  | String c _ => isspace c = false
  end.
Proof.
  induction s as [|c s IH]; simpl; [exact I|].
  destruct (isspace c) eqn:Hc; [exact IH|exact Hc].
Qed.

Lemma rstrip_keeps_head (c : ascii) (s : string) :
  isspace c = false -> exists r, rstrip (String c s) = String c r.
Proof.
  intros Hc. rewrite rstrip_cons. destruct (rstrip s) as [|c' r].
  - rewrite Hc. now exists EmptyString.
  - now exists (String c' r).
Qed.

Lemma strip_stripped (s : string) :
  lstrip (strip s) = strip s /\ rstrip (strip s) = strip s.
Proof.
  unfold strip. split; [|apply rstrip_idempotent].
  pose proof (lstrip_head s) as Hh. destruct (lstrip s) as [|c t]; [reflexivity|].
  destruct (rstrip_keeps_head c t Hh) as [r ->]. simpl. now rewrite Hh.
Qed.

(** X7.  The positional call built from a comma-separated text always has
    at least one argument: one more than the text has commas.  Every
    argument is a string without commas from which [strip] removes nothing
    more, and there are no keyword arguments. *)
Theorem comma_arguments_are_counted_and_trimmed (rt : PyRuntime) (param_string : pyval) :
  List.length (args (comma_args rt param_string))
    = S (commas (py_str rt param_string))
  /\ kwargs (comma_args rt param_string) = []
  /\ forall a : pyval, In a (args (comma_args rt param_string)) ->
       exists s : string,
         a = PyStr s /\ comma_free s = true /\ lstrip s = s /\ rstrip s = s.
Proof.
  unfold comma_args, split_params. simpl. split; [|split].
  - now rewrite !length_map, split_comma_length.
  - reflexivity.
  - intros a Ha. apply in_map_iff in Ha as (s & <- & Hs).
    apply in_map_iff in Hs as (seg & <- & Hseg).
    exists (strip seg). split; [reflexivity|]. split.
    + pose proof (split_comma_free (py_str rt param_string)) as Hall.
      rewrite forallb_forall in Hall. unfold strip.
      apply rstrip_comma_free, lstrip_comma_free. now apply Hall.
    + apply strip_stripped.
Qed.

(** ** The parsers *)

Lemma take_length (n : nat) (s : string) : String.length (take n s) <= n.
Proof.
  unfold take. revert s. induction n as [|n IH]; intros s; simpl.
  - destruct s; simpl; lia.
  - destruct s as [|c s]; simpl; [lia|]. specialize (IH s). lia.
Qed.

Lemma decodes_to_unique (rt : PyRuntime) (response : string) (d d' : dict pyval) :
  decodes_to rt response d -> decodes_to rt response d' -> d = d'.
Proof.
  intros (g & Hg & Hj) (g' & Hg' & Hj'). congruence.
Qed.

Lemma parse_json_response_shape (rt : PyRuntime) (response : string)
    (required : list string) (d : dict pyval) :
  Core.parse_json_response rt response required = Ok d
  <-> decodes_to rt response d /\ Core.missing_keys required d = [].
Proof.
  split.
  - unfold Core.parse_json_response, decodes_to.
    destruct (find_json_block rt response) as [g|]; [|discriminate].
    destruct (json_loads rt g) as [v|msg|e] eqn:Hj; try discriminate.
    destruct v; try discriminate.
    destruct required as [|key required].
    + intros H. injection H as <-. split; [now exists g|reflexivity].
    + destruct (Core.missing_keys (key :: required) d0) eqn:Hm; [|discriminate].
      intros H. injection H as <-. split; [now exists g|exact Hm].
  - intros [(g & Hg & Hj) Hm]. unfold Core.parse_json_response.
    rewrite Hg, Hj, Hm. now destruct required.
Qed.

(** X8.  [parse_json_response] succeeds exactly when the reply carries a
    fenced block that decodes to a dict holding every required key, and then
    it returns that dict as decoded: no key is added, dropped or given a
    default.  Without a block the error quotes at most the first 200
    characters of the reply; a block that does not decode gives "Invalid
    JSON format: <message of the decoder>". *)
Theorem parse_json_response_accepts_exactly_complete_blocks
    (rt : PyRuntime) (response : string) (required : list string) :
  (forall d : dict pyval,
     Core.parse_json_response rt response required = Ok d
     <-> decodes_to rt response d /\ Core.missing_keys required d = [])
  /\ (find_json_block rt response = None ->
      exists quoted : string,
        Core.parse_json_response rt response required
        = Raise (Exn "ValueError" ("No JSON block found in response: " ++ quoted))
        /\ String.prefix quoted response = true
        /\ String.length quoted <= 200)
  /\ (forall group1 msg : string,
        find_json_block rt response = Some group1 ->
        json_loads rt group1 = JSONDecodeError msg ->
        Core.parse_json_response rt response required
        = Raise (Exn "ValueError" ("Invalid JSON format: " ++ msg))).
Proof.
  split; [|split].
  - intros d. apply parse_json_response_shape.
  - intros Hn. exists (take 200 response). unfold Core.parse_json_response.
    rewrite Hn. split; [reflexivity|]. split; [|apply take_length].
    unfold take. clear Hn. generalize 200. intros n. revert response.
    induction n as [|n IH]; intros [|c s]; simpl; try reflexivity.
    destruct (ascii_dec c c) as [_|Hne]; [apply IH|now elim Hne].
  - intros g msg Hg Hj. unfold Core.parse_json_response. now rewrite Hg, Hj.
Qed.

(** X9.  [parse_tool_call_response] of the core package and
    [parse_agent_response] of [agent.py] agree wherever the first succeeds:
    it succeeds exactly on the blocks that hold all three keys, and then
    both return the same three one-key dicts, filled with the values of the
    reply.  On a block that lacks one of the keys the first raises and the
    second still succeeds, with "None" in place of what is absent. *)
Theorem strict_and_lenient_parser_agree_on_complete_replies
    (rt : PyRuntime) (response : string) :
  (forall t : dict pyval * dict pyval * dict pyval,
     Core.parse_tool_call_response rt response = Ok t ->
     Agent.parse_agent_response rt response = Ok t)
  /\ (forall d : dict pyval,
        decodes_to rt response d ->
        let keys := ["Tool call"; "Tool Parameters"; "Final Response"] in
        ((forall key, In key keys -> dict_get d key <> None) ->
           exists tool params answer : pyval,
             dict_get d "Tool call" = Some tool
             /\ dict_get d "Tool Parameters" = Some params
             /\ dict_get d "Final Response" = Some answer
             /\ Core.parse_tool_call_response rt response
                = Ok ([("Tool call", tool)], [("Tool Parameters", params)],
                      [("Final Response", answer)]))
        /\ ((exists key, In key keys /\ dict_get d key = None) ->
            (exists e : exn, Core.parse_tool_call_response rt response = Raise e)
            /\ Agent.parse_agent_response rt response
               = Ok ([("Tool call", field d "Tool call")],
                     [("Tool Parameters", field d "Tool Parameters")],
                     [("Final Response", field d "Final Response")]))).
Proof.
  split.
  - intros t. unfold Core.parse_tool_call_response.
    destruct (Core.parse_json_response rt response _) as [d|e] eqn:Hp; [|discriminate].
    apply (proj1 (parse_json_response_shape rt response _ d)) in Hp as [Hd _].
    intros H. rewrite (agent_parse rt response d Hd). exact H.
  - intros d Hd keys. split.
    + intros Hall. unfold Core.parse_tool_call_response. fold keys.
      assert (Hm : Core.missing_keys keys d = []).
      { destruct (Core.missing_keys keys d) as [|key rest] eqn:Hm; [reflexivity|].
        assert (Hin : In key (Core.missing_keys keys d)) by (rewrite Hm; now left).
        apply missing_keys_spec in Hin as [Hin Hnone]. now elim (Hall key Hin). }
      destruct (dict_get d "Tool call") as [tool|] eqn:H1;
        [|elim (Hall "Tool call"); simpl; auto].
      destruct (dict_get d "Tool Parameters") as [params|] eqn:H2;
        [|elim (Hall "Tool Parameters"); simpl; auto].
      destruct (dict_get d "Final Response") as [answer|] eqn:H3;
        [|elim (Hall "Final Response"); simpl; auto].
      exists tool, params, answer. repeat split.
      rewrite (proj2 (parse_json_response_shape rt response keys d) (conj Hd Hm)).
      unfold dict_get_default. now rewrite H1, H2, H3.
    + intros (key & Hin & Hnone). split; [|now apply agent_parse].
      unfold Core.parse_tool_call_response. fold keys.
      rewrite (core_parse_missing rt keys response d Hd); [eexists; reflexivity|].
      intros Hm.
      assert (Hk : In key (Core.missing_keys keys d)) by now apply missing_keys_spec.
      now rewrite Hm in Hk.
Qed.

(** ** Response formats *)

Lemma dict_get_In {V : Type} (d : dict V) (k : string) (v : V) :
  dict_get d k = Some v -> In (k, v) d.
Proof.
  induction d as [|[k0 v0] d IH]; simpl; [discriminate|].
  destruct (String.eqb_spec k0 k) as [->|Hne].
  - intros H. injection H as ->. now left.
  - intros H. right. now apply IH.
Qed.

Lemma In_dict_get {V : Type} (d : dict V) (k : string) (v : V) :
  NoDup (dict_keys d) -> In (k, v) d -> dict_get d k = Some v.
Proof.
  unfold dict_keys. induction d as [|[k0 v0] d IH]; simpl; [tauto|].
  intros Hd [H|H].
  - injection H as -> ->. now rewrite String.eqb_refl.
  - inversion Hd as [|? ? Hnot Hrest]; subst.
    destruct (String.eqb_spec k0 k) as [->|Hne]; [|now apply IH].
    elim Hnot. change k with (fst (k, v)). now apply in_map.
Qed.

Lemma reverse_untouched (mapping acc : dict string) (j : string) :
  ~ In j (map snd mapping) ->
  dict_get (fold_left (fun acc kv => dict_set acc (snd kv) (fst kv)) mapping acc) j
  = dict_get acc j.
Proof.
  revert acc. induction mapping as [|[k v] mapping IH]; intros acc Hn; simpl.
  - reflexivity.
  - simpl in Hn. rewrite IH by tauto. apply dict_get_set_other. intros ->. tauto.
Qed.

Lemma reverse_finds (mapping acc : dict string) (k j : string) :
  NoDup (map snd mapping) -> In (k, j) mapping ->
  dict_get (fold_left (fun acc kv => dict_set acc (snd kv) (fst kv)) mapping acc) j
  = Some k.
Proof.
  revert acc. induction mapping as [|[k0 v0] mapping IH]; intros acc Hd Hin; simpl.
  - elim Hin.
  - simpl in Hd. inversion Hd as [|? ? Hnot Hrest]; subst.
    destruct Hin as [H|H].
    + injection H as -> ->. rewrite reverse_untouched by exact Hnot.
      apply dict_get_set_same.
    + now apply IH.
Qed.

(** X10.  Under a key mapping that sends no two internal names to the same
    JSON key, [get_internal_name] undoes [get_json_key] on every mapped
    name and on every name that is not itself a JSON key of the mapping; and
    [get_json_key] undoes [get_internal_name] on every JSON key of the
    mapping. *)
Theorem key_mapping_round_trip (fmt : Core.ResponseFormat) :
  NoDup (dict_keys (Core.key_mapping fmt)) ->
  NoDup (map snd (Core.key_mapping fmt)) ->
  (forall internal : string,
     In internal (dict_keys (Core.key_mapping fmt))
     \/ ~ In internal (map snd (Core.key_mapping fmt)) ->
     Core.get_internal_name fmt (Core.get_json_key fmt internal) = internal)
  /\ (forall json_key : string,
        In json_key (map snd (Core.key_mapping fmt)) ->
        Core.get_json_key fmt (Core.get_internal_name fmt json_key) = json_key).
Proof.
  intros Hkeys Hvalues. split.
  - intros internal Hcase.
    unfold Core.get_internal_name, Core.get_json_key, Core.reverse_map, dict_get_default.
    destruct (dict_get (Core.key_mapping fmt) internal) as [j|] eqn:Hget.
    + apply dict_get_In in Hget. now rewrite (reverse_finds _ [] internal j Hvalues Hget).
    + destruct Hcase as [Hin|Hnot].
      * apply dict_mem_In in Hin. unfold dict_mem in Hin. now rewrite Hget in Hin.
      * now rewrite reverse_untouched by exact Hnot.
  - intros j Hin. apply in_map_iff in Hin as ([k j'] & Hj & Hin). simpl in Hj. subst j'.
    unfold Core.get_internal_name, Core.get_json_key, Core.reverse_map, dict_get_default.
    rewrite (reverse_finds _ [] k j Hvalues Hin).
    now rewrite (In_dict_get _ k j Hkeys Hin).
Qed.

(** The mapping of the ToolCall format. *)
Lemma key_mapping_round_trip_witness :
  Core.get_internal_name Core.TOOLCALL_RESPONSE_FORMAT
    (Core.get_json_key Core.TOOLCALL_RESPONSE_FORMAT "params") = "params"
  /\ Core.get_json_key Core.TOOLCALL_RESPONSE_FORMAT
       (Core.get_internal_name Core.TOOLCALL_RESPONSE_FORMAT "Final Response")
     = "Final Response".
Proof.
  assert (Hk : NoDup (dict_keys (Core.key_mapping Core.TOOLCALL_RESPONSE_FORMAT))).
  { repeat constructor; simpl; intuition discriminate. }
  assert (Hv : NoDup (map snd (Core.key_mapping Core.TOOLCALL_RESPONSE_FORMAT))).
  { repeat constructor; simpl; intuition discriminate. }
  destruct (key_mapping_round_trip Core.TOOLCALL_RESPONSE_FORMAT Hk Hv) as [H1 H2].
  split.
  - apply H1. left. simpl. auto.
  - apply H2. simpl. auto.
Defined.

(** A format with other declared defaults. *)
Definition with_defaults (fmt : Core.ResponseFormat) (defaults : dict pyval)
  : Core.ResponseFormat :=
  {| Core.required_keys := Core.required_keys fmt;
     Core.key_mapping := Core.key_mapping fmt;
     Core.defaults := defaults |}.

(** X11.  The [defaults] of a response format are never read: replacing
    them by any other dict changes nothing in what a pass of
    [FlexibleAgent.invoke] does, nor in the whole loop.  A field the reply
    lacks is not filled from them. *)
Theorem declared_defaults_are_never_applied
    (St : Type) (rt : PyRuntime) (fmt : Core.ResponseFormat) (defaults : dict pyval)
    (ts : dict Core.tool_info) (prompt : string) (budget : Z) (n : nat)
    (scratchpad response : string) (l : LLM St) :
  Core.iteration rt (with_defaults fmt defaults) ts scratchpad response
  = Core.iteration rt fmt ts scratchpad response
  /\ Core.loop rt (with_defaults fmt defaults) ts prompt budget n scratchpad l
     = Core.loop rt fmt ts prompt budget n scratchpad l.
Proof.
  assert (Hit : forall sp r,
            Core.iteration rt (with_defaults fmt defaults) ts sp r
            = Core.iteration rt fmt ts sp r) by reflexivity.
  split; [apply Hit|].
  revert scratchpad l. induction n as [|n IH]; intros scratchpad l; simpl.
  - reflexivity.
  - destruct (ask l (full_prompt_of prompt scratchpad)) as [[response'|e] l'];
      [|reflexivity].
    rewrite Hit.
    destruct (Core.iteration rt fmt ts scratchpad response') as [t [[v|sp']|e]];
      try reflexivity.
    now rewrite IH.
Qed.

(** X12.  In each of the five predefined response formats the roles tool,
    params and response are mapped to required keys.  So a reply that passes
    the check of the required keys carries a value for each of the three
    roles, and the pass works on those values. *)
Theorem predefined_formats_map_roles_to_required_keys
    (fmt : Core.ResponseFormat) (d : dict pyval) (internal : string) :
  In fmt Core.PREDEFINED_FORMATS ->
  In internal ["tool"; "params"; "response"] ->
  In (Core.get_json_key fmt internal) (Core.required_keys fmt)
  /\ (Core.missing_keys (Core.required_keys fmt) d = [] ->
      dict_get d (Core.get_json_key fmt internal) = Some (role fmt d internal)).
Proof.
  intros Hfmt Hrole.
  assert (Hin : In (Core.get_json_key fmt internal) (Core.required_keys fmt)).
  { simpl in Hfmt, Hrole.
    destruct Hfmt as [<-|[<-|[<-|[<-|[<-|[]]]]]];
      destruct Hrole as [<-|[<-|[<-|[]]]]; simpl; auto 10. }
  split; [exact Hin|].
  intros Hm. unfold role, field, dict_get_default.
  destruct (dict_get d (Core.get_json_key fmt internal)) eqn:Hget; [reflexivity|].
  assert (Hk : In (Core.get_json_key fmt internal)
                 (Core.missing_keys (Core.required_keys fmt) d))
    by now apply missing_keys_spec.
  now rewrite Hm in Hk.
Qed.

(** The answer role of the ReAct format. *)
Lemma predefined_formats_map_roles_to_required_keys_witness :
  In (Core.get_json_key Core.REACT_RESPONSE_FORMAT "response")
     (Core.required_keys Core.REACT_RESPONSE_FORMAT).
Proof.
  refine (proj1 (predefined_formats_map_roles_to_required_keys
                   Core.REACT_RESPONSE_FORMAT [] "response" _ _)); simpl; auto.
Defined.

(** X13.  The action format declares "respond" as the value of its tool
    field when no tool is wanted, but the loop only knows the marker "None":
    a reply whose action is "respond" is bound as a call of a tool of that
    name, and with no such tool registered the pass reports "Error: Tool
    'respond' not found" to the model instead of returning the output.  In
    the other four predefined formats the declared value of the tool field
    is one that ends the loop. *)
Theorem action_format_marker_is_taken_for_a_tool
    (rt : PyRuntime) (cts : dict Core.tool_info)
    (scratchpad response : string) (d : dict pyval) :
  decodes_to rt response d ->
  Core.missing_keys (Core.required_keys Core.ACTION_RESPONSE_FORMAT) d = [] ->
  dict_get d "action" = dict_get (Core.defaults Core.ACTION_RESPONSE_FORMAT) "action" ->
  dict_get cts "respond" = None ->
  Core.iteration rt Core.ACTION_RESPONSE_FORMAT cts scratchpad response
  = ([EvExecute (PyStr "respond") (role Core.ACTION_RESPONSE_FORMAT d "params")],
     Ok (Continue (scratchpad ++ Core.scratch_entry rt (PyStr "respond")
                                   "Error: Tool 'respond' not found")))
  /\ forall fmt : Core.ResponseFormat,
       In fmt [Core.TOOLCALL_RESPONSE_FORMAT; Core.REACT_RESPONSE_FORMAT;
               Core.FUNCTION_RESPONSE_FORMAT; Core.COT_RESPONSE_FORMAT] ->
       populated (dict_get_default (Core.defaults fmt)
                    (Core.get_json_key fmt "tool") PyNone) = false.
Proof.
  intros Hd Hm Haction Hreg. split.
  - rewrite (core_iteration rt _ cts scratchpad response d Hd Hm).
    assert (Htool : role Core.ACTION_RESPONSE_FORMAT d "tool" = PyStr "respond").
    { unfold role, field, dict_get_default.
      change (Core.get_json_key Core.ACTION_RESPONSE_FORMAT "tool") with "action".
      now rewrite Haction. }
    rewrite Htool. cbn [populated truthy eq_str String.eqb Ascii.eqb Bool.eqb andb negb].
    unfold tool_pass. now rewrite (core_unknown_tool rt cts "respond" _ Hreg).
  - intros fmt Hin. simpl in Hin.
    destruct Hin as [<-|[<-|[<-|[<-|[]]]]]; reflexivity.
Qed.

(** The reply [{"action": "respond", "input": "None", "output": "hello"}]. *)
Definition action_reply : pyval :=
  PyDict [("action", PyStr "respond"); ("input", PyStr "None");
          ("output", PyStr "hello")].

Lemma action_format_marker_is_taken_for_a_tool_witness :
  let rt := Demo.runtime [action_reply] in
  Core.iteration rt Core.ACTION_RESPONSE_FORMAT Demo.core_tools EmptyString
    (Demo.fenced action_reply)
  = ([EvExecute (PyStr "respond") (PyStr "None")],
     Ok (Continue (Core.scratch_entry rt (PyStr "respond")
                     "Error: Tool 'respond' not found"))).
Proof.
  exact (proj1 (action_format_marker_is_taken_for_a_tool
           (Demo.runtime [action_reply]) Demo.core_tools EmptyString
           (Demo.fenced action_reply) (Demo.items action_reply)
           (demo_decodes [action_reply] (Demo.items action_reply) eq_refl eq_refl)
           eq_refl eq_refl eq_refl)).
Defined.

(** X14.  A configuration made by [create_custom_config] never carries
    special instructions or examples, whatever keyword arguments the call
    was given: its compiled prompt is the template with the tool list put
    in, and nothing after it.  Its budget is 10 unless the call names one,
    and without a key mapping the roles are read from the keys "tool",
    "params" and "response" themselves. *)
Theorem custom_config_has_no_suffix_and_literal_roles
    (name template : string) (required : list string)
    (mapping : option (dict string)) (description : option string)
    (budget : option Z) (other : dict pyval)
    (ts : dict Core.tool_info) (d : dict pyval) (internal : string) :
  let cfg := Core.create_custom_config name template required mapping
               description budget other in
  Core.compile (Core.config_prompt_template cfg) cfg ts
    = str_replace "{tool_list}" (Core.get_tools_description ts) template
  /\ Core.required_keys (Core.response_format cfg) = required
  /\ (budget = None -> Core.config_max_iterations cfg = 10%Z)
  /\ (mapping = None \/ mapping = Some [] ->
      Core.get_json_key (Core.response_format cfg) internal = internal
      /\ role (Core.response_format cfg) d internal = field d internal).
Proof.
  intros cfg. subst cfg. repeat split.
  - intros ->. reflexivity.
  - destruct H as [->| ->]; reflexivity.
  - destruct H as [->| ->]; reflexivity.
Qed.

(** ** The loop: setup, bounds and the outcomes of a pass *)

(** The prompts of the round-trips of a trace, in order. *)
Fixpoint prompts_of (t : list event) : list string :=
  match t with
  | [] => []
  | EvGenerate p :: t' => p :: prompts_of t'
  | _ :: t' => prompts_of t'
  end.

(** Each text of the list is a prefix of the next one. *)
Fixpoint growing (l : list string) : Prop :=
  match l with
  | a :: ((b :: _) as rest) => String.prefix a b = true /\ growing rest
  | _ => True
  end.

(** X15.  [invoke] checks the setup before anything else.  For a
    [FlexibleAgent] the check passes exactly when a collaborator is set, at
    least one tool is registered and a template is set; when it fails, and
    for a [ToolCallAgent] without collaborator or without tools, [invoke]
    raises [ValueError] without a round-trip to the model or a call of a
    tool, and leaves the agent, its cache included, as it was. *)
Theorem invoke_refuses_an_incomplete_setup
    (St : Type) (rt : PyRuntime) (self : Core.FlexibleAgent St)
    (aself : Agent.ToolCallAgent St) (query : string) (kw : option Z) :
  (Core.validate_setup self = None
   <-> Core.llm self <> None /\ Core.tool_executor self <> []
       /\ Core.prompt_template self <> None)
  /\ (forall message : string,
        Core.validate_setup self = Some message ->
        Core.invoke rt self query kw
        = (self, ([], Raise (Exn "ValueError" message))))
  /\ (Agent.llm aself = None \/ Agent.tools aself = [] ->
      exists message : string,
        Agent.invoke rt aself query
        = (aself, ([], Raise (Exn "ValueError" message)))).
Proof.
  split; [|split].
  - unfold Core.validate_setup, Core.list_tools, dict_keys.
    destruct (Core.llm self); [|split; [discriminate|intros [H _]; now elim H]].
    destruct (Core.tool_executor self); simpl;
      [split; [discriminate|intros (_ & H & _); now elim H]|].
    destruct (Core.prompt_template self);
      [|split; [discriminate|intros (_ & _ & H); now elim H]].
    split; [|reflexivity]. intros _. repeat split; discriminate.
  - intros message Hv. unfold Core.invoke. now rewrite Hv.
  - intros Hbad. unfold Agent.invoke.
    destruct (Agent.llm aself) as [l|]; [|eexists; reflexivity].
    destruct Hbad as [Hl|Ht]; [discriminate|]. rewrite Ht. eexists. reflexivity.
Qed.

Lemma calls_only_shape (tool_name : pyval) (registered : string -> bool)
    (t : list event) :
  calls_only tool_name registered t ->
  t = [] \/ exists (name : string) (c : pycall), t = [EvCall name c].
Proof.
  intros [->|(name & c & -> & _)]; [now left|right; now exists name, c].
Qed.

(** The events of a pass after the round-trip: none, or the record of one
    call of the binder, followed by nothing or by one call of a tool
    function. *)
Definition pass_events (t : list event) : Prop :=
  t = []
  \/ exists (tool_name params : pyval) (calls : list event),
       t = EvExecute tool_name params :: calls
       /\ (calls = [] \/ exists (name : string) (c : pycall), calls = [EvCall name c]).

Lemma core_iteration_events (rt : PyRuntime) (fmt : Core.ResponseFormat)
    (ts : dict Core.tool_info) (scratchpad response : string) :
  pass_events (trace_of (Core.iteration rt fmt ts scratchpad response))
  /\ forall scratchpad' : string,
       result_of (Core.iteration rt fmt ts scratchpad response) = Ok (Continue scratchpad') ->
       exists entry : string, scratchpad' = scratchpad ++ entry.
Proof.
  unfold Core.iteration.
  destruct (Core._parse_response rt fmt response) as [parsed|e];
    [|split; [now left|discriminate]].
  destruct (_ || _ || _); [split; [now left|discriminate]|].
  set (tool_name := dict_get_default parsed "tool" (PyStr "None")).
  set (params := dict_get_default parsed "params" (PyStr "None")).
  pose proof (core_execute_calls rt ts tool_name params) as Hcalls.
  apply calls_only_shape in Hcalls.
  unfold log, bind, ret, trace_of, result_of in *.
  destruct (Core.execute rt ts tool_name params) as [t [s|e]]; simpl in *.
  - split.
    + right. exists tool_name, params, (t ++ [])%list. rewrite app_nil_r. auto.
    + intros sp' H. injection H as <-. eexists. reflexivity.
  - split; [|discriminate]. right. exists tool_name, params, t. auto.
Qed.

Lemma agent_iteration_events (rt : PyRuntime) (ts : dict Agent.tool_info)
    (scratchpad response : string) :
  pass_events (trace_of (Agent.iteration rt ts scratchpad response))
  /\ forall scratchpad' : string,
       result_of (Agent.iteration rt ts scratchpad response) = Ok (Continue scratchpad') ->
       exists entry : string, scratchpad' = scratchpad ++ entry.
Proof.
  unfold Agent.iteration.
  destruct (Agent.parse_agent_response rt response) as [[[tc tp] fr]|e];
    [|split; [now left|discriminate]].
  destruct (_ || _); [split; [now left|discriminate]|].
  set (tool_name := py_get tc "Tool call").
  set (params := py_get tp "Tool Parameters").
  pose proof (agent_execute_calls rt ts tool_name params) as Hcalls.
  apply calls_only_shape in Hcalls.
  unfold log, bind, ret, trace_of, result_of in *.
  destruct (Agent.execute_tool rt tool_name params ts) as [t [v|e]]; simpl in *.
  - split.
    + right. exists tool_name, params, (t ++ [])%list. rewrite app_nil_r. auto.
    + intros sp' H. injection H as <-. eexists. reflexivity.
  - split; [|discriminate]. right. exists tool_name, params, t. auto.
Qed.

(** A trace of at most [n] passes: it is empty, or it starts with a
    round-trip to the model, goes on with the events of that pass (at most
    one call of the binder, which makes at most one call of a tool
    function), and continues with a trace of at most [n - 1] passes. *)
Fixpoint within_budget (n : nat) (t : list event) : Prop :=
  t = []
  \/ match n with
     | O => False
     | S n' =>
         exists (prompt : string) (pass rest : list event),
           t = (EvGenerate prompt :: pass ++ rest)%list
           /\ pass_events pass /\ within_budget n' rest
     end.

Lemma within_budget_nil (n : nat) : within_budget n [].
Proof. destruct n; now left. Qed.

Lemma pass_within_budget (n : nat) (p : string) (t rest : list event) :
  pass_events t -> within_budget n rest ->
  within_budget (S n) (EvGenerate p :: t ++ rest).
Proof. intros Hpass Hrest. right. now exists p, t, rest. Qed.

Lemma pass_alone_within_budget (n : nat) (p : string) (t : list event) :
  pass_events t -> within_budget (S n) (EvGenerate p :: t).
Proof.
  intros Hpass. rewrite <- (app_nil_r t).
  apply pass_within_budget; [exact Hpass|apply within_budget_nil].
Qed.

Lemma within_budget_counts (n : nat) :
  forall t : list event,
    within_budget n t ->
    count is_generate t <= n
    /\ count is_execute t <= count is_generate t
    /\ count is_call t <= count is_execute t.
Proof.
  induction n as [|n IH]; intros t [->|H]; try (unfold count; simpl; lia);
    try contradiction.
  destruct H as (p & pass & rest & -> & Hpass & Hrest).
  destruct (IH rest Hrest) as (Hg & He & Hc).
  destruct Hpass as [->|(tn & ps & calls & -> & [->|(name & c & ->)])];
    cbn [app]; repeat (rewrite count_cons || rewrite count_app);
    cbn [is_generate is_execute is_call]; repeat split; lia.
Qed.

Lemma within_budget_head (n : nat) (t : list event) :
  within_budget n t ->
  t = [] \/ exists (p : string) (t' : list event), t = EvGenerate p :: t'.
Proof.
  destruct n as [|n]; intros [H|H]; try (now left); try contradiction.
  destruct H as (p & pass & rest & -> & _). right. now exists p, (pass ++ rest)%list.
Qed.

(** A pass with two calls of the binder, and a call of the binder with two
    calls of a tool function, are no traces within any budget. *)
Lemma within_budget_is_per_pass (n : nat) (p : string) (tool params : pyval)
    (name : string) (c : pycall) :
  ~ within_budget n [EvGenerate p; EvExecute tool params; EvExecute tool params]
  /\ ~ within_budget n
        [EvGenerate p; EvExecute tool params; EvCall name c; EvCall name c].
Proof.
  assert (Hhead : forall (k : nat) (e : event) (t : list event),
            is_generate e = false -> ~ within_budget k (e :: t)).
  { intros k e t He H. apply within_budget_head in H as [H|(q & t' & H)];
      [discriminate H|]. injection H as -> _. discriminate He. }
  split; intros H.
  - destruct n as [|n]; destruct H as [H|H]; try discriminate H; try contradiction.
    destruct H as (q & pass & rest & Ht & Hpass & Hrest).
    injection Ht as _ Ht.
    destruct Hpass as [->|(tn & ps & calls & -> & [->|(nm & c' & ->)])];
      cbn [app] in Ht.
    + subst rest. now apply Hhead in Hrest.
    + injection Ht as _ _ <-. now apply Hhead in Hrest.
    + discriminate Ht.
  - destruct n as [|n]; destruct H as [H|H]; try discriminate H; try contradiction.
    destruct H as (q & pass & rest & Ht & Hpass & Hrest).
    injection Ht as _ Ht.
    destruct Hpass as [->|(tn & ps & calls & -> & [->|(nm & c' & ->)])];
      cbn [app] in Ht.
    + subst rest. now apply Hhead in Hrest.
    + injection Ht as _ _ <-. now apply Hhead in Hrest.
    + injection Ht as _ _ _ _ <-. now apply Hhead in Hrest.
Qed.

Lemma core_loop_within_budget {St : Type} (rt : PyRuntime) (fmt : Core.ResponseFormat)
    (ts : dict Core.tool_info) (prompt : string) (budget : Z) (n : nat) :
  forall (scratchpad : string) (l : LLM St),
    within_budget n
      (trace_of (snd (Core.loop rt fmt ts prompt budget n scratchpad l))).
Proof.
  induction n as [|n IH]; intros scratchpad l; cbn [Core.loop].
  - now left.
  - destruct (ask l (full_prompt_of prompt scratchpad)) as [[response|e] l'].
    + pose proof (proj1 (core_iteration_events rt fmt ts scratchpad response)) as Hpass.
      destruct (Core.iteration rt fmt ts scratchpad response) as [t [[v|sp']|e]];
        unfold trace_of in *; cbn [fst snd] in *.
      * now apply pass_alone_within_budget.
      * specialize (IH sp' l').
        destruct (Core.loop rt fmt ts prompt budget n sp' l') as [l'' m].
        cbn [fst snd] in *. now apply pass_within_budget.
      * now apply pass_alone_within_budget.
    + unfold trace_of. cbn [fst snd].
      apply (pass_alone_within_budget n _ []). now left.
Qed.

Lemma agent_loop_within_budget {St : Type} (rt : PyRuntime)
    (ts : dict Agent.tool_info) (prompt : string) (n : nat) :
  forall (scratchpad : string) (l : LLM St),
    within_budget n (trace_of (snd (Agent.loop rt ts prompt n scratchpad l))).
Proof.
  induction n as [|n IH]; intros scratchpad l; cbn [Agent.loop].
  - now left.
  - destruct (ask l (full_prompt_of prompt scratchpad)) as [[response|e] l'].
    + pose proof (proj1 (agent_iteration_events rt ts scratchpad response)) as Hpass.
      destruct (Agent.iteration rt ts scratchpad response) as [t [[v|sp']|e]];
        unfold trace_of in *; cbn [fst snd] in *.
      * now apply pass_alone_within_budget.
      * specialize (IH sp' l').
        destruct (Agent.loop rt ts prompt n sp' l') as [l'' m].
        cbn [fst snd] in *. now apply pass_within_budget.
      * now apply pass_alone_within_budget.
    + unfold trace_of. cbn [fst snd].
      apply (pass_alone_within_budget n _ []). now left.
Qed.

(** X16.  Whatever the collaborator replies and whatever the tools do, the
    trace of one [invoke] is a sequence of at most as many passes as its
    budget allows (10 for a [ToolCallAgent]): each pass is one round-trip to
    the model, followed by at most one call of the binder, which is followed
    by at most one call of a tool function.  So the round-trips number at
    most the budget, the calls of the binder at most the round-trips, and
    the calls of tool functions at most the calls of the binder. *)
Theorem invoke_stays_within_its_budget
    (St : Type) (rt : PyRuntime) (self : Core.FlexibleAgent St)
    (aself : Agent.ToolCallAgent St) (query : string) (kw : option Z) :
  let trace := trace_of (snd (Core.invoke rt self query kw)) in
  let atrace := trace_of (snd (Agent.invoke rt aself query)) in
  within_budget (Z.to_nat (core_budget self kw)) trace
  /\ within_budget 10 atrace
  /\ count is_generate trace <= Z.to_nat (core_budget self kw)
  /\ count is_execute trace <= count is_generate trace
  /\ count is_call trace <= count is_execute trace
  /\ count is_generate atrace <= 10
  /\ count is_execute atrace <= count is_generate atrace
  /\ count is_call atrace <= count is_execute atrace.
Proof.
  intros trace atrace.
  assert (Hcore : within_budget (Z.to_nat (core_budget self kw)) trace).
  { subst trace. unfold Core.invoke.
    destruct (Core.validate_setup self); [apply within_budget_nil|].
    destruct (match Core._compiled_prompt self with
              | None => Core._compile_prompt self
              | Some cached => Ok cached
              end) as [compiled|e]; [|apply within_budget_nil].
    destruct (Core.llm self) as [l|]; [|apply within_budget_nil].
    destruct (str_format rt compiled query) as [prompt|e]; [|apply within_budget_nil].
    cbn [Core.max_iterations Core.with_tools_and_cache Core.config Core.tool_executor].
    fold (core_budget self kw).
    pose proof (core_loop_within_budget rt (Core.response_format (Core.config self))
                  (Core.tool_executor self) prompt (core_budget self kw)
                  (Z.to_nat (core_budget self kw)) EmptyString l) as H.
    now destruct (Core.loop _ _ _ _ _ _ _ _). }
  assert (Hagent : within_budget 10 atrace).
  { subst atrace. unfold Agent.invoke.
    destruct (Agent.llm aself) as [l|]; [|apply within_budget_nil].
    destruct (Agent.tools aself) as [|item ts] eqn:Hts; [apply within_budget_nil|].
    set (self' := match Agent._compiled_prompt aself with
                  | None => Agent._compile_prompt aself
                  | Some _ => aself
                  end).
    destruct (Agent._compiled_prompt self') as [compiled|]; [|apply within_budget_nil].
    destruct (str_format rt compiled query) as [prompt|e]; [|apply within_budget_nil].
    pose proof (agent_loop_within_budget rt (Agent.tools self') prompt
                  Agent.max_iterations EmptyString l) as H.
    now destruct (Agent.loop _ _ _ _ _ _). }
  split; [exact Hcore|]. split; [exact Hagent|].
  destruct (within_budget_counts _ _ Hcore) as (H1 & H2 & H3).
  destruct (within_budget_counts _ _ Hagent) as (H4 & H5 & H6).
  auto 10.
Qed.



(** X18.  A pass whose reply cannot be parsed ends [invoke] at once, with
    the remaining budget unused and no tool called: the text "Error parsing
    response: ..." comes back as the ordinary return value.  Without a
    fenced block the text quotes the first 200 characters of the reply; for
    a block that does not decode it carries the message of the decoder.  An
    exception of the collaborator itself is not caught: the loop raises
    it. *)
Theorem unparsable_reply_or_failing_model_ends_the_loop
    (St : Type) (rt : PyRuntime) (fmt : Core.ResponseFormat)
    (cts : dict Core.tool_info) (ats : dict Agent.tool_info)
    (prompt : string) (budget : Z) (n : nat) (scratchpad : string)
    (l l' : LLM St) (reply : result string) :
  ask l (full_prompt_of prompt scratchpad) = (reply, l') ->
  let round_trip := EvGenerate (full_prompt_of prompt scratchpad) in
  let core := Core.loop rt fmt cts prompt budget (S n) scratchpad l in
  let agent := Agent.loop rt ats prompt (S n) scratchpad l in
  (forall response : string,
     reply = Ok response -> find_json_block rt response = None ->
     core = (l', ([round_trip],
                  Ok (PyStr ("Error parsing response: No JSON block found in response: "
                               ++ take 200 response))))
     /\ agent = (l', ([round_trip],
                      Ok (PyStr ("Error parsing response: Invalid response format: "
                                   ++ "No JSON block found in response: "
                                   ++ take 200 response)))))
  /\ (forall response group1 msg : string,
        reply = Ok response ->
        find_json_block rt response = Some group1 ->
        json_loads rt group1 = JSONDecodeError msg ->
        core = (l', ([round_trip],
                     Ok (PyStr ("Error parsing response: Invalid JSON format: " ++ msg))))
        /\ agent = (l', ([round_trip], Ok (PyStr ("Error parsing response: " ++ msg)))))
  /\ (forall e : exn,
        reply = Raise e ->
        core = (l', ([round_trip], Raise e)) /\ agent = (l', ([round_trip], Raise e))).
Proof.
  intros Hask round_trip core agent. subst round_trip core agent.
  cbn [Core.loop Agent.loop]. rewrite Hask. split; [|split].
  - intros response -> Hn.
    unfold Core.iteration, Core._parse_response, Core.parse_json_response,
      Agent.iteration, Agent.parse_agent_response.
    rewrite Hn. split; reflexivity.
  - intros response g msg -> Hg Hj.
    unfold Core.iteration, Core._parse_response, Core.parse_json_response,
      Agent.iteration, Agent.parse_agent_response.
    rewrite Hg, Hj. split; reflexivity.
  - intros e ->. split; reflexivity.
Qed.

(** A reply in plain prose, without any fenced block. *)
Lemma unparsable_reply_or_failing_model_ends_the_loop_witness :
  Agent.loop (Demo.runtime []) Demo.agent_tools "prompt" 10 EmptyString
    (Demo.scripted ["The answer is 42."; Demo.fenced Demo.final])
  = (Demo.scripted [Demo.fenced Demo.final],
     ([EvGenerate "prompt"],
      Ok (PyStr ("Error parsing response: Invalid response format: "
                   ++ "No JSON block found in response: The answer is 42.")))).
Proof.
  exact (proj2 (proj1 (unparsable_reply_or_failing_model_ends_the_loop (list string)
           (Demo.runtime []) Core.TOOLCALL_RESPONSE_FORMAT Demo.core_tools
           Demo.agent_tools "prompt" 10 9 EmptyString
           (Demo.scripted ["The answer is 42."; Demo.fenced Demo.final])
           (Demo.scripted [Demo.fenced Demo.final])
           (Ok "The answer is 42.") eq_refl)
           "The answer is 42." eq_refl eq_refl)).
Defined.

Lemma first_entry_prompt (prompt : string) (entry : string) :
  truthy (PyStr entry) = true ->
  full_prompt_of prompt (EmptyString ++ entry) = prompt ++ nl ++ entry.
Proof.
  intros H. unfold full_prompt_of.
  change (EmptyString ++ entry) with entry. now rewrite H.
Qed.

(** X19.  A tool call followed by an answer: when the first reply asks for
    a tool and the second, given to the prompt extended by the entry for
    that tool and its result, answers, a [FlexibleAgent] returns that answer
    after exactly two round-trips and one call of the binder; the second
    prompt is the first one, a newline, and the entry naming the tool and
    its result. *)
Theorem tool_call_then_answer_takes_two_round_trips
    (St : Type) (rt : PyRuntime) (self : Core.FlexibleAgent St) (l l1 l2 : LLM St)
    (query compiled prompt first second : string) (kw : option Z)
    (d1 d2 : dict pyval) (t1 : list event) (tool_result : string) :
  let fmt := Core.response_format (Core.config self) in
  let entry := Core.scratch_entry rt (role fmt d1 "tool") tool_result in
  Core.validate_setup self = None ->
  Core.llm self = Some l ->
  core_compiled self = Ok compiled ->
  str_format rt compiled query = Ok prompt ->
  (2 <= core_budget self kw)%Z ->
  ask l prompt = (Ok first, l1) ->
  decodes_to rt first d1 ->
  Core.missing_keys (Core.required_keys fmt) d1 = [] ->
  populated (role fmt d1 "tool") = true ->
  Core.execute rt (Core.tool_executor self) (role fmt d1 "tool") (role fmt d1 "params")
    = (t1, Ok tool_result) ->
  ask l1 (prompt ++ nl ++ entry) = (Ok second, l2) ->
  decodes_to rt second d2 ->
  Core.missing_keys (Core.required_keys fmt) d2 = [] ->
  populated (role fmt d2 "tool") = false ->
  populated (role fmt d2 "response") = true ->
  snd (Core.invoke rt self query kw)
  = ((EvGenerate prompt :: EvExecute (role fmt d1 "tool") (role fmt d1 "params") :: t1
        ++ [EvGenerate (prompt ++ nl ++ entry)])%list,
     Ok (role fmt d2 "response")).
Proof.
  intros fmt entry Hvalid Hllm Hc Hp Hb Hask1 Hd1 Hm1 Ht1 Hex Hask2 Hd2 Hm2 Ht2 Ha2.
  rewrite (core_invoke_runs_loop rt self l query kw compiled prompt Hvalid Hllm Hc Hp).
  cbn [snd]. fold fmt.
  destruct (Z.to_nat (core_budget self kw)) as [|[|n]] eqn:Hn; try lia.
  assert (Hit1 : Core.iteration rt fmt (Core.tool_executor self) EmptyString first
                 = (EvExecute (role fmt d1 "tool") (role fmt d1 "params") :: t1,
                    Ok (Continue (EmptyString ++ entry)))).
  { rewrite (core_iteration rt fmt _ EmptyString first d1 Hd1 Hm1), Ht1.
    unfold tool_pass. now rewrite Hex. }
  assert (Hit2 : forall sp, Core.iteration rt fmt (Core.tool_executor self) sp second
                 = ([], Ok (Return (role fmt d2 "response")))).
  { intros sp. rewrite (core_iteration rt fmt _ sp second d2 Hd2 Hm2), Ht2.
    now rewrite Ha2. }
  rewrite (core_loop_continues rt fmt _ prompt _ (S n) EmptyString _ first l l1 _
             Hask1 Hit1).
  assert (Hfp : full_prompt_of prompt (EmptyString ++ entry) = prompt ++ nl ++ entry).
  { apply first_entry_prompt. reflexivity. }
  cbn [Core.loop]. rewrite Hfp, Hask2, Hit2. unfold trace_of, result_of. cbn [fst snd].
  unfold full_prompt_of at 1. cbn [truthy app]. reflexivity.
Qed.

(** The model asks for [calculator], sees "42" and answers "done". *)
Lemma tool_call_then_answer_takes_two_round_trips_witness :
  let rt := Demo.runtime [Demo.request; Demo.final] in
  let agent :=
    Core.set_llm
      (Core.add_tool (Core.init (Demo.toolcall_config 10)) "calculator"
         "Evaluate an expression" Demo.calculator None)
      (Demo.scripted [Demo.fenced Demo.request; Demo.fenced Demo.final]) in
  let prompt := "Tools:" ++ nl ++ "- calculator: Evaluate an expression"
                  ++ nl ++ "query: What is 6*7?" in
  snd (Core.invoke rt agent "What is 6*7?" None)
  = ([EvGenerate prompt;
      EvExecute (PyStr "calculator") (PyDict [("expression", PyStr "6*7")]);
      EvCall "calculator" (Call [] [("expression", PyStr "6*7")]);
      EvGenerate (prompt ++ nl ++ Core.scratch_entry rt (PyStr "calculator") "42")],
     Ok (PyStr "done")).
Proof.
  refine (tool_call_then_answer_takes_two_round_trips (list string)
            (Demo.runtime [Demo.request; Demo.final])
            (Core.set_llm
               (Core.add_tool (Core.init (Demo.toolcall_config 10)) "calculator"
                  "Evaluate an expression" Demo.calculator None)
               (Demo.scripted [Demo.fenced Demo.request; Demo.fenced Demo.final]))
            (Demo.scripted [Demo.fenced Demo.request; Demo.fenced Demo.final])
            (Demo.scripted [Demo.fenced Demo.final]) (Demo.scripted [])
            "What is 6*7?" _ _ (Demo.fenced Demo.request) (Demo.fenced Demo.final)
            None (Demo.items Demo.request) (Demo.items Demo.final)
            [EvCall "calculator" (Call [] [("expression", PyStr "6*7")])] "42"
            eq_refl eq_refl eq_refl eq_refl _ eq_refl
            (demo_decodes [Demo.request; Demo.final] (Demo.items Demo.request)
               eq_refl eq_refl)
            eq_refl eq_refl eq_refl eq_refl
            (demo_decodes [Demo.request; Demo.final] (Demo.items Demo.final)
               eq_refl eq_refl)
            eq_refl eq_refl eq_refl).
  simpl. lia.
Defined.

Lemma prompts_of_app (t u : list event) :
  prompts_of (t ++ u) = (prompts_of t ++ prompts_of u)%list.
Proof.
  induction t as [|e t IH]; simpl; [reflexivity|].
  destruct e; simpl; now rewrite IH.
Qed.

Lemma pass_events_no_prompt (t : list event) : pass_events t -> prompts_of t = [].
Proof.
  intros [->|(tn & ps & calls & -> & [->|(name & c & ->)])]; reflexivity.
Qed.

Lemma full_prompt_prefix (prompt scratchpad : string) :
  String.prefix prompt (full_prompt_of prompt scratchpad) = true.
Proof.
  unfold full_prompt_of. destruct (truthy (PyStr scratchpad));
    [apply prefix_app|apply prefix_refl].
Qed.

Lemma full_prompt_grows (prompt scratchpad entry : string) :
  String.prefix (full_prompt_of prompt scratchpad)
    (full_prompt_of prompt (scratchpad ++ entry)) = true.
Proof.
  unfold full_prompt_of. destruct scratchpad as [|c sp].
  - change (EmptyString ++ entry) with entry. cbn [truthy].
    destruct entry; [apply prefix_refl|apply prefix_app].
  - change (String c sp ++ entry) with (String c (sp ++ entry)). cbn [truthy].
    replace (prompt ++ nl ++ String c (sp ++ entry))
      with ((prompt ++ nl ++ String c sp) ++ entry); [apply prefix_app|].
    rewrite !string_app_assoc. reflexivity.
Qed.

(** The prompts of a run of the loop from [scratchpad]: each extends the
    one before, all start with [prompt], and the first is the prompt for
    [scratchpad]. *)
Definition transcript_grows (prompt scratchpad : string) (t : list event) : Prop :=
  growing (prompts_of t)
  /\ (forall p : string, In p (prompts_of t) -> String.prefix prompt p = true)
  /\ match prompts_of t with
     | [] => True
     | p :: _ => p = full_prompt_of prompt scratchpad
     end.

Lemma transcript_single (prompt scratchpad : string) (t : list event) :
  pass_events t ->
  transcript_grows prompt scratchpad (EvGenerate (full_prompt_of prompt scratchpad) :: t).
Proof.
  intros Hpass. unfold transcript_grows. simpl.
  rewrite (pass_events_no_prompt t Hpass). simpl. repeat split.
  intros p [<-|[]]. apply full_prompt_prefix.
Qed.

Lemma transcript_step (prompt scratchpad entry : string) (t rest : list event) :
  pass_events t ->
  transcript_grows prompt (scratchpad ++ entry) rest ->
  transcript_grows prompt scratchpad
    (EvGenerate (full_prompt_of prompt scratchpad) :: t ++ rest).
Proof.
  intros Hpass (Hgrow & Hall & Hhead). unfold transcript_grows. simpl.
  rewrite prompts_of_app, (pass_events_no_prompt t Hpass). simpl.
  repeat split.
  - destruct (prompts_of rest) as [|p ps]; [exact I|].
    split; [|exact Hgrow]. subst p. apply full_prompt_grows.
  - intros p [<-|Hin]; [apply full_prompt_prefix|now apply Hall].
Qed.

Lemma core_loop_transcript {St : Type} (rt : PyRuntime) (fmt : Core.ResponseFormat)
    (ts : dict Core.tool_info) (prompt : string) (budget : Z) (n : nat) :
  forall (scratchpad : string) (l : LLM St),
    transcript_grows prompt scratchpad
      (trace_of (snd (Core.loop rt fmt ts prompt budget n scratchpad l))).
Proof.
  induction n as [|n IH]; intros scratchpad l; cbn [Core.loop].
  - unfold transcript_grows. simpl. tauto.
  - destruct (ask l (full_prompt_of prompt scratchpad)) as [[response|e] l'].
    + destruct (core_iteration_events rt fmt ts scratchpad response) as [Hpass Hnext].
      destruct (Core.iteration rt fmt ts scratchpad response) as [t [[v|sp']|e]];
        unfold trace_of, result_of in *; cbn [fst snd] in *.
      * now apply transcript_single.
      * destruct (Hnext sp' eq_refl) as [entry ->].
        specialize (IH (scratchpad ++ entry) l').
        destruct (Core.loop rt fmt ts prompt budget n (scratchpad ++ entry) l')
          as [l'' m].
        cbn [fst snd] in *.
        apply (transcript_step prompt scratchpad entry); assumption.
      * now apply transcript_single.
    + apply (transcript_single prompt scratchpad []). now left.
Qed.

Lemma agent_loop_transcript {St : Type} (rt : PyRuntime)
    (ts : dict Agent.tool_info) (prompt : string) (n : nat) :
  forall (scratchpad : string) (l : LLM St),
    transcript_grows prompt scratchpad
      (trace_of (snd (Agent.loop rt ts prompt n scratchpad l))).
Proof.
  induction n as [|n IH]; intros scratchpad l; cbn [Agent.loop].
  - unfold transcript_grows. simpl. tauto.
  - destruct (ask l (full_prompt_of prompt scratchpad)) as [[response|e] l'].
    + destruct (agent_iteration_events rt ts scratchpad response) as [Hpass Hnext].
      destruct (Agent.iteration rt ts scratchpad response) as [t [[v|sp']|e]];
        unfold trace_of, result_of in *; cbn [fst snd] in *.
      * now apply transcript_single.
      * destruct (Hnext sp' eq_refl) as [entry ->].
        specialize (IH (scratchpad ++ entry) l').
        destruct (Agent.loop rt ts prompt n (scratchpad ++ entry) l') as [l'' m].
        cbn [fst snd] in *.
        apply (transcript_step prompt scratchpad entry); assumption.
      * now apply transcript_single.
    + apply (transcript_single prompt scratchpad []). now left.
Qed.

(** X20.  Within one run of the loop the text sent to the model only grows:
    every prompt starts with the formatted prompt of the request, the first
    one is the prompt for the scratchpad the run starts from, and each
    later prompt extends the one before it, so the model sees again
    everything it was shown before, followed by the new entry. *)
Theorem prompts_of_a_run_only_grow
    (St : Type) (rt : PyRuntime) (fmt : Core.ResponseFormat)
    (cts : dict Core.tool_info) (ats : dict Agent.tool_info)
    (prompt : string) (budget : Z) (n : nat) (scratchpad : string) (l : LLM St) :
  transcript_grows prompt scratchpad
    (trace_of (snd (Core.loop rt fmt cts prompt budget n scratchpad l)))
  /\ transcript_grows prompt scratchpad
       (trace_of (snd (Agent.loop rt ats prompt n scratchpad l))).
Proof.
  split; [apply core_loop_transcript|apply agent_loop_transcript].
Qed.

(** X21.  [invoke] changes nothing of an agent but its collaborator and its
    cache: the registry, the template, the configuration and the stored
    budget are as before (a budget passed to the call is not kept), and the
    cache is either untouched or holds the compiled prompt the call worked
    with. *)
Theorem invoke_only_touches_collaborator_and_cache
    (St : Type) (rt : PyRuntime) (self : Core.FlexibleAgent St)
    (aself : Agent.ToolCallAgent St) (query : string) (kw : option Z) :
  let after := fst (Core.invoke rt self query kw) in
  let aafter := fst (Agent.invoke rt aself query) in
  (Core.tool_executor after = Core.tool_executor self
   /\ Core.prompt_template after = Core.prompt_template self
   /\ Core.config after = Core.config self
   /\ Core.max_iterations after = Core.max_iterations self
   /\ (Core._compiled_prompt after = Core._compiled_prompt self
       \/ exists compiled : string,
            core_compiled self = Ok compiled
            /\ Core._compiled_prompt after = Some compiled))
  /\ (Agent.tools aafter = Agent.tools aself
      /\ Agent.prompt_template aafter = Agent.prompt_template aself
      /\ (Agent._compiled_prompt aafter = Agent._compiled_prompt aself
          \/ Agent._compiled_prompt aafter = Some (agent_compiled aself))).
Proof.
  intros after aafter. subst after aafter. split.
  - unfold Core.invoke, core_compiled.
    destruct (Core.validate_setup self); [simpl; auto 10|].
    destruct (match Core._compiled_prompt self with
              | None => Core._compile_prompt self
              | Some cached => Ok cached
              end) as [compiled|e] eqn:Hc; [|simpl; auto 10].
    destruct (Core.llm self) as [l|]; [|simpl; auto 10].
    destruct (str_format rt compiled query) as [prompt|e].
    + destruct (Core.loop _ _ _ _ _ _ _ _) as [l' m]. simpl.
      repeat split. right. now exists compiled.
    + simpl. repeat split. right. now exists compiled.
  - unfold Agent.invoke, agent_compiled.
    destruct (Agent.llm aself) as [l|]; [|simpl; auto].
    destruct (Agent.tools aself) as [|item ts] eqn:Hts; [simpl; auto|].
    destruct (Agent._compiled_prompt aself) as [cached|] eqn:Hcache.
    + rewrite Hcache. destruct (str_format rt cached query) as [prompt|e].
      * destruct (Agent.loop _ _ _ _ _ _) as [l' m]. simpl. rewrite ?Hts, ?Hcache. auto.
      * simpl. rewrite ?Hts, ?Hcache. auto.
    + cbn [Agent._compile_prompt Agent._compiled_prompt Agent.tools
           Agent.prompt_template Agent.llm].
      destruct (str_format rt _ query) as [prompt|e].
      * destruct (Agent.loop _ _ _ _ _ _) as [l' m]. simpl. rewrite ?Hts, ?Hcache. auto.
      * simpl. rewrite ?Hts, ?Hcache. auto.
Qed.

(** ** llm_providers.py *)

(** The provider names [initialize_llm] has a branch for. *)
Definition supported_providers : list string :=
  ["openai"; "anthropic"; "groq"; "google"; "ollama"].

Lemma lower_char_idempotent (c : ascii) :
  Providers.lower_char (Providers.lower_char c) = Providers.lower_char c.
Proof.
  destruct c as [[] [] [] [] [] [] [] []]; vm_compute; reflexivity.
Qed.

Lemma py_lower_idempotent (s : string) :
  Providers.py_lower (Providers.py_lower s) = Providers.py_lower s.
Proof.
  induction s as [|c s IH]; simpl; [reflexivity|].
  now rewrite lower_char_idempotent, IH.
Qed.

Lemma unsupported_has_no_variable (p : string) :
  ~ In p supported_providers -> dict_get Providers.env_key_map p = None.
Proof.
  intros Hn. unfold Providers.env_key_map. cbn [dict_get].
  repeat match goal with
         | |- context [String.eqb ?a p] =>
             destruct (String.eqb_spec a p) as [<-|_];
             [exfalso; apply Hn; simpl; tauto|]
         end.
  reflexivity.
Qed.

(** X22.  [initialize_llm] looks at the provider name in lower case only:
    the name and its lower-cased form give the same result.  A name that in
    lower case is none of the five supported ones is refused with a
    [ValueError] that quotes the lower-cased name, whatever the key, the
    environment and the installed packages are. *)
Theorem initialize_llm_reads_the_provider_in_lower_case
    (env : Providers.environment) (provider model : string)
    (api_key : option string) (kwargs : dict pyval) :
  Providers.initialize_llm env (Providers.py_lower provider) model api_key kwargs
  = Providers.initialize_llm env provider model api_key kwargs
  /\ (~ In (Providers.py_lower provider) supported_providers ->
      Providers.initialize_llm env provider model api_key kwargs
      = Raise (Exn "ValueError"
                 ("Unsupported provider: " ++ Providers.py_lower provider
                    ++ ". Supported providers: 'openai', 'anthropic', 'groq', "
                    ++ "'google', 'ollama'"))).
Proof.
  split.
  - unfold Providers.initialize_llm. now rewrite py_lower_idempotent.
  - intros Hn. unfold Providers.initialize_llm, Providers.resolve_api_key.
    cbv zeta. revert Hn. generalize (Providers.py_lower provider) as p. intros p Hn.
    rewrite (unsupported_has_no_variable p Hn).
    assert (Hne : forall name, In name supported_providers -> String.eqb p name = false).
    { intros name Hin. destruct (String.eqb_spec p name) as [->|_]; [now elim Hn|reflexivity]. }
    rewrite !Hne by (simpl; tauto).
    destruct api_key; reflexivity.
Qed.

(** X23.  For a provider that has an API-key variable (the four hosted
    ones) the key is resolved before the wrapper is built: a key passed to
    the call is used as it is, also an empty one, and the environment is
    not looked at; without one the variable of the provider is read, and a
    variable that is unset or empty is a [ValueError] naming it, raised
    before the import of the SDK is attempted. *)
Theorem hosted_provider_key_comes_from_argument_then_environment
    (env : Providers.environment) (provider model : string) (kwargs : dict pyval)
    (env_var : string) :
  dict_get Providers.env_key_map (Providers.py_lower provider) = Some env_var ->
  exists k : Providers.kind,
    k <> Providers.Ollama
    /\ (forall key : string,
          Providers.initialize_llm env provider model (Some key) kwargs
          = Providers.construct env k model (PyStr key) kwargs)
    /\ Providers.initialize_llm env provider model None kwargs
       = match dict_get (Providers.environ env) env_var with
         | Some (String c key) =>
             Providers.construct env k model (PyStr (String c key)) kwargs
         | _ =>
             Raise (Exn "ValueError"
                      ("API key not provided and " ++ env_var
                         ++ " environment variable not set. "
                         ++ "Please provide api_key or set " ++ env_var ++ "."))
         end.
Proof.
  unfold Providers.initialize_llm, Providers.resolve_api_key. cbv zeta.
  generalize (Providers.py_lower provider) as p. intros p.
  unfold Providers.env_key_map. cbn [dict_get].
  destruct (String.eqb_spec "openai" p) as [<-|_].
  { intros [= <-]. exists Providers.OpenAI. split; [discriminate|]. split.
    - intros key. reflexivity.
    - cbn [dict_get String.eqb Ascii.eqb Bool.eqb].
      destruct (dict_get (Providers.environ env) "OPENAI_API_KEY") as [[|c key]|];
        reflexivity. }
  destruct (String.eqb_spec "anthropic" p) as [<-|_].
  { intros [= <-]. exists Providers.Anthropic. split; [discriminate|]. split.
    - intros key. reflexivity.
    - cbn [dict_get String.eqb Ascii.eqb Bool.eqb].
      destruct (dict_get (Providers.environ env) "ANTHROPIC_API_KEY") as [[|c key]|];
        reflexivity. }
  destruct (String.eqb_spec "groq" p) as [<-|_].
  { intros [= <-]. exists Providers.Groq. split; [discriminate|]. split.
    - intros key. reflexivity.
    - cbn [dict_get String.eqb Ascii.eqb Bool.eqb].
      destruct (dict_get (Providers.environ env) "GROQ_API_KEY") as [[|c key]|];
        reflexivity. }
  destruct (String.eqb_spec "google" p) as [<-|_].
  { intros [= <-]. exists Providers.Google. split; [discriminate|]. split.
    - intros key. reflexivity.
    - cbn [dict_get String.eqb Ascii.eqb Bool.eqb].
      destruct (dict_get (Providers.environ env) "GOOGLE_API_KEY") as [[|c key]|];
        reflexivity. }
  discriminate.
Qed.

Lemma hosted_provider_key_comes_from_argument_then_environment_witness :
  let env := {| Providers.environ := [("GROQ_API_KEY", "gsk")];
                Providers.installed := fun _ => true |} in
  dict_get Providers.env_key_map (Providers.py_lower "Groq") = Some "GROQ_API_KEY"
  /\ exists k : Providers.kind,
       k <> Providers.Ollama
       /\ (forall key : string,
             Providers.initialize_llm env "Groq" "llama3" (Some key) []
             = Providers.construct env k "llama3" (PyStr key) [])
       /\ Providers.initialize_llm env "Groq" "llama3" None []
          = match dict_get (Providers.environ env) "GROQ_API_KEY" with
            | Some (String c key) =>
                Providers.construct env k "llama3" (PyStr (String c key)) []
            | _ =>
                Raise (Exn "ValueError"
                         ("API key not provided and " ++ "GROQ_API_KEY"
                            ++ " environment variable not set. "
                            ++ "Please provide api_key or set " ++ "GROQ_API_KEY" ++ "."))
            end.
Proof.
  intros env. split; [reflexivity|].
  exact (hosted_provider_key_comes_from_argument_then_environment
           env "Groq" "llama3" [] "GROQ_API_KEY" eq_refl).
Defined.

Lemma dict_mem_del_same {V : Type} (d : dict V) (k : string) :
  NoDup (dict_keys d) -> dict_mem (dict_del d k) k = false.
Proof. intros Hd. unfold dict_mem. now rewrite dict_get_del_same. Qed.

Lemma dict_del_absent {V : Type} (d : dict V) (k : string) :
  dict_get d k = None -> dict_del d k = d.
Proof.
  induction d as [|[k0 v0] d IH]; simpl; [reflexivity|].
  destruct (String.eqb k0 k); [discriminate|]. intros H. now rewrite IH.
Qed.

(** X24.  For the provider [ollama] the API key plays no part.  With the SDK
    installed the call succeeds; the address the client is built with is the
    [base_url] keyword if there is one, else the variable [OLLAMA_BASE_URL]
    if it is set (an empty value is taken as it is), else the local default;
    [base_url] is taken out of the keywords kept for later requests, and the
    others are kept. *)
Theorem ollama_needs_no_key_and_takes_its_address_from_the_keywords_first
    (env : Providers.environment) (provider model : string)
    (api_key : option string) (kwargs : dict pyval) :
  Providers.py_lower provider = "ollama" ->
  NoDup (dict_keys kwargs) ->
  Providers.installed env Providers.Ollama = true ->
  Providers.initialize_llm env provider model api_key kwargs
  = Providers.initialize_llm env provider model None kwargs
  /\ exists w : Providers.wrapper,
       Providers.initialize_llm env provider model api_key kwargs = Ok w
       /\ Providers.wrapper_kind w = Providers.Ollama
       /\ Providers.wrapper_model w = model
       /\ Providers.client_argument w
          = match dict_get kwargs "base_url",
                  dict_get (Providers.environ env) "OLLAMA_BASE_URL" with
            | Some v, _ => v
            | None, Some url => PyStr url
            | None, None => PyStr "http://localhost:11434"
            end
       /\ dict_mem (Providers.wrapper_kwargs w) "base_url" = false
       /\ forall k : string, k <> "base_url" ->
            dict_get (Providers.wrapper_kwargs w) k = dict_get kwargs k.
Proof.
  intros Hp Hd Hi. unfold Providers.initialize_llm, Providers.resolve_api_key.
  cbv zeta. rewrite Hp. cbn [String.eqb Ascii.eqb Bool.eqb].
  unfold Providers.construct. rewrite Hi. split.
  - destruct api_key; reflexivity.
  - eexists. split; [destruct api_key; reflexivity|].
    cbn [Providers.wrapper_kind Providers.wrapper_model Providers.client_argument
         Providers.wrapper_kwargs].
    repeat split.
    + unfold dict_get_default.
      destruct (dict_get kwargs "base_url"); [reflexivity|].
      destruct (dict_get (Providers.environ env) "OLLAMA_BASE_URL"); reflexivity.
    + now apply dict_mem_del_same.
    + intros k Hk. now apply dict_get_del_other.
Qed.

Lemma ollama_needs_no_key_and_takes_its_address_from_the_keywords_first_witness :
  let env := {| Providers.environ := [("OLLAMA_BASE_URL", "http://gpu:11434")];
                Providers.installed := fun _ => true |} in
  let kwargs := [("temperature", PyInt 0)] in
  Providers.initialize_llm env "OLLAMA" "llama2" (Some "unused") kwargs
  = Providers.initialize_llm env "OLLAMA" "llama2" None kwargs
  /\ exists w : Providers.wrapper,
       Providers.initialize_llm env "OLLAMA" "llama2" (Some "unused") kwargs = Ok w
       /\ Providers.wrapper_kind w = Providers.Ollama
       /\ Providers.wrapper_model w = "llama2"
       /\ Providers.client_argument w
          = match dict_get kwargs "base_url",
                  dict_get (Providers.environ env) "OLLAMA_BASE_URL" with
            | Some v, _ => v
            | None, Some url => PyStr url
            | None, None => PyStr "http://localhost:11434"
            end
       /\ dict_mem (Providers.wrapper_kwargs w) "base_url" = false
       /\ forall k : string, k <> "base_url" ->
            dict_get (Providers.wrapper_kwargs w) k = dict_get kwargs k.
Proof.
  intros env kwargs.
  apply (ollama_needs_no_key_and_takes_its_address_from_the_keywords_first
           env "OLLAMA" "llama2" (Some "unused") kwargs eq_refl).
  - repeat constructor; simpl; intuition discriminate.
  - reflexivity.
Defined.

Lemma keyword_call_ok (explicit kwargs : dict pyval) :
  (forall key : string, In key (dict_keys explicit) -> dict_mem kwargs key = false) ->
  Providers.keyword_call explicit kwargs = Ok (explicit ++ kwargs)%list.
Proof.
  induction explicit as [|[key v] rest IH]; intros H; simpl; [reflexivity|].
  rewrite (H key) by now left.
  rewrite IH; [reflexivity|]. intros k Hk. apply H. now right.
Qed.

Lemma keyword_call_shape (explicit kwargs : dict pyval) :
  match Providers.keyword_call explicit kwargs with
  | Ok all =>
      all = (explicit ++ kwargs)%list
      /\ forall key : string, In key (dict_keys explicit) -> dict_mem kwargs key = false
  | Raise e =>
      exn_class e = "TypeError"
      /\ exists key : string, In key (dict_keys explicit) /\ dict_mem kwargs key = true
  end.
Proof.
  induction explicit as [|[key v] rest IH]; simpl.
  - split; [reflexivity|]. intros key [].
  - destruct (dict_mem kwargs key) eqn:Hm.
    + split; [reflexivity|]. exists key. auto.
    + destruct (Providers.keyword_call rest kwargs) as [all|e].
      * destruct IH as [-> IH]. split; [reflexivity|].
        intros k [<-|Hk]; [exact Hm|now apply IH].
      * destruct IH as [Hc (k & Hk & Hmem)]. split; [exact Hc|]. exists k. auto.
Qed.

Lemma dict_get_app_absent {V : Type} (d d' : dict V) (k : string) :
  dict_get d k = None -> dict_get (d ++ d')%list k = dict_get d' k.
Proof.
  induction d as [|[k0 v0] d IH]; simpl; [reflexivity|].
  destruct (String.eqb k0 k); [discriminate|exact IH].
Qed.

(** X25.  An Anthropic wrapper forgets its [max_tokens].  The first request
    that can be put together carries the [max_tokens] the wrapper was built
    with (4096 if there was none) and takes the entry out of the stored
    keywords; every request after it can be put together as well, carries
    4096, and leaves the wrapper as it is. *)
Theorem anthropic_max_tokens_reach_the_first_request_only
    (w : Providers.wrapper) (first later : string) (keywords : dict pyval) :
  Providers.wrapper_kind w = Providers.Anthropic ->
  NoDup (dict_keys (Providers.wrapper_kwargs w)) ->
  fst (Providers.request w first) = Ok (Call [] keywords) ->
  let w' := snd (Providers.request w first) in
  dict_get keywords "max_tokens"
  = Some (dict_get_default (Providers.wrapper_kwargs w) "max_tokens" (PyInt 4096))
  /\ dict_mem (Providers.wrapper_kwargs w') "max_tokens" = false
  /\ exists keywords' : dict pyval,
       fst (Providers.request w' later) = Ok (Call [] keywords')
       /\ dict_get keywords' "max_tokens" = Some (PyInt 4096)
       /\ dict_get keywords' "messages" = Some (Providers.user_message later)
       /\ snd (Providers.request w' later) = w'.
Proof.
  intros Hk Hd Hfirst w'. subst w'. revert Hfirst.
  unfold Providers.request. rewrite Hk. cbn [fst snd Providers.wrapper_kind
    Providers.wrapper_kwargs Providers.wrapper_model Providers.client_argument].
  set (remaining := dict_del (Providers.wrapper_kwargs w) "max_tokens").
  assert (Hgone : dict_get remaining "max_tokens" = None)
    by now apply dict_get_del_same.
  assert (Hsame : dict_del remaining "max_tokens" = remaining)
    by now apply dict_del_absent.
  pose proof (keyword_call_shape
                [("model", PyStr (Providers.wrapper_model w));
                 ("max_tokens",
                  dict_get_default (Providers.wrapper_kwargs w) "max_tokens" (PyInt 4096));
                 ("messages", Providers.user_message first)] remaining) as Hshape.
  destruct (Providers.keyword_call _ remaining) as [all|e]; [|discriminate].
  destruct Hshape as [-> Hfree]. intros [= <-]. split; [reflexivity|].
  split; [unfold dict_mem; now rewrite Hgone|].
  rewrite Hsame. unfold dict_get_default at 1. rewrite Hgone.
  rewrite keyword_call_ok by exact Hfree.
  eexists. split; [reflexivity|]. repeat split.
Qed.

Lemma anthropic_max_tokens_reach_the_first_request_only_witness :
  let w := {| Providers.wrapper_kind := Providers.Anthropic;
              Providers.wrapper_model := "claude";
              Providers.client_argument := PyStr "key";
              Providers.wrapper_kwargs := [("max_tokens", PyInt 100)] |} in
  let w' := snd (Providers.request w "one") in
  dict_get [("model", PyStr "claude"); ("max_tokens", PyInt 100);
            ("messages", Providers.user_message "one")] "max_tokens"
  = Some (dict_get_default (Providers.wrapper_kwargs w) "max_tokens" (PyInt 4096))
  /\ dict_mem (Providers.wrapper_kwargs w') "max_tokens" = false
  /\ exists keywords' : dict pyval,
       fst (Providers.request w' "two") = Ok (Call [] keywords')
       /\ dict_get keywords' "max_tokens" = Some (PyInt 4096)
       /\ dict_get keywords' "messages" = Some (Providers.user_message "two")
       /\ snd (Providers.request w' "two") = w'.
Proof.
  intros w w'.
  apply (anthropic_max_tokens_reach_the_first_request_only w "one" "two"
           [("model", PyStr "claude"); ("max_tokens", PyInt 100);
            ("messages", Providers.user_message "one")] eq_refl).
  - repeat constructor; simpl; intuition discriminate.
  - reflexivity.
Defined.

(** X26.  The other four wrappers keep no state between requests.  A request
    that can be put together hands every stored keyword argument to the
    client unchanged; it cannot be put together only when a stored keyword
    is [model] or [messages], which the wrapper passes itself, and then it
    is a [TypeError] (never for the Google wrapper, which passes the prompt
    by position). *)
Theorem other_wrappers_are_stateless_and_pass_their_keywords_on
    (w : Providers.wrapper) (prompt : string) :
  Providers.wrapper_kind w <> Providers.Anthropic ->
  snd (Providers.request w prompt) = w
  /\ match fst (Providers.request w prompt) with
     | Ok c =>
         forall (k : string) (v : pyval),
           dict_get (Providers.wrapper_kwargs w) k = Some v ->
           dict_get (kwargs c) k = Some v
     | Raise e =>
         exn_class e = "TypeError"
         /\ Providers.wrapper_kind w <> Providers.Google
         /\ (dict_mem (Providers.wrapper_kwargs w) "model"
             || dict_mem (Providers.wrapper_kwargs w) "messages") = true
     end.
Proof.
  intros Hk. unfold Providers.request.
  pose proof (keyword_call_shape
                [("model", PyStr (Providers.wrapper_model w));
                 ("messages", Providers.user_message prompt)]
                (Providers.wrapper_kwargs w)) as Hshape.
  assert (Hrest :
    snd (match Providers.keyword_call
                 [("model", PyStr (Providers.wrapper_model w));
                  ("messages", Providers.user_message prompt)]
                 (Providers.wrapper_kwargs w) with
         | Ok keywords => Ok (Call [] keywords)
         | Raise e => Raise e
         end, w) = w
    /\ (Providers.wrapper_kind w <> Providers.Google ->
        match fst (match Providers.keyword_call
                           [("model", PyStr (Providers.wrapper_model w));
                            ("messages", Providers.user_message prompt)]
                           (Providers.wrapper_kwargs w) with
                   | Ok keywords => Ok (Call [] keywords)
                   | Raise e => Raise e
                   end, w) with
        | Ok c =>
            forall (k : string) (v : pyval),
              dict_get (Providers.wrapper_kwargs w) k = Some v ->
              dict_get (kwargs c) k = Some v
        | Raise e =>
            exn_class e = "TypeError"
            /\ Providers.wrapper_kind w <> Providers.Google
            /\ (dict_mem (Providers.wrapper_kwargs w) "model"
                || dict_mem (Providers.wrapper_kwargs w) "messages") = true
        end)).
  { split; [reflexivity|]. intros Hg. cbn [fst].
    destruct (Providers.keyword_call _ (Providers.wrapper_kwargs w)) as [all|e].
    - destruct Hshape as [-> Hfree]. intros k v Hget. cbn [kwargs].
      assert (Hkm : k <> "model").
      { intros ->. specialize (Hfree "model"). unfold dict_mem in Hfree.
        rewrite Hget in Hfree. discriminate Hfree. simpl. auto. }
      assert (Hks : k <> "messages").
      { intros ->. specialize (Hfree "messages"). unfold dict_mem in Hfree.
        rewrite Hget in Hfree. discriminate Hfree. simpl. auto. }
      cbn [app dict_get].
      destruct (String.eqb_spec "model" k) as [E|_]; [now elim Hkm|].
      destruct (String.eqb_spec "messages" k) as [E|_]; [now elim Hks|].
      exact Hget.
    - destruct Hshape as [Hc (k & Hin & Hmem)]. split; [exact Hc|]. split; [exact Hg|].
      simpl in Hin. destruct Hin as [<-|[<-|[]]]; rewrite Hmem;
        [reflexivity|apply orb_true_r]. }
  destruct Hrest as [Hsnd Hfst].
  destruct (Providers.wrapper_kind w) eqn:Hkind; try exact (conj Hsnd (Hfst ltac:(discriminate))).
  - now elim Hk.
  - split; [reflexivity|]. cbn [fst kwargs]. auto.
Qed.

Lemma other_wrappers_are_stateless_and_pass_their_keywords_on_witness :
  let w := {| Providers.wrapper_kind := Providers.Groq;
              Providers.wrapper_model := "llama3";
              Providers.client_argument := PyStr "key";
              Providers.wrapper_kwargs := [("temperature", PyInt 0)] |} in
  snd (Providers.request w "hello") = w
  /\ match fst (Providers.request w "hello") with
     | Ok c =>
         forall (k : string) (v : pyval),
           dict_get (Providers.wrapper_kwargs w) k = Some v ->
           dict_get (kwargs c) k = Some v
     | Raise e =>
         exn_class e = "TypeError"
         /\ Providers.wrapper_kind w <> Providers.Google
         /\ (dict_mem (Providers.wrapper_kwargs w) "model"
             || dict_mem (Providers.wrapper_kwargs w) "messages") = true
     end.
Proof.
  intros w.
  apply (other_wrappers_are_stateless_and_pass_their_keywords_on w "hello").
  discriminate.
Defined.

(** ** The placeholder of the prompt template *)

Lemma replace_without_occurrence (old new s : string) :
  contains old s = false -> str_replace old new s = s.
Proof.
  unfold str_replace. induction s as [|c s IH]; [reflexivity|].
  cbn [contains replace_from]. intros H. apply orb_false_iff in H as [Hp Hc].
  rewrite Hp. now rewrite IH.
Qed.

Lemma replace_skips (old new xs s : string) :
  replace_from old new (String.length xs) (xs ++ s) = replace_from old new 0 s.
Proof. induction xs as [|c xs IH]; [reflexivity|exact IH]. Qed.

Lemma replace_first_placeholder (new before s : string) :
  contains "{" before = false ->
  str_replace "{tool_list}" new (before ++ "{tool_list}" ++ s)
  = before ++ new ++ str_replace "{tool_list}" new s.
Proof.
  unfold str_replace. induction before as [|c b IH]; intros H.
  - change (EmptyString ++ "{tool_list}" ++ s) with (String "{" ("tool_list}" ++ s)).
    cbn [replace_from].
    replace (String.prefix "{tool_list}" (String "{" ("tool_list}" ++ s))) with true
      by (symmetry; apply (prefix_app "{tool_list}" s)).
    change (String.length "{tool_list}" - 1) with (String.length "tool_list}").
    now rewrite replace_skips.
  - cbn [contains] in H. apply orb_false_iff in H as [Hp Hc].
    change (String c b ++ "{tool_list}" ++ s) with (String c (b ++ "{tool_list}" ++ s)).
    cbn [replace_from].
    assert (Hpre : String.prefix "{tool_list}" (String c (b ++ "{tool_list}" ++ s)) = false).
    { cbn [String.prefix] in *. destruct (ascii_dec "{" c); [|reflexivity].
      destruct b; discriminate Hp. }
    rewrite Hpre, (IH Hc). reflexivity.
Qed.

(** X27.  The tool list reaches the prompt through the placeholder only.  A
    template in which the placeholder [{tool_list}] follows text without a
    brace and is followed by text without another placeholder compiles to
    the same text with the list in the placeholder's place, in both agents
    (for the core agent when the configuration adds no special instructions
    and no examples); the part without a placeholder compiles to itself, so
    with such a template the model is never told about the tools. *)
Theorem tool_list_goes_exactly_where_the_placeholder_is
    (before after : string) (ats : dict Agent.tool_info)
    (cts : dict Core.tool_info) (cfg : Core.AgentConfig) :
  contains "{" before = false ->
  contains "{tool_list}" after = false ->
  Core.special_instructions cfg = EmptyString ->
  Core.examples cfg = [] ->
  Agent.compile (before ++ "{tool_list}" ++ after) ats
  = before
    ++ join nl (map (fun item => "        - " ++ fst item ++ ": "
                                   ++ Agent.description (snd item)) ats)
    ++ after
  /\ Core.compile (before ++ "{tool_list}" ++ after) cfg cts
     = before ++ Core.get_tools_description cts ++ after
  /\ Agent.compile after ats = after
  /\ Core.compile after cfg cts = after.
Proof.
  intros Hb Ha Hs He. unfold Agent.compile, Core.compile. cbv zeta.
  rewrite Hs, He. cbn [truthy].
  rewrite !(replace_first_placeholder _ before after Hb).
  rewrite !(replace_without_occurrence _ _ after Ha). repeat split.
Qed.

Lemma tool_list_goes_exactly_where_the_placeholder_is_witness :
  let before := "Tools:" ++ nl in
  let after := nl ++ "Question: {user_input}" in
  let cfg := Core.create_custom_config "plain" "unused" [] None None None [] in
  Agent.compile (before ++ "{tool_list}" ++ after) Demo.agent_tools
  = before
    ++ join nl (map (fun item => "        - " ++ fst item ++ ": "
                                   ++ Agent.description (snd item)) Demo.agent_tools)
    ++ after
  /\ Core.compile (before ++ "{tool_list}" ++ after) cfg Demo.core_tools
     = before ++ Core.get_tools_description Demo.core_tools ++ after
  /\ Agent.compile after Demo.agent_tools = after
  /\ Core.compile after cfg Demo.core_tools = after.
Proof.
  intros before after cfg.
  exact (tool_list_goes_exactly_where_the_placeholder_is
           before after Demo.agent_tools Demo.core_tools cfg
           eq_refl eq_refl eq_refl eq_refl).
Defined.
